(** * Expense and user repositories: state synchronisation and persistence

    A shallow embedding of the client-side data managers of the expense
    tracker: [src/context/ExpenseContext.tsx], [src/context/AuthContext.tsx],
    the local-only variants of the two providers, the admin delete flow and
    the translation table of [src/pages/admin/UserManagement.tsx], and the
    submit and edit handlers of [src/pages/sales/AddExpense.tsx] and
    [src/pages/sales/SalesHome.tsx].

    React state is threaded explicitly, the remote document store and the
    browser's key/value storage are small executable models, and an [async]
    function is a term cut at its [await]s. *)

From Stdlib Require Import ZArith Lia Ascii String.
From stdpp Require Import base strings list gmap sorting pretty.

Open Scope Z_scope.

Set Warnings "-register-all".

(** ** Values exchanged with the platform *)

(** The value space of [JSON.parse]. Numbers keep their lexeme. *)
Inductive Json : Type :=
| JNull
| JBool (b : bool)
| JNumber (lexeme : string)
| JString (s : string)
| JArray (elements : list Json)
| JObject (members : list (string * Json)).

(** [Array.isArray(parsed)] *)
Definition isArray (v : Json) : bool :=
  match v with JArray _ => true | _ => false end.

(** JavaScript truthiness of a [string | undefined | null] value. *)
Definition truthy (s : option string) : bool :=
  match s with
  | Some s => negb (bool_decide (s = ""))
  | None => false
  end.

(** ** Data model *)

(** Amounts are only stored, copied and compared by this layer. *)
Definition number := Z.

(** Modelled from the spec: [types.ts] is not among the sources. The
    enumerations are those of the data model; the fields are those of the
    object literals built in [AddExpense.tsx] and in [signup]. *)
Inductive UserRole := SALES | MANAGER | ADMIN.

Inductive ExpenseStatus := SUBMITTED | APPROVED | REJECTED.

#[global] Instance UserRole_eq_dec : EqDecision UserRole.
Proof. solve_decision. Defined.

#[global] Instance ExpenseStatus_eq_dec : EqDecision ExpenseStatus.
Proof. solve_decision. Defined.

(** The pending profile update of a user. *)
Module Pending.
Record t := mk { name : string; email : string; date : string }.
End Pending.

Module User.
Record t := mk {
    id : string;
    name : string;
    email : string;
    password : string;
    role : UserRole;
    avatar : string;
    pendingUpdates : option Pending.t
  }.
End User.

(** [{ ...u, pendingUpdates }] *)
Definition withPending (u : User.t) (p : option Pending.t) : User.t :=
  User.mk (User.id u) (User.name u) (User.email u) (User.password u)
          (User.role u) (User.avatar u) p.

(** An expense. The record is shared by the in-memory objects (identifier
    and creation time are strings) and by the documents of the remote store,
    whose [id] field may be missing and whose [createdAt] may be a store
    timestamp. *)
Module Expense.
Record t (I T : Type) := mk {
    id : I;
    userId : string;
    userName : string;
    merchant : string;
    date : string;
    subtotal : number;
    tax : number;
    total : number;
    category : string;
    imageUrl : string;
    status : ExpenseStatus;
    notes : string;
    createdAt : T
  }.
Arguments mk {I T}.
Arguments id {I T}.
Arguments userId {I T}.
Arguments userName {I T}.
Arguments merchant {I T}.
Arguments date {I T}.
Arguments subtotal {I T}.
Arguments tax {I T}.
Arguments total {I T}.
Arguments category {I T}.
Arguments imageUrl {I T}.
Arguments status {I T}.
Arguments notes {I T}.
Arguments createdAt {I T}.
End Expense.

Abbreviation Expense := (Expense.t string string).

(** A [createdAt] field as the remote store returns it. *)
Inductive FieldTime :=
| TimeString (s : string)
| Timestamp (ms : Z).

(** The result of [doc.data()] on a document of the expense collection. *)
Abbreviation ExpenseData := (Expense.t (option string) FieldTime).

(** [Partial<Expense>]: each field is present or not. *)
Module PartialExpense.
Record t := mk {
    id : option string;
    userId : option string;
    userName : option string;
    merchant : option string;
    date : option string;
    subtotal : option number;
    tax : option number;
    total : option number;
    category : option string;
    imageUrl : option string;
    status : option ExpenseStatus;
    notes : option string;
    createdAt : option string
  }.

Definition empty : t :=
  mk None None None None None None None None None None None None None.

(** [{ status }] with [notes] added when given. *)
Definition statusAndNotes (status : ExpenseStatus) (notes : option string) : t :=
  mk None None None None None None None None None None (Some status) notes None.
End PartialExpense.

(** [{ ...exp, ...updatedExpense }]: a field of the patch wins when present.
    [inI] and [inT] place a string into the identifier and time fields of the
    target record. *)
Definition spread {I T : Type} (inI : string → I) (inT : string → T)
    (exp : Expense.t I T) (updatedExpense : PartialExpense.t) : Expense.t I T :=
  {| Expense.id := from_option inI (Expense.id exp) (PartialExpense.id updatedExpense);
     Expense.userId := default (Expense.userId exp) (PartialExpense.userId updatedExpense);
     Expense.userName := default (Expense.userName exp) (PartialExpense.userName updatedExpense);
     Expense.merchant := default (Expense.merchant exp) (PartialExpense.merchant updatedExpense);
     Expense.date := default (Expense.date exp) (PartialExpense.date updatedExpense);
     Expense.subtotal := default (Expense.subtotal exp) (PartialExpense.subtotal updatedExpense);
     Expense.tax := default (Expense.tax exp) (PartialExpense.tax updatedExpense);
     Expense.total := default (Expense.total exp) (PartialExpense.total updatedExpense);
     Expense.category := default (Expense.category exp) (PartialExpense.category updatedExpense);
     Expense.imageUrl := default (Expense.imageUrl exp) (PartialExpense.imageUrl updatedExpense);
     Expense.status := default (Expense.status exp) (PartialExpense.status updatedExpense);
     Expense.notes := default (Expense.notes exp) (PartialExpense.notes updatedExpense);
     Expense.createdAt :=
       from_option inT (Expense.createdAt exp) (PartialExpense.createdAt updatedExpense) |}.

(** The object handed to [setDoc] is the in-memory expense itself. *)
Definition toData (e : Expense) : ExpenseData :=
  {| Expense.id := Some (Expense.id e);
     Expense.userId := Expense.userId e;
     Expense.userName := Expense.userName e;
     Expense.merchant := Expense.merchant e;
     Expense.date := Expense.date e;
     Expense.subtotal := Expense.subtotal e;
     Expense.tax := Expense.tax e;
     Expense.total := Expense.total e;
     Expense.category := Expense.category e;
     Expense.imageUrl := Expense.imageUrl e;
     Expense.status := Expense.status e;
     Expense.notes := Expense.notes e;
     Expense.createdAt := TimeString (Expense.createdAt e) |}.

(** ** The platform

    Functions of the JavaScript runtime and the seed collections of
    [mockData.ts] (not among the sources) that the repositories call. *)
Class Platform := {
  (** [String.prototype.toLowerCase] *)
  toLowerCase : string → string;
  (** [encodeURIComponent] *)
  encodeURIComponent : string → string;
  (** [new Date(s).getTime()]; [None] is [NaN] *)
  getTime : string → option Z;
  (** [new Date(ms).toISOString()] *)
  toISOString : Z → string;
  (** [JSON.parse]; [None] is a thrown [SyntaxError] *)
  JSON_parse : string → option Json;
  (** [JSON.stringify] on the two collections *)
  stringify_expenses : list Expense → string;
  stringify_users : list User.t → string;
  MOCK_EXPENSES : list Expense;
  MOCK_USERS : list User.t
}.

(** ** Browser storage

    A synchronous key to string store with a capacity ceiling, counted in
    characters of keys and values; a write that would exceed it raises. *)
Module LocalStorage.
Record t := mk { items : gmap string string; capacity : N }.

Definition used (m : gmap string string) : N :=
  map_fold (λ k v acc, (N.of_nat (String.length k) + N.of_nat (String.length v) + acc)%N)
           0%N m.

Definition getItem (key : string) (st : t) : option string := items st !! key.

(** [None] is a thrown [QuotaExceededError]; the store is then unchanged. *)
Definition setItem (key value : string) (st : t) : option t :=
  let m := <[key := value]> (items st) in
  if decide (used m ≤ capacity st)%N then Some (mk m (capacity st)) else None.

Definition removeItem (key : string) (st : t) : t :=
  mk (delete key (items st)) (capacity st).
End LocalStorage.

(** ** Remote document store

    Two collections of documents addressed by key. The behaviour is the
    documented one of the store's client library: [setDoc] creates or
    overwrites, [updateDoc] patches an existing document and is rejected when
    there is none, [deleteDoc] removes, a committed batch is applied as one
    write, and every call is rejected when the store cannot be reached or
    denies access. *)
Inductive Request :=
| SetUser (key : string) (data : User.t)
| UpdateUser (key : string) (pendingUpdates : Pending.t)
| DeleteUser (key : string)
| SetExpense (key : string) (data : Expense)
| UpdateExpense (key : string) (fields : PartialExpense.t)
| DeleteExpense (key : string)
| GetExpensesWhereUserId (userId : string)
| Commit (deletes : list string).

Inductive Response :=
| Resolved
| Docs (refs : list string)
| Rejected.

Module Firestore.
Record t := mk {
  users : gmap string User.t;
  expenses : gmap string ExpenseData;
  available : bool
}.

Definition handle (r : Request) (db : t) : Response * t :=
  if negb (available db) then (Rejected, db) else
  match r with
  | SetUser key data =>
      (Resolved, mk (<[key := data]> (users db)) (expenses db) true)
  | UpdateUser key p =>
      match users db !! key with
      | Some u =>
          (Resolved, mk (<[key := withPending u (Some p)]> (users db)) (expenses db) true)
      | None => (Rejected, db)
      end
  | DeleteUser key =>
      (Resolved, mk (delete key (users db)) (expenses db) true)
  | SetExpense key data =>
      (Resolved, mk (users db) (<[key := toData data]> (expenses db)) true)
  | UpdateExpense key fields =>
      match expenses db !! key with
      | Some d =>
          (Resolved,
           mk (users db) (<[key := spread Some TimeString d fields]> (expenses db)) true)
      | None => (Rejected, db)
      end
  | DeleteExpense key =>
      (Resolved, mk (users db) (delete key (expenses db)) true)
  | GetExpensesWhereUserId uid =>
      (Docs (map_to_list (filter (λ kd, Expense.userId kd.2 = uid) (expenses db))).*1, db)
  | Commit deletes =>
      (Resolved, mk (users db) (foldr delete (expenses db) deletes) true)
  end.

(** Requests that change a collection. *)
Definition isWrite (r : Request) : bool :=
  match r with GetExpensesWhereUserId _ => false | _ => true end.

(** Requests that change the expense collection. *)
Definition writesExpenses (r : Request) : bool :=
  match r with
  | SetExpense _ _ | UpdateExpense _ _ | DeleteExpense _ | Commit _ => true
  | _ => false
  end.
End Firestore.

(** ** Patches of one field of a user document

    [updateDoc(doc(db, 'users', userId), { role: newRole })] and its two
    siblings, which patch the avatar and the password. *)
Inductive UserField :=
| Role (newRole : UserRole)
| Avatar (avatarUrl : string)
| Password (password : string).

(** [{ ...u, role: newRole }], [{ ...u, avatar: avatarUrl }],
    [{ ...u, password: password }] *)
Definition withField (u : User.t) (f : UserField) : User.t :=
  match f with
  | Role newRole =>
      User.mk (User.id u) (User.name u) (User.email u) (User.password u)
              newRole (User.avatar u) (User.pendingUpdates u)
  | Avatar avatarUrl =>
      User.mk (User.id u) (User.name u) (User.email u) (User.password u)
              (User.role u) avatarUrl (User.pendingUpdates u)
  | Password password =>
      User.mk (User.id u) (User.name u) (User.email u) password
              (User.role u) (User.avatar u) (User.pendingUpdates u)
  end.

Module UserDocs.
(** [updateDoc] on a user document: an existing document is patched; the
    call is rejected when there is none or the store cannot be reached. *)
Definition updateDoc (key : string) (f : UserField) (db : Firestore.t)
    : Response * Firestore.t :=
  if negb (Firestore.available db) then (Rejected, db) else
  match Firestore.users db !! key with
  | Some u =>
      (Resolved,
       Firestore.mk (<[key := withField u f]> (Firestore.users db))
                    (Firestore.expenses db) true)
  | None => (Rejected, db)
  end.
End UserDocs.

(** ** Client state: the two providers, storage, and what the user is shown *)
Module ExpenseState.
Record t := mk { expenses : list Expense; useCloud : bool }.
End ExpenseState.

Module AuthState.
Record t := mk {
  allUsers : list User.t;
  user : option User.t;
  isLoading : bool;
  useCloud : bool
}.
End AuthState.

Record Client := mkClient {
  expenseProvider : ExpenseState.t;
  authProvider : AuthState.t;
  storage : LocalStorage.t;
  alerts : list string;
  console : list string
}.

Definition setExpenses (f : list Expense → list Expense) (c : Client) : Client :=
  mkClient (ExpenseState.mk (f (ExpenseState.expenses (expenseProvider c)))
                            (ExpenseState.useCloud (expenseProvider c)))
           (authProvider c) (storage c) (alerts c) (console c).

Definition setAllUsers (f : list User.t → list User.t) (c : Client) : Client :=
  mkClient (expenseProvider c)
           (AuthState.mk (f (AuthState.allUsers (authProvider c))) (AuthState.user (authProvider c))
                         (AuthState.isLoading (authProvider c)) (AuthState.useCloud (authProvider c)))
           (storage c) (alerts c) (console c).

Definition setUser (u : option User.t) (c : Client) : Client :=
  mkClient (expenseProvider c)
           (AuthState.mk (AuthState.allUsers (authProvider c)) u
                         (AuthState.isLoading (authProvider c)) (AuthState.useCloud (authProvider c)))
           (storage c) (alerts c) (console c).

Definition setIsLoading (b : bool) (c : Client) : Client :=
  mkClient (expenseProvider c)
           (AuthState.mk (AuthState.allUsers (authProvider c)) (AuthState.user (authProvider c))
                         b (AuthState.useCloud (authProvider c)))
           (storage c) (alerts c) (console c).

Definition setStorage (st : LocalStorage.t) (c : Client) : Client :=
  mkClient (expenseProvider c) (authProvider c) st (alerts c) (console c).

Definition alert (msg : string) (c : Client) : Client :=
  mkClient (expenseProvider c) (authProvider c) (storage c) (alerts c ++ [msg]) (console c).

Definition console_error (msg : string) (c : Client) : Client :=
  mkClient (expenseProvider c) (authProvider c) (storage c) (alerts c) (console c ++ [msg]).

(** ** Asynchronous functions

    The body of an [async] function, cut at its [await]s. [Act f k h] runs
    the synchronous step [f] and goes on with [k], or with [h] when the step
    throws. [Await r k] issues the store call [r] and suspends; [k] resumes
    with the settled result. [Throw] is an exception that leaves the
    function (its promise rejects), [Crash] an exception thrown by a state
    updater while React renders. *)
Inductive Async :=
| Return
| Throw
| Crash
| Act (f : Client → option Client) (k : Async) (h : Async)
| Await (r : Request) (k : Response → Async).

(** A step that cannot throw. *)
Definition Do (f : Client → Client) (k : Async) : Async :=
  Act (λ c, Some (f c)) k Throw.

Inductive Outcome := Fulfilled | Rejects | Crashes.

Record World := mkWorld { client : Client; db : Firestore.t }.

(** The subscription callbacks registered with the store. *)
Definition Listener := Request → Firestore.t → Client → Client.

(** The store call changed a collection. *)
Definition accepted (r : Request) (resp : Response) : bool :=
  match resp with Rejected => false | _ => Firestore.isWrite r end.

(** One call, awaited to its end: every store call settles before the next
    statement runs, and the listeners see each accepted write. *)
Fixpoint exec (notify : Listener) (a : Async) (w : World) : Outcome * World :=
  match a with
  | Return => (Fulfilled, w)
  | Throw => (Rejects, w)
  | Crash => (Crashes, w)
  | Act f k h =>
      match f (client w) with
      | Some c => exec notify k (mkWorld c (db w))
      | None => exec notify h w
      end
  | Await r k =>
      let '(resp, db') := Firestore.handle r (db w) in
      let c := if accepted r resp then notify r db' (client w) else client w in
      exec notify (k resp) (mkWorld c db')
  end.

(** Calls that are not awaited. A call runs up to its first [await], where
    the store call is issued and the rest of the body is parked; the caller
    then continues. Issued calls settle in the order of issue; a resumed body
    runs to its next [await], whose call joins the end of the queue. *)
Record Parked := mkParked { request : Request; resume : Response → Async }.

Record Loop := mkLoop {
  world : World;
  inflight : list Parked;
  issued : list Request;      (* every store call, in the order of issue *)
  observed : list Firestore.t; (* the store after each accepted write *)
  settled : list Outcome
}.

Fixpoint start (a : Async) (l : Loop) : Loop :=
  match a with
  | Return => mkLoop (world l) (inflight l) (issued l) (observed l) (settled l ++ [Fulfilled])
  | Throw => mkLoop (world l) (inflight l) (issued l) (observed l) (settled l ++ [Rejects])
  | Crash => mkLoop (world l) (inflight l) (issued l) (observed l) (settled l ++ [Crashes])
  | Act f k h =>
      match f (client (world l)) with
      | Some c =>
          start k (mkLoop (mkWorld c (db (world l))) (inflight l) (issued l)
                          (observed l) (settled l))
      | None => start h l
      end
  | Await r k =>
      mkLoop (world l) (inflight l ++ [mkParked r k]) (issued l ++ [r])
             (observed l) (settled l)
  end.

Definition deliver (notify : Listener) (p : Parked) (l : Loop) : Loop :=
  let '(resp, db') := Firestore.handle (request p) (db (world l)) in
  let ok := accepted (request p) resp in
  let c := if ok then notify (request p) db' (client (world l))
           else client (world l) in
  start (resume p resp)
        (mkLoop (mkWorld c db') (inflight l) (issued l)
                (if ok then observed l ++ [db'] else observed l)
                (settled l)).

Fixpoint settle (notify : Listener) (fuel : nat) (l : Loop) : Loop :=
  match fuel, inflight l with
  | S n, p :: rest =>
      settle notify n
        (deliver notify p
           (mkLoop (world l) rest (issued l) (observed l) (settled l)))
  | _, _ => l
  end.

Definition idle (w : World) : Loop := mkLoop w [] [] [] [].

(** ** [Array.prototype.sort]

    The comparator returns a number; [None] is [NaN], which [sort] reads as
    zero. The sort is stable, as the language requires: among elements the
    comparator does not separate, the input order is kept. For a consistent
    comparator every stable sort returns this list. *)
Section Sort.
Context {A : Type} (compareFn : A → A → option Z).

(** [a] may stay in front of [b]. *)
Definition keeps (a b : A) : bool :=
  match compareFn a b with
  | Some v => bool_decide (v ≤ 0)
  | None => true
  end.

(** [a] goes in front of the first element it may stay in front of. *)
Fixpoint place (a : A) (l : list A) : list A :=
  match l with
  | [] => [a]
  | b :: l' => if keeps a b then a :: b :: l' else b :: place a l'
  end.

Definition Array_sort (l : list A) : list A := foldr place [] l.
End Sort.

(** What initialisation puts into a collection: the seed, or whatever the
    persisted snapshot parsed to. *)
Inductive Initial (A : Type) :=
| FromSeed (seed : A)
| FromSnapshot (parsed : Json).
Arguments FromSeed {A}.
Arguments FromSnapshot {A}.

(** What a save effect did: the store it leaves, the values it passed to
    [setItem] in order, and what it logged. *)
Record Saved := mkSaved {
  stored : LocalStorage.t;
  attempts : list string;
  logged : list string
}.

(** ** [ExpenseContext.tsx] *)
Module ExpenseContext.
Section WithPlatform.
Context `{Platform}.

Definition KEY : string := "track_expense_data".

Definition loadFromLocal (st : LocalStorage.t) : Initial (list Expense) :=
  let savedExpenses := LocalStorage.getItem KEY st in
  if truthy savedExpenses then
    match JSON_parse (default "" savedExpenses) with
    | Some parsed => if isArray parsed then FromSnapshot parsed else FromSeed MOCK_EXPENSES
    | None => FromSeed MOCK_EXPENSES
    end
  else FromSeed MOCK_EXPENSES.

(** [{ id: doc.id, ...data, createdAt }] with
    [createdAt = data.createdAt?.toDate ? data.createdAt.toDate().toISOString() : data.createdAt] *)
Definition fromDoc (doc : string * ExpenseData) : Expense :=
  let data := doc.2 in
  let createdAt :=
    match Expense.createdAt data with
    | Timestamp ms => toISOString ms
    | TimeString s => s
    end in
  {| Expense.id := default doc.1 (Expense.id data);
     Expense.userId := Expense.userId data;
     Expense.userName := Expense.userName data;
     Expense.merchant := Expense.merchant data;
     Expense.date := Expense.date data;
     Expense.subtotal := Expense.subtotal data;
     Expense.tax := Expense.tax data;
     Expense.total := Expense.total data;
     Expense.category := Expense.category data;
     Expense.imageUrl := Expense.imageUrl data;
     Expense.status := Expense.status data;
     Expense.notes := Expense.notes data;
     Expense.createdAt := createdAt |}.

(** [(a, b) => new Date(b.createdAt).getTime() - new Date(a.createdAt).getTime()] *)
Definition newestFirst (a b : Expense) : option Z :=
  match getTime (Expense.createdAt b), getTime (Expense.createdAt a) with
  | Some tb, Some ta => Some (tb - ta)
  | _, _ => None
  end.

(** The subscription callback: collect, sort new to old, publish. *)
Definition onSnapshot (snapshot : list (string * ExpenseData)) : list Expense :=
  let expensesData := map fromDoc snapshot in
  Array_sort newestFirst expensesData.

(** The effect "Sync to local as backup". *)
Definition saveEffect (useCloud : bool) (expenses : list Expense)
    (st : LocalStorage.t) : Saved :=
  if negb useCloud then
    let value := stringify_expenses expenses in
    match LocalStorage.setItem KEY value st with
    | Some st' => mkSaved st' [value] []
    | None => mkSaved st [value] ["Local storage full"]
    end
  else mkSaved st [] [].

Definition addExpense (c : Client) (expense : Expense) : Async :=
  if ExpenseState.useCloud (expenseProvider c) then
    Await (SetExpense (Expense.id expense) expense) (λ resp,
      match resp with
      | Rejected =>
          Do (console_error "Cloud save failed")
            (Do (alert "Failed to save to cloud. Check console.") Return)
      | _ => Return
      end)
  else
    Do (setExpenses (λ prev, expense :: prev)) Return.

(** [{ ...exp, status, notes: notes ? notes : exp.notes }] *)
Definition withStatus (exp : Expense) (status : ExpenseStatus)
    (notes : option string) : Expense :=
  spread id id exp
    (PartialExpense.statusAndNotes status
       (Some (if truthy notes then default "" notes else Expense.notes exp))).

Definition updateStatus (c : Client) (id : string) (status : ExpenseStatus)
    (notes : option string) : Async :=
  if ExpenseState.useCloud (expenseProvider c) then
    let updateData :=
      PartialExpense.statusAndNotes status (if truthy notes then notes else None) in
    Await (UpdateExpense id updateData) (λ resp,
      match resp with Rejected => Throw | _ => Return end)
  else
    Do (setExpenses (λ prev,
          map (λ exp, if decide (Expense.id exp = id)
                      then withStatus exp status notes else exp) prev))
       Return.

Definition deleteExpense (c : Client) (id : string) : Async :=
  if ExpenseState.useCloud (expenseProvider c) then
    Await (DeleteExpense id) (λ resp,
      match resp with Rejected => Throw | _ => Return end)
  else
    Do (setExpenses (λ prev, filter (λ exp, Expense.id exp ≠ id) prev)) Return.

Definition deleteExpensesByUserId (c : Client) (userId : string) : Async :=
  if ExpenseState.useCloud (expenseProvider c) then
    Await (GetExpensesWhereUserId userId) (λ snapshot,
      match snapshot with
      | Docs refs =>
          (* batch.delete(doc.ref) for each document, then batch.commit() *)
          Await (Commit refs) (λ resp,
            match resp with Rejected => Throw | _ => Return end)
      | _ => Throw
      end)
  else
    Do (setExpenses (λ prev, filter (λ exp, Expense.userId exp ≠ userId) prev)) Return.

Definition editExpense (c : Client) (id : string)
    (updatedExpense : PartialExpense.t) : Async :=
  if ExpenseState.useCloud (expenseProvider c) then
    Await (UpdateExpense id updatedExpense) (λ resp,
      match resp with Rejected => Throw | _ => Return end)
  else
    Do (setExpenses (λ prev,
          map (λ exp, if decide (Expense.id exp = id)
                      then spread Datatypes.id Datatypes.id exp updatedExpense
                      else exp) prev))
       Return.

Definition getExpensesByUser (c : Client) (userId : string) : list Expense :=
  filter (λ e, Expense.userId e = userId) (ExpenseState.expenses (expenseProvider c)).
End WithPlatform.
End ExpenseContext.

(** ** The local-only expense provider

    The variant of the provider without a remote store: every change of the
    collection is saved, and a failed save is tried again without the receipt
    images. *)
Module LocalExpenseProvider.
Section WithPlatform.
Context `{Platform}.

(** [{ ...e, imageUrl: '' }] *)
Definition lightweight (e : Expense) : Expense :=
  spread id id e
    (PartialExpense.mk None None None None None None None None None (Some "")
                       None None None).

Definition saveEffect (expenses : list Expense) (st : LocalStorage.t) : Saved :=
  let value := stringify_expenses expenses in
  match LocalStorage.setItem ExpenseContext.KEY value st with
  | Some st' => mkSaved st' [value] []
  | None =>
      let lightweightExpenses := map lightweight expenses in
      let retry := stringify_expenses lightweightExpenses in
      match LocalStorage.setItem ExpenseContext.KEY retry st with
      | Some st' =>
          mkSaved st' [value; retry]
            ["Failed to save expenses to LocalStorage. Storage might be full."]
      | None =>
          mkSaved st [value; retry]
            ["Failed to save expenses to LocalStorage. Storage might be full.";
             "Critical: Failed to save even without images."]
      end
  end.
End WithPlatform.
End LocalExpenseProvider.

(** ** [AuthContext.tsx] *)
Module AuthContext.
Section WithPlatform.
Context `{Platform}.

Definition KEY : string := "track_expense_users".
Definition SESSION : string := "billboard_user_id".

Definition loadFromLocal (st : LocalStorage.t) : Initial (list User.t) :=
  let savedUsers := LocalStorage.getItem KEY st in
  if truthy savedUsers then
    match JSON_parse (default "" savedUsers) with
    | Some parsed => FromSnapshot parsed
    | None => FromSeed MOCK_USERS
    end
  else FromSeed MOCK_USERS.

(** The effect that keeps local storage updated as a backup: the write is
    not guarded, so [None] is an uncaught [QuotaExceededError]. *)
Definition saveEffect (useCloud : bool) (allUsers : list User.t)
    (st : LocalStorage.t) : option LocalStorage.t :=
  if negb useCloud then LocalStorage.setItem KEY (stringify_users allUsers) st
  else Some st.

(** The subscription callback of the user collection. *)
Definition onSnapshot (snapshot : list (string * User.t)) (c : Client) : Client :=
  let usersData := map snd snapshot in
  setIsLoading false (setAllUsers (λ _, usersData) c).

Definition logout (c : Client) : Client :=
  setStorage (LocalStorage.removeItem SESSION (storage c)) (setUser None c).

Definition avatarOf (name : string) : string :=
  "https://ui-avatars.com/api/?name=" +:+ encodeURIComponent name
    +:+ "&background=random&color=fff&background=2563eb".

(** [now] is the value of [Date.now()]. *)
Definition signup (c : Client) (now : Z) (name email password : string) : Async :=
  let allUsers := AuthState.allUsers (authProvider c) in
  match List.find (λ u, bool_decide (toLowerCase (User.email u) = toLowerCase email))
                  allUsers with
  | Some existing =>
      Do (alert "User already exists with this email. Please login.") Return
  | None =>
      let newUser :=
        {| User.id := "u-" +:+ pretty now;
           User.name := name;
           User.email := email;
           User.password := password;
           User.role := SALES;
           User.avatar := avatarOf name;
           User.pendingUpdates := None |} in
      let establish :=
        Do (setUser (Some newUser))
          (Act (λ c, (λ st, setStorage st c) <$>
                       LocalStorage.setItem SESSION (User.id newUser) (storage c))
               Return Throw) in
      if AuthState.useCloud (authProvider c) then
        Await (SetUser (User.id newUser) newUser) (λ resp,
          match resp with
          | Rejected =>
              Do (console_error "Error saving to cloud")
                (Do (setAllUsers (λ prev, prev ++ [newUser])) establish)
          | _ => establish
          end)
      else
        Do (setAllUsers (λ prev, prev ++ [newUser])) establish
  end.

(** [now] is the instant read by [new Date()]. *)
Definition requestProfileUpdate (c : Client) (now : Z) (userId name email : string)
    : Async :=
  let pendingUpdates := Pending.mk name email (toISOString now) in
  if AuthState.useCloud (authProvider c) then
    Await (UpdateUser userId pendingUpdates) (λ resp,
      match resp with Rejected => Throw | _ => Return end)
  else
    Do (setAllUsers (λ prev,
          map (λ u, if decide (User.id u = userId)
                    then withPending u (Some pendingUpdates) else u) prev))
       Return.

(** [{ ...u, name: u.pendingUpdates!.name, email: u.pendingUpdates!.email,
       pendingUpdates: undefined }]; reading a field of an absent
    [pendingUpdates] throws. *)
Definition approved (u : User.t) : option User.t :=
  p ← User.pendingUpdates u;
  Some (User.mk (User.id u) (Pending.name p) (Pending.email p) (User.password u)
                (User.role u) (User.avatar u) None).

Definition resolveProfileUpdate (c : Client) (userId : string) (approve : bool)
    : Async :=
  let allUsers := AuthState.allUsers (authProvider c) in
  let userToUpdate := List.find (λ u, bool_decide (User.id u = userId)) allUsers in
  match userToUpdate with
  | None => Return
  | Some userToUpdate =>
      match User.pendingUpdates userToUpdate with
      | None => Return
      | Some pending =>
          if AuthState.useCloud (authProvider c) then
            let updatedUser :=
              if approve
              then User.mk (User.id userToUpdate) (Pending.name pending)
                           (Pending.email pending) (User.password userToUpdate)
                           (User.role userToUpdate) (User.avatar userToUpdate) None
              else withPending userToUpdate None in
            Await (SetUser userId updatedUser) (λ resp,
              match resp with Rejected => Throw | _ => Return end)
          else
            Act (λ c,
                   (λ users, setAllUsers (λ _, users) c) <$>
                     mapM (λ u, if decide (User.id u = userId)
                                then (if approve then approved u
                                      else Some (withPending u None))
                                else Some u)
                          (AuthState.allUsers (authProvider c)))
                Return Crash
      end
  end.

Definition deleteUser (c : Client) (userId : string) : Async :=
  let user := AuthState.user (authProvider c) in
  let after :=
    match user with
    | Some u => if decide (User.id u = userId) then Do logout Return else Return
    | None => Return
    end in
  if AuthState.useCloud (authProvider c) then
    Await (DeleteUser userId) (λ resp,
      match resp with Rejected => Throw | _ => after end)
  else
    Do (setAllUsers (λ prev, filter (λ u, User.id u ≠ userId) prev)) after.

(** The effect "Session Management", which runs when the user list has
    changed: the stored session, if any, selects the signed-in user. *)
Definition sessionEffect (c : Client) : Client :=
  let storedUserId := LocalStorage.getItem SESSION (storage c) in
  let allUsers := AuthState.allUsers (authProvider c) in
  if truthy storedUserId && bool_decide (0 < length allUsers)%nat then
    match List.find (λ u, bool_decide (Some (User.id u) = storedUserId)) allUsers with
    | Some foundUser => setUser (Some foundUser) c
    | None => c
    end
  else c.

(** [login] is synchronous. The first component is the value it returns,
    [None] when the write of the session key throws; the second is the state
    its setters leave. *)
Definition login (email password : string) (c : Client) : option bool * Client :=
  match List.find (λ u, bool_decide (toLowerCase (User.email u) = toLowerCase email)
                        && bool_decide (User.password u = password))
                  (AuthState.allUsers (authProvider c)) with
  | Some foundUser =>
      let c1 := setUser (Some foundUser) c in
      match LocalStorage.setItem SESSION (User.id foundUser) (storage c) with
      | Some st => (Some true, setStorage st c1)
      | None => (None, c1)
      end
  | None => (Some false, c)
  end.

(** What [console.error(e)] logs for a rejected store call. *)
Definition rejection : string := "FirebaseError".

(** [updateUserRole], [updateUserAvatar] and [updateUserPassword] share one
    body, here awaited to its end. In cloud mode the patch is sent to the
    store, the subscription publishes an accepted one, and a rejected one is
    caught and logged; in local mode the list is mapped. *)
Definition updateUserField (userId : string) (f : UserField) (w : World)
    : Outcome * World :=
  let c := client w in
  if AuthState.useCloud (authProvider c) then
    match UserDocs.updateDoc userId f (db w) with
    | (Rejected, db') => (Fulfilled, mkWorld (console_error rejection c) db')
    | (_, db') =>
        (Fulfilled, mkWorld (onSnapshot (map_to_list (Firestore.users db')) c) db')
    end
  else
    (Fulfilled,
     mkWorld (setAllUsers (λ prev,
                map (λ u, if decide (User.id u = userId) then withField u f else u) prev) c)
             (db w)).

Definition updateUserRole (userId : string) (newRole : UserRole) :=
  updateUserField userId (Role newRole).

Definition updateUserAvatar (userId : string) (avatarUrl : string) :=
  updateUserField userId (Avatar avatarUrl).

Definition updateUserPassword (userId : string) (password : string) :=
  updateUserField userId (Password password).
End WithPlatform.
End AuthContext.

(** ** The local-only user provider *)
Module LocalAuthProvider.

Definition resolveProfileUpdate (userId : string) (approve : bool)
    (prev : list User.t) : list User.t :=
  map (λ u,
         match User.pendingUpdates u with
         | Some pending =>
             if decide (User.id u = userId) then
               if approve
               then User.mk (User.id u) (Pending.name pending) (Pending.email pending)
                            (User.password u) (User.role u) (User.avatar u) None
               else withPending u None
             else u
         | None => u
         end) prev.

(** [updateUserRole], [updateUserAvatar] and [updateUserPassword] share one
    body: the list is mapped and, when the signed-in user is the one
    updated, the same field is set on it:
    [setUser(prev => prev ? { ...prev, role: newRole } : null)]. *)
Definition updateUserField (userId : string) (f : UserField) (c : Client) : Client :=
  let c1 :=
    setAllUsers (λ prev,
      map (λ u, if decide (User.id u = userId) then withField u f else u) prev) c in
  match AuthState.user (authProvider c) with
  | Some user =>
      if decide (User.id user = userId)
      then setUser ((λ prev, withField prev f) <$> AuthState.user (authProvider c1)) c1
      else c1
  | None => c1
  end.

Definition updateUserRole (userId : string) (newRole : UserRole) :=
  updateUserField userId (Role newRole).

Definition updateUserAvatar (userId : string) (avatarUrl : string) :=
  updateUserField userId (Avatar avatarUrl).

Definition updateUserPassword (userId : string) (password : string) :=
  updateUserField userId (Password password).
End LocalAuthProvider.

(** ** The subscriptions and the admin delete flow *)
Section App.
Context `{Platform}.

(** Each provider in cloud mode listens to its collection. *)
Definition listeners : Listener := λ r db c,
  match r with
  | SetUser _ _ | UpdateUser _ _ | DeleteUser _ =>
      if AuthState.useCloud (authProvider c)
      then AuthContext.onSnapshot (map_to_list (Firestore.users db)) c
      else c
  | SetExpense _ _ | UpdateExpense _ _ | DeleteExpense _ | Commit _ =>
      if ExpenseState.useCloud (expenseProvider c)
      then setExpenses
             (λ _, ExpenseContext.onSnapshot (map_to_list (Firestore.expenses db))) c
      else c
  | GetExpensesWhereUserId _ => c
  end.

(** An operation called from the current render and awaited. *)
Definition run (op : Client → Async) (w : World) : Outcome * World :=
  exec listeners (op (client w)) w.
End App.

Module UserManagement.
Section WithPlatform.
Context `{Platform}.

(** Neither call is awaited; both close over the same render. The two
    setters that follow close the dialog and touch no repository state. *)
Definition confirmDelete (userToDelete : option User.t) (l : Loop) : Loop :=
  match userToDelete with
  | Some u =>
      let c := client (world l) in
      let l1 := start (ExpenseContext.deleteExpensesByUserId c (User.id u)) l in
      start (AuthContext.deleteUser c (User.id u)) l1
  | None => l
  end.
End WithPlatform.
End UserManagement.

(** ** The operations the providers export

    The expense operations of [ExpenseContextType] and the user operations
    of [AuthContextType], as data, so that statements can range over
    sequences of calls. Each call is made from the current render and
    awaited to its end before the next one. *)
Module ExpenseOp.
Inductive t :=
| AddExpense (expense : Expense)
| UpdateStatus (id : string) (status : ExpenseStatus) (notes : option string)
| DeleteExpense (id : string)
| DeleteExpensesByUserId (userId : string)
| EditExpense (id : string) (updatedExpense : PartialExpense.t).
End ExpenseOp.

(** [now] is the instant the call reads from the clock. *)
Module UserOp.
Inductive t :=
| Signup (now : Z) (name email password : string)
| UpdateUserRole (userId : string) (newRole : UserRole)
| UpdateUserAvatar (userId : string) (avatarUrl : string)
| UpdateUserPassword (userId : string) (password : string)
| RequestProfileUpdate (now : Z) (userId name email : string)
| ResolveProfileUpdate (userId : string) (approve : bool)
| DeleteUser (userId : string).
End UserOp.

Section Calls.
Context `{Platform}.


Definition callUser (op : UserOp.t) (w : World) : Outcome * World :=
  match op with
  | UserOp.Signup now name email password =>
      run (λ c, AuthContext.signup c now name email password) w
  | UserOp.UpdateUserRole userId newRole => AuthContext.updateUserRole userId newRole w
  | UserOp.UpdateUserAvatar userId avatarUrl =>
      AuthContext.updateUserAvatar userId avatarUrl w
  | UserOp.UpdateUserPassword userId password =>
      AuthContext.updateUserPassword userId password w
  | UserOp.RequestProfileUpdate now userId name email =>
      run (λ c, AuthContext.requestProfileUpdate c now userId name email) w
  | UserOp.ResolveProfileUpdate userId approve =>
      run (λ c, AuthContext.resolveProfileUpdate c userId approve) w
  | UserOp.DeleteUser userId => run (λ c, AuthContext.deleteUser c userId) w
  end.

(** The world after the calls of [ops], one after the other. *)
Definition calls {Op : Type} (call : Op → World → Outcome * World) (ops : list Op)
    (w : World) : World :=
  foldl (λ w op, (call op w).2) w ops.

End Calls.

(** ** [AddExpense.tsx]: submitting the form *)
Module AddExpense.
Record FormData := mkFormData {
  merchant : string;
  date : string;
  subtotal : number;
  tax : number;
  total : number;
  category : string;
  notes : string
}.

Section WithPlatform.
Context `{Platform}.

(** The expense [handleSubmit] builds for the signed-in [user]. [simpleId]
    is the identifier drawn by [simpleId()], [now] the instant read by
    [new Date()]. *)
Definition submitted (user : User.t) (formData : FormData)
    (imagePreview : option string) (simpleId : string) (now : Z) : Expense :=
  {| Expense.id := simpleId;
     Expense.userId := User.id user;
     Expense.userName := User.name user;
     Expense.merchant := merchant formData;
     Expense.date := date formData;
     Expense.subtotal := subtotal formData;
     Expense.tax := tax formData;
     Expense.total := total formData;
     Expense.category := category formData;
     Expense.imageUrl := if truthy imagePreview then default "" imagePreview else "";
     Expense.status := SUBMITTED;
     Expense.notes := notes formData;
     Expense.createdAt := toISOString now |}.

(** [handleSubmit]: nothing without a signed-in user; otherwise
    [addExpense] is called and not awaited. *)
Definition handleSubmit (formData : FormData) (imagePreview : option string)
    (simpleId : string) (now : Z) (l : Loop) : Loop :=
  let c := client (world l) in
  match AuthState.user (authProvider c) with
  | None => l
  | Some user =>
      start (ExpenseContext.addExpense c (submitted user formData imagePreview simpleId now)) l
  end.
End WithPlatform.
End AddExpense.

(** ** [LanguageContext.tsx]: the translations and [t] *)
Module LanguageContext.
Inductive Language := en | es | fr.

(** The entries of [translations], in source order. *)
Definition translations (language : Language) : list (string * string) :=
  match language with
  | en =>
    [ ("login.welcome", "Welcome Back");
      ("login.subtitle", "Sign in to access your Track Expense dashboard");
      ("login.email", "Email Address");
      ("login.password", "Password");
      ("login.submit", "Sign In");
      ("login.demo", "Demo Accounts");
      ("login.noAccount", "Don't have an account?");
      ("login.createAccount", "Create account");
      ("signup.title", "Create Account");
      ("signup.subtitle", "Join your sales team on Track Expense");
      ("signup.name", "Full Name");
      ("signup.confirmPassword", "Confirm Password");
      ("signup.submit", "Create Account");
      ("signup.back", "Back to Login");
      ("signup.haveAccount", "Already have an account?");
      ("signup.signin", "Sign in");
      ("nav.dashboard", "Track Expense");
      ("nav.management", "Management");
      ("nav.teamDashboard", "Team Dashboard");
      ("nav.allExpenses", "All Team Expenses");
      ("nav.expenseReports", "Expense Reports");
      ("nav.userManagement", "User Management");
      ("nav.personal", "Personal");
      ("nav.myDashboard", "My Dashboard");
      ("nav.addExpense", "Add Expense");
      ("nav.myExpenses", "My Expenses");
      ("nav.signOut", "Sign Out");
      ("dash.myDashboard", "My Dashboard");
      ("dash.dashboard", "Dashboard");
      ("dash.totalSpend", "Total Spend");
      ("dash.myTotalSpend", "My Total Spend");
      ("dash.approved", "Approved");
      ("dash.pending", "Pending");
      ("dash.rejected", "Rejected");
      ("dash.spendByCategory", "Spend by Category");
      ("dash.recentExpenses", "Recent Expenses");
      ("dash.viewAll", "View All");
      ("dash.allMonths", "All Months");
      ("dash.noExpenses", "No expenses found. Start by adding one!");
      ("dash.search", "Search...");
      ("dash.employee", "Employee");
      ("dash.merchant", "Merchant");
      ("dash.status", "Status");
      ("dash.total", "Total");
      ("add.title", "New Expense");
      ("add.capture", "Capture Receipt");
      ("add.captureDesc", "Take a photo or upload an image of your receipt to automatically extract details.");
      ("add.upload", "Upload / Take Photo");
      ("add.takePhoto", "Take Photo");
      ("add.uploadGallery", "Upload from Gallery");
      ("add.analyzing", "AI Analyzing...");
      ("add.analyzingDesc", "Gemini is reading your receipt details.");
      ("add.merchant", "Merchant");
      ("add.date", "Date");
      ("add.category", "Category");
      ("add.subtotal", "Subtotal");
      ("add.tax", "Tax");
      ("add.total", "Total");
      ("add.notes", "Notes (Optional)");
      ("add.submit", "Submit Expense");
      ("action.edit", "Edit Expense");
      ("action.delete", "Delete");
      ("action.save", "Save Changes");
      ("action.cancel", "Cancel");
      ("action.deleteConfirm", "Are you sure you want to delete this expense? This action cannot be undone.");
      ("report.title", "Expense Report Builder");
      ("report.export", "Export to Excel");
      ("report.year", "Year");
      ("report.month", "Month");
      ("report.employee", "Employee");
      ("report.generate", "Generate");
      ("report.mileageRate", "Price per KM (€)");
      ("report.addRow", "Add Empty Row");
      ("col.day", "Day");
      ("col.destination", "Destination");
      ("col.km", "KM");
      ("col.fuel", "Fuel");
      ("col.parking", "Parking");
      ("col.meals", "Meals");
      ("col.hotels", "Hotels");
      ("col.transport", "Transport");
      ("col.misc", "Misc");
      ("col.total", "Total");
      ("excel.expensesBy", "EXPENSES BY :");
      ("excel.monthOf", "MONTH OF :");
      ("excel.year", "YEAR :");
      ("excel.card", "CARD :");
      ("excel.totals", "TOTALS");
      ("excel.totalExpenses", "TOTAL EXPENSES :");
      ("excel.advance", "ADVANCE :");
      ("excel.balance", "BALANCE :");
      ("excel.means", "MEANS OF");
      ("excel.highway", "HIGHWAY");
      ("cat.Restaurant", "Restaurant");
      ("cat.Hotel", "Hotel");
      ("cat.Transport", "Transport");
      ("cat.Supplies", "Supplies");
      ("cat.Miscellaneous", "Miscellaneous");
      ("cat.Fuel", "Fuel");
      ("cat.Parking", "Parking");
      ("cat.Mileage", "Mileage");
      ("users.title", "User Management");
      ("users.adminAccess", "Admin Access");
      ("users.desc", "Manage user roles and access permissions.");
      ("users.user", "User");
      ("users.email", "Email");
      ("users.password", "Password");
      ("users.role", "Current Role");
      ("users.actions", "Actions");
      ("users.deleteTitle", "Delete User");
      ("users.deleteConfirm", "Are you sure you want to delete this user? This will also remove their access.");
      ("users.pendingChanges", "Pending Changes");
      ("users.approveChange", "Approve");
      ("users.rejectChange", "Reject");
      ("users.requested", "Requested");
      ("profile.title", "Edit Profile");
      ("profile.changeAvatar", "Change Profile Picture");
      ("profile.uploadNew", "Upload New Photo");
      ("profile.remove", "Remove Photo");
      ("profile.requestUpdate", "Request Update");
      ("profile.pending", "Update Pending Approval");
      ("profile.newPassword", "New Password (Optional)") ]
  | es =>
    [ ("login.welcome", "Bienvenido");
      ("login.subtitle", "Inicia sesión para acceder a tu panel de Track Expense");
      ("login.email", "Correo Electrónico");
      ("login.password", "Contraseña");
      ("login.submit", "Entrar");
      ("login.demo", "Cuentas Demo");
      ("login.noAccount", "¿No tienes cuenta?");
      ("login.createAccount", "Crear cuenta");
      ("signup.title", "Crear Cuenta");
      ("signup.subtitle", "Únete a tu equipo de ventas en Track Expense");
      ("signup.name", "Nombre Completo");
      ("signup.confirmPassword", "Confirmar Contraseña");
      ("signup.submit", "Crear Cuenta");
      ("signup.back", "Volver");
      ("signup.haveAccount", "¿Ya tienes cuenta?");
      ("signup.signin", "Inicia sesión");
      ("nav.dashboard", "Track Expense");
      ("nav.management", "Gestión");
      ("nav.teamDashboard", "Panel de Equipo");
      ("nav.allExpenses", "Gastos del Equipo");
      ("nav.expenseReports", "Informes de Gastos");
      ("nav.userManagement", "Gestión de Usuarios");
      ("nav.personal", "Personal");
      ("nav.myDashboard", "Mi Panel");
      ("nav.addExpense", "Añadir Gasto");
      ("nav.myExpenses", "Mis Gastos");
      ("nav.signOut", "Cerrar Sesión");
      ("dash.myDashboard", "Mi Panel");
      ("dash.dashboard", "Panel de Control");
      ("dash.totalSpend", "Gasto Total");
      ("dash.myTotalSpend", "Mi Gasto Total");
      ("dash.approved", "Aprobado");
      ("dash.pending", "Pendiente");
      ("dash.rejected", "Rechazado");
      ("dash.spendByCategory", "Gasto por Categoría");
      ("dash.recentExpenses", "Gastos Recientes");
      ("dash.viewAll", "Ver Todos");
      ("dash.allMonths", "Todos los Meses");
      ("dash.noExpenses", "No hay gastos. ¡Añade uno!");
      ("dash.search", "Buscar...");
      ("dash.employee", "Empleado");
      ("dash.merchant", "Comercio");
      ("dash.status", "Estado");
      ("dash.total", "Total");
      ("add.title", "Nuevo Gasto");
      ("add.capture", "Capturar Recibo");
      ("add.captureDesc", "Toma una foto o sube una imagen para extraer detalles automáticamente.");
      ("add.upload", "Subir / Tomar Foto");
      ("add.takePhoto", "Hacer Foto");
      ("add.uploadGallery", "Subir desde Galería");
      ("add.analyzing", "IA Analizando...");
      ("add.analyzingDesc", "Gemini está leyendo los detalles del recibo.");
      ("add.merchant", "Comercio");
      ("add.date", "Fecha");
      ("add.category", "Categoría");
      ("add.subtotal", "Subtotal");
      ("add.tax", "Impuestos");
      ("add.total", "Total");
      ("add.notes", "Notas (Opcional)");
      ("add.submit", "Enviar Gasto");
      ("action.edit", "Editar Gasto");
      ("action.delete", "Eliminar");
      ("action.save", "Guardar Cambios");
      ("action.cancel", "Cancelar");
      ("action.deleteConfirm", "¿Estás seguro de que quieres eliminar este gasto? Esta acción no se puede deshacer.");
      ("report.title", "Generador de Informes");
      ("report.export", "Exportar a Excel");
      ("report.year", "Año");
      ("report.month", "Mes");
      ("report.employee", "Empleado");
      ("report.generate", "Generar");
      ("report.mileageRate", "Precio por KM (€)");
      ("report.addRow", "Añadir Fila Vacía");
      ("col.day", "Día");
      ("col.destination", "Destino");
      ("col.km", "KM");
      ("col.fuel", "Gasolina");
      ("col.parking", "Parking");
      ("col.meals", "Comidas");
      ("col.hotels", "Hoteles");
      ("col.transport", "Transporte");
      ("col.misc", "Varios");
      ("col.total", "Total");
      ("excel.expensesBy", "GASTOS REALIZADOS POR :");
      ("excel.monthOf", "EL MES DE :");
      ("excel.year", "AÑO :");
      ("excel.card", "TARJETA :");
      ("excel.totals", "TOTALES");
      ("excel.totalExpenses", "TOTAL GASTOS :");
      ("excel.advance", "ANTICIPADO :");
      ("excel.balance", "SALDO :");
      ("excel.means", "MEDIOS DE");
      ("excel.highway", "AUTOPISTA");
      ("cat.Restaurant", "Restaurante");
      ("cat.Hotel", "Hotel");
      ("cat.Transport", "Transporte");
      ("cat.Supplies", "Suministros");
      ("cat.Miscellaneous", "Varios");
      ("cat.Fuel", "Gasolina");
      ("cat.Parking", "Parking");
      ("cat.Mileage", "Kilometraje");
      ("users.title", "Gestión de Usuarios");
      ("users.adminAccess", "Acceso Admin");
      ("users.desc", "Gestionar roles y permisos de usuarios.");
      ("users.user", "Usuario");
      ("users.email", "Email");
      ("users.password", "Contraseña");
      ("users.role", "Rol Actual");
      ("users.actions", "Acciones");
      ("users.deleteTitle", "Eliminar Usuario");
      ("users.deleteConfirm", "¿Estás seguro de que deseas eliminar este usuario? Esto también eliminará su acceso.");
      ("users.pendingChanges", "Cambios Pendientes");
      ("users.approveChange", "Aprobar");
      ("users.rejectChange", "Rechazar");
      ("users.requested", "Solicitado");
      ("profile.title", "Editar Perfil");
      ("profile.changeAvatar", "Cambiar Foto de Perfil");
      ("profile.uploadNew", "Subir Nueva Foto");
      ("profile.remove", "Eliminar Foto");
      ("profile.requestUpdate", "Solicitar Cambio");
      ("profile.pending", "Cambio Pendiente de Aprobación");
      ("profile.newPassword", "Nueva Contraseña (Opcional)") ]
  | fr =>
    [ ("login.welcome", "Bon retour");
      ("login.subtitle", "Connectez-vous pour accéder à votre tableau de bord Track Expense");
      ("login.email", "Adresse e-mail");
      ("login.password", "Mot de passe");
      ("login.submit", "Se connecter");
      ("login.demo", "Comptes Démo");
      ("login.noAccount", "Pas de compte ?");
      ("login.createAccount", "Créer un compte");
      ("signup.title", "Créer un compte");
      ("signup.subtitle", "Rejoignez votre équipe de vente sur Track Expense");
      ("signup.name", "Nom complet");
      ("signup.confirmPassword", "Confirmer le mot de passe");
      ("signup.submit", "Créer un compte");
      ("signup.back", "Retour à la connexion");
      ("signup.haveAccount", "Déjà un compte ?");
      ("signup.signin", "Se connecter");
      ("nav.dashboard", "Track Expense");
      ("nav.management", "Gestion");
      ("nav.teamDashboard", "Tableau d'équipe");
      ("nav.allExpenses", "Toutes les dépenses");
      ("nav.expenseReports", "Notes de frais");
      ("nav.userManagement", "Utilisateurs");
      ("nav.personal", "Personnel");
      ("nav.myDashboard", "Mon tableau de bord");
      ("nav.addExpense", "Ajouter une dépense");
      ("nav.myExpenses", "Mes dépenses");
      ("nav.signOut", "Déconnexion");
      ("dash.myDashboard", "Mon tableau de bord");
      ("dash.dashboard", "Tableau de bord");
      ("dash.totalSpend", "Dépenses totales");
      ("dash.myTotalSpend", "Mes dépenses totales");
      ("dash.approved", "Approuvé");
      ("dash.pending", "En attente");
      ("dash.rejected", "Rejeté");
      ("dash.spendByCategory", "Dépenses par catégorie");
      ("dash.recentExpenses", "Dépenses récentes");
      ("dash.viewAll", "Voir tout");
      ("dash.allMonths", "Tous les mois");
      ("dash.noExpenses", "Aucune dépense trouvée.");
      ("dash.search", "Rechercher...");
      ("dash.employee", "Employé");
      ("dash.merchant", "Marchand");
      ("dash.status", "Statut");
      ("dash.total", "Total");
      ("add.title", "Nouvelle dépense");
      ("add.capture", "Scanner le reçu");
      ("add.captureDesc", "Prenez une photo ou téléchargez une image pour extraire automatiquement les détails.");
      ("add.upload", "Télécharger / Photo");
      ("add.takePhoto", "Prendre une photo");
      ("add.uploadGallery", "Depuis la galerie");
      ("add.analyzing", "Analyse IA...");
      ("add.analyzingDesc", "Gemini lit les détails de votre reçu.");
      ("add.merchant", "Marchand");
      ("add.date", "Date");
      ("add.category", "Catégorie");
      ("add.subtotal", "Sous-total");
      ("add.tax", "Taxe");
      ("add.total", "Total");
      ("add.notes", "Notes (Optionnel)");
      ("add.submit", "Soumettre");
      ("action.edit", "Modifier");
      ("action.delete", "Supprimer");
      ("action.save", "Enregistrer");
      ("action.cancel", "Annuler");
      ("action.deleteConfirm", "Êtes-vous sûr de vouloir supprimer cette dépense ? Cette action est irréversible.");
      ("report.title", "Générateur de rapports");
      ("report.export", "Exporter vers Excel");
      ("report.year", "Année");
      ("report.month", "Mois");
      ("report.employee", "Employé");
      ("report.generate", "Générer");
      ("report.mileageRate", "Prix par KM (€)");
      ("report.addRow", "Ajouter une ligne vide");
      ("col.day", "Jour");
      ("col.destination", "Destination");
      ("col.km", "KM");
      ("col.fuel", "Carburant");
      ("col.parking", "Parking");
      ("col.meals", "Repas");
      ("col.hotels", "Hôtels");
      ("col.transport", "Transport");
      ("col.misc", "Divers");
      ("col.total", "Total");
      ("excel.expensesBy", "DÉPENSES PAR :");
      ("excel.monthOf", "MOIS DE :");
      ("excel.year", "ANNÉE :");
      ("excel.card", "CARTE :");
      ("excel.totals", "TOTAUX");
      ("excel.totalExpenses", "TOTAL DÉPENSES :");
      ("excel.advance", "AVANCE :");
      ("excel.balance", "SOLDE :");
      ("excel.means", "MOYENS DE");
      ("excel.highway", "AUTOROUTE");
      ("cat.Restaurant", "Restaurant");
      ("cat.Hotel", "Hôtel");
      ("cat.Transport", "Transport");
      ("cat.Supplies", "Fournitures");
      ("cat.Miscellaneous", "Divers");
      ("cat.Fuel", "Carburant");
      ("cat.Parking", "Parking");
      ("cat.Mileage", "Kilométrage");
      ("users.title", "Gestion des utilisateurs");
      ("users.adminAccess", "Accès Admin");
      ("users.desc", "Gérer les rôles et les permissions des utilisateurs.");
      ("users.user", "Utilisateur");
      ("users.email", "Email");
      ("users.password", "Mot de passe");
      ("users.role", "Rôle actuel");
      ("users.actions", "Actions");
      ("users.deleteTitle", "Supprimer l'utilisateur");
      ("users.deleteConfirm", "Êtes-vous sûr de vouloir supprimer cet utilisateur ? Cela supprimera également son accès.");
      ("users.pendingChanges", "Modifications en attente");
      ("users.approveChange", "Approuver");
      ("users.rejectChange", "Rejeter");
      ("users.requested", "Demandé");
      ("profile.title", "Modifier le profil");
      ("profile.changeAvatar", "Changer la photo de profil");
      ("profile.uploadNew", "Télécharger nouvelle photo");
      ("profile.remove", "Supprimer la photo");
      ("profile.requestUpdate", "Demander une mise à jour");
      ("profile.pending", "Mise à jour en attente d'approbation");
      ("profile.newPassword", "Nouveau mot de passe (Optionnel)") ]
  end.

(** What reading a property of one of the three tables yields: a text of
    the table, or one of the members every object inherits from
    [Object.prototype] (a function or an object, not a text). *)
Inductive Value :=
| Text (s : string)
| Inherited (name : string).

Definition prototype : list string :=
  [ "constructor"; "hasOwnProperty"; "isPrototypeOf"; "propertyIsEnumerable";
    "toLocaleString"; "toString"; "valueOf"; "__proto__"; "__defineGetter__";
    "__defineSetter__"; "__lookupGetter__"; "__lookupSetter__" ].

(** [translations[language][key]]; of two entries with one key an object
    literal keeps the later. *)
Definition get (language : Language) (key : string) : option Value :=
  match List.find (λ kv, bool_decide (kv.1 = key)) (rev (translations language)) with
  | Some kv => Some (Text kv.2)
  | None => if bool_decide (key ∈ prototype) then Some (Inherited key) else None
  end.

(** [t]: [translations[language][key] || key] *)
Definition t (language : Language) (key : string) : Value :=
  match get language key with
  | Some (Text s) => if bool_decide (s = "") then Text key else Text s
  | Some v => v
  | None => Text key
  end.
End LanguageContext.

(** ** [SalesHome.tsx]: the list of the signed-in user and the edit form *)
Module SalesHome.
Record Page := mkPage {
  selectedExpense : option Expense;
  isEditing : bool;
  editForm : PartialExpense.t
}.

(** An expense where a [Partial<Expense>] is expected: every field is
    present. *)
Definition asPartial (e : Expense) : PartialExpense.t :=
  PartialExpense.mk (Some (Expense.id e)) (Some (Expense.userId e))
    (Some (Expense.userName e)) (Some (Expense.merchant e)) (Some (Expense.date e))
    (Some (Expense.subtotal e)) (Some (Expense.tax e)) (Some (Expense.total e))
    (Some (Expense.category e)) (Some (Expense.imageUrl e)) (Some (Expense.status e))
    (Some (Expense.notes e)) (Some (Expense.createdAt e)).

(** The inputs of the edit form. *)
Inductive Input :=
| Merchant (value : string)
| Date (value : string)
| Category (value : string)
| Total (value : number)
| Notes (value : string).

(** [setEditForm({ ...editForm, merchant: e.target.value })] and the four
    other [onChange] handlers. *)
Definition handleChange (i : Input) (p : Page) : Page :=
  let f := editForm p in
  let set (g : PartialExpense.t) := mkPage (selectedExpense p) (isEditing p) g in
  match i with
  | Merchant v =>
      set (PartialExpense.mk (PartialExpense.id f) (PartialExpense.userId f)
             (PartialExpense.userName f) (Some v) (PartialExpense.date f)
             (PartialExpense.subtotal f) (PartialExpense.tax f) (PartialExpense.total f)
             (PartialExpense.category f) (PartialExpense.imageUrl f)
             (PartialExpense.status f) (PartialExpense.notes f)
             (PartialExpense.createdAt f))
  | Date v =>
      set (PartialExpense.mk (PartialExpense.id f) (PartialExpense.userId f)
             (PartialExpense.userName f) (PartialExpense.merchant f) (Some v)
             (PartialExpense.subtotal f) (PartialExpense.tax f) (PartialExpense.total f)
             (PartialExpense.category f) (PartialExpense.imageUrl f)
             (PartialExpense.status f) (PartialExpense.notes f)
             (PartialExpense.createdAt f))
  | Category v =>
      set (PartialExpense.mk (PartialExpense.id f) (PartialExpense.userId f)
             (PartialExpense.userName f) (PartialExpense.merchant f) (PartialExpense.date f)
             (PartialExpense.subtotal f) (PartialExpense.tax f) (PartialExpense.total f)
             (Some v) (PartialExpense.imageUrl f)
             (PartialExpense.status f) (PartialExpense.notes f)
             (PartialExpense.createdAt f))
  | Total v =>
      set (PartialExpense.mk (PartialExpense.id f) (PartialExpense.userId f)
             (PartialExpense.userName f) (PartialExpense.merchant f) (PartialExpense.date f)
             (PartialExpense.subtotal f) (PartialExpense.tax f) (Some v)
             (PartialExpense.category f) (PartialExpense.imageUrl f)
             (PartialExpense.status f) (PartialExpense.notes f)
             (PartialExpense.createdAt f))
  | Notes v =>
      set (PartialExpense.mk (PartialExpense.id f) (PartialExpense.userId f)
             (PartialExpense.userName f) (PartialExpense.merchant f) (PartialExpense.date f)
             (PartialExpense.subtotal f) (PartialExpense.tax f) (PartialExpense.total f)
             (PartialExpense.category f) (PartialExpense.imageUrl f)
             (PartialExpense.status f) (Some v)
             (PartialExpense.createdAt f))
  end.

(** [handleEditClick]: the form starts as the expense in the detail view. *)
Definition handleEditClick (p : Page) : Page :=
  match selectedExpense p with
  | Some selected => mkPage (Some selected) true (asPartial selected)
  | None => p
  end.

(** The name a category is charted and listed under:
    [t(`cat.${curr.category}`) || curr.category] *)
Definition translatedCat (language : LanguageContext.Language) (category : string)
    : LanguageContext.Value :=
  match LanguageContext.t language ("cat." +:+ category) with
  | LanguageContext.Text s =>
      if bool_decide (s = "") then LanguageContext.Text category
      else LanguageContext.Text s
  | v => v
  end.

Section WithPlatform.
Context `{Platform}.

(** [myExpenses]: [expenses.filter(e => e.userId === user?.id)] *)
Definition myExpenses (c : Client) : list Expense :=
  match AuthState.user (authProvider c) with
  | Some user =>
      filter (λ e, Expense.userId e = User.id user)
             (ExpenseState.expenses (expenseProvider c))
  | None => []
  end.

(** [handleSaveClick]: [editExpense] is called with the whole form and not
    awaited; the detail view takes the form's fields at once. *)
Definition handleSaveClick (p : Page) (l : Loop) : Page * Loop :=
  match selectedExpense p with
  | Some selected =>
      (mkPage (Some (spread id id selected (editForm p))) false (editForm p),
       start (ExpenseContext.editExpense (client (world l)) (Expense.id selected)
                (editForm p)) l)
  | None => (p, l)
  end.

(** [confirmDelete] of the page: the expense chosen for deletion, if any,
    is deleted; the call is not awaited. *)
Definition confirmDelete (expenseToDelete : option Expense) (l : Loop) : Loop :=
  match expenseToDelete with
  | Some e => start (ExpenseContext.deleteExpense (client (world l)) (Expense.id e)) l
  | None => l
  end.
End WithPlatform.
End SalesHome.

(** ** A reference platform

    An executable instance: ASCII case folding, percent-encoding of the bytes
    outside the unreserved set, the simplified ISO 8601 instant format
    [YYYY-MM-DDTHH:mm:ss.sssZ], and JSON. It serves the concrete runs below;
    the general statements hold for every platform. *)
Module Browser.
Open Scope char_scope.

Definition code (a : ascii) : Z := Z.of_nat (nat_of_ascii a).
Definition char (z : Z) : ascii := ascii_of_nat (Z.to_nat z).

(** The double quote. *)
Definition dq : ascii := char 34.

Definition isDigit (a : ascii) : bool :=
  bool_decide (48 ≤ code a ≤ 57).

Definition lower (a : ascii) : ascii :=
  if bool_decide (65 ≤ code a ≤ 90) then char (code a + 32) else a.

Fixpoint toLowerCase (s : string) : string :=
  match s with
  | EmptyString => EmptyString
  | String a s' => String (lower a) (toLowerCase s')
  end.

Definition hexDigit (z : Z) : ascii :=
  if bool_decide (z < 10) then char (48 + z) else char (55 + z).

Definition unreserved (a : ascii) : bool :=
  isDigit a || bool_decide (65 ≤ code a ≤ 90) || bool_decide (97 ≤ code a ≤ 122)
  || bool_decide (a ∈ ["-"; "_"; "."; "!"; "~"; "*"; "'"; "("; ")"]).

Fixpoint encodeURIComponent (s : string) : string :=
  match s with
  | EmptyString => EmptyString
  | String a s' =>
      if unreserved a then String a (encodeURIComponent s')
      else String "%" (String (hexDigit (code a / 16))
                         (String (hexDigit (code a mod 16)) (encodeURIComponent s')))
  end.

(** *** Instants *)

Definition daysFromCivil (y m d : Z) : Z :=
  let y' := if bool_decide (m ≤ 2) then y - 1 else y in
  let era := y' / 400 in
  let yoe := y' - era * 400 in
  let doy := (153 * (if bool_decide (2 < m) then m - 3 else m + 9) + 2) / 5 + d - 1 in
  let doe := yoe * 365 + yoe / 4 - yoe / 100 + doy in
  era * 146097 + doe - 719468.

Definition civilFromDays (z : Z) : Z * Z * Z :=
  let z := z + 719468 in
  let era := z / 146097 in
  let doe := z - era * 146097 in
  let yoe := (doe - doe / 1460 + doe / 36524 - doe / 146096) / 365 in
  let doy := doe - (365 * yoe + yoe / 4 - yoe / 100) in
  let mp := (5 * doy + 2) / 153 in
  let d := doy - (153 * mp + 2) / 5 + 1 in
  let m := if bool_decide (mp < 10) then mp + 3 else mp - 9 in
  let y := yoe + era * 400 in
  (if bool_decide (m ≤ 2) then y + 1 else y, m, d).

Definition isLeap (y : Z) : bool :=
  bool_decide (y mod 4 = 0) && (negb (bool_decide (y mod 100 = 0)) || bool_decide (y mod 400 = 0)).

Definition daysInMonth (y m : Z) : Z :=
  if bool_decide (m = 2) then (if isLeap y then 29 else 28)
  else if bool_decide (m ∈ [4; 6; 9; 11]) then 30 else 31.

(** The decimal value of a run of digits. *)
Fixpoint digits (acc : Z) (l : list ascii) : option Z :=
  match l with
  | [] => Some acc
  | a :: l' => if isDigit a then digits (acc * 10 + (code a - 48)) l' else None
  end.

Definition getTime (s : string) : option Z :=
  match list_ascii_of_string s with
  | [y1; y2; y3; y4; "-"; m1; m2; "-"; d1; d2; "T"; h1; h2; ":"; n1; n2; ":"; s1; s2;
     "."; f1; f2; f3; "Z"] =>
      y ← digits 0 [y1; y2; y3; y4];
      m ← digits 0 [m1; m2];
      d ← digits 0 [d1; d2];
      h ← digits 0 [h1; h2];
      n ← digits 0 [n1; n2];
      sec ← digits 0 [s1; s2];
      f ← digits 0 [f1; f2; f3];
      if bool_decide (1 ≤ m ≤ 12) && bool_decide (1 ≤ d ≤ daysInMonth y m)
         && bool_decide (h ≤ 23) && bool_decide (n ≤ 59) && bool_decide (sec ≤ 59)
      then Some ((((daysFromCivil y m d * 24 + h) * 60 + n) * 60 + sec) * 1000 + f)
      else None
  | _ => None
  end.

Close Scope char_scope.

(** [z] written with at least [width] digits. *)
Definition padded (width : nat) (z : Z) : string :=
  let s := pretty z in
  String.concat "" (replicate (width - String.length s) "0") +:+ s.

Definition toISOString (ms : Z) : string :=
  let day := ms / 86400000 in
  let rest := ms mod 86400000 in
  let '(y, m, d) := civilFromDays day in
  padded 4 y +:+ "-" +:+ padded 2 m +:+ "-" +:+ padded 2 d +:+ "T"
    +:+ padded 2 (rest / 3600000) +:+ ":" +:+ padded 2 (rest / 60000 mod 60) +:+ ":"
    +:+ padded 2 (rest / 1000 mod 60) +:+ "." +:+ padded 3 (rest mod 1000) +:+ "Z".

(** *** JSON *)
Open Scope char_scope.

Fixpoint skipSpace (l : list ascii) : list ascii :=
  match l with
  | a :: l' => if bool_decide (code a ∈ [32; 9; 10; 13]%Z) then skipSpace l' else l
  | [] => []
  end.

(** The longest run of digits at the front. *)
Fixpoint digitRun (l : list ascii) : list ascii * list ascii :=
  match l with
  | a :: l' => if isDigit a then let '(ds, r) := digitRun l' in (a :: ds, r) else ([], l)
  | [] => ([], [])
  end.

(** A number: optional minus, integer without a leading zero, optional
    fraction and exponent. The result is the lexeme and the rest. *)
Definition numberLexeme (l : list ascii) : option (list ascii * list ascii) :=
  let '(sign, l1) := match l with "-" :: r => (["-"], r) | _ => ([], l) end in
  let '(int, l2) := digitRun l1 in
  match int with
  | [] => None
  | d :: ds =>
      if bool_decide (d = "0") && negb (bool_decide (ds = [])) then None else
      let frac :=
        match l2 with
        | "." :: r =>
            let '(fs, r') := digitRun r in
            match fs with [] => None | _ => Some ("." :: fs, r') end
        | _ => Some ([], l2)
        end in
      '(fs, l3) ← frac;
      let exp :=
        match l3 with
        | e :: r =>
            if bool_decide (e ∈ ["e"; "E"]) then
              let '(sg, r1) :=
                match r with
                | "+" :: r1 => (["+"], r1)
                | "-" :: r1 => (["-"], r1)
                | _ => ([], r)
                end in
              let '(es, r2) := digitRun r1 in
              match es with [] => None | _ => Some (e :: sg ++ es, r2) end
            else Some ([], l3)
        | [] => Some ([], l3)
        end in
      '(es, l4) ← exp;
      Some (sign ++ int ++ fs ++ es, l4)
  end.

Definition hexValue (a : ascii) : option Z :=
  if isDigit a then Some (code a - 48)
  else if bool_decide (97 ≤ code a ≤ 102)%Z then Some (code a - 87)
  else if bool_decide (65 ≤ code a ≤ 70)%Z then Some (code a - 55)
  else None.

(** The UTF-8 bytes of a code point of the basic plane. *)
Definition utf8 (cp : Z) : list ascii :=
  if bool_decide (cp < 128)%Z then [char cp]
  else if bool_decide (cp < 2048)%Z then [char (192 + cp / 64); char (128 + cp mod 64)]
  else [char (224 + cp / 4096); char (128 + cp / 64 mod 64); char (128 + cp mod 64)].

(** The characters of a string literal after its opening quote. *)
Fixpoint stringBody (fuel : nat) (l : list ascii) : option (list ascii * list ascii) :=
  match fuel with
  | O => None
  | S n =>
      match l with
      | "\" :: e :: r =>
          let escaped (c : list ascii) (r : list ascii) :=
            '(cs, r') ← stringBody n r; Some (c ++ cs, r') in
          if bool_decide (e ∈ [dq; "\"; "/"]) then escaped [e] r
          else if bool_decide (e = "b") then escaped [char 8] r
          else if bool_decide (e = "f") then escaped [char 12] r
          else if bool_decide (e = "n") then escaped [char 10] r
          else if bool_decide (e = "r") then escaped [char 13] r
          else if bool_decide (e = "t") then escaped [char 9] r
          else if bool_decide (e = "u") then
            match r with
            | h1 :: h2 :: h3 :: h4 :: r' =>
                a ← hexValue h1; b ← hexValue h2; c ← hexValue h3; d ← hexValue h4;
                escaped (utf8 (((a * 16 + b) * 16 + c) * 16 + d)) r'
            | _ => None
            end
          else None
      | a :: r =>
          if bool_decide (a = dq) then Some ([], r)
          else if bool_decide (code a < 32)%Z then None
          else '(cs, r') ← stringBody n r; Some (a :: cs, r')
      | [] => None
      end
  end.

Fixpoint value (fuel : nat) (l : list ascii) : option (Json * list ascii) :=
  match fuel with
  | O => None
  | S n =>
      match skipSpace l with
      | "n" :: "u" :: "l" :: "l" :: r => Some (JNull, r)
      | "t" :: "r" :: "u" :: "e" :: r => Some (JBool true, r)
      | "f" :: "a" :: "l" :: "s" :: "e" :: r => Some (JBool false, r)
      | "[" :: r =>
          match skipSpace r with
          | "]" :: r' => Some (JArray [], r')
          | _ => '(vs, r') ← elements n r; Some (JArray vs, r')
          end
      | "{" :: r =>
          match skipSpace r with
          | "}" :: r' => Some (JObject [], r')
          | _ => '(ms, r') ← members n r; Some (JObject ms, r')
          end
      | a :: r =>
          if bool_decide (a = dq) then
            '(cs, r') ← stringBody (S (length r)) r;
            Some (JString (string_of_list_ascii cs), r')
          else
            '(lx, r') ← numberLexeme (a :: r);
            Some (JNumber (string_of_list_ascii lx), r')
      | [] => None
      end
  end
with elements (fuel : nat) (l : list ascii) : option (list Json * list ascii) :=
  match fuel with
  | O => None
  | S n =>
      '(v, r) ← value n l;
      match skipSpace r with
      | "," :: r' => '(vs, r'') ← elements n r'; Some (v :: vs, r'')
      | "]" :: r' => Some ([v], r')
      | _ => None
      end
  end
with members (fuel : nat) (l : list ascii)
    : option (list (string * Json) * list ascii) :=
  match fuel with
  | O => None
  | S n =>
      match skipSpace l with
      | a :: r =>
          if negb (bool_decide (a = dq)) then None else
          '(ks, r1) ← stringBody (S (length r)) r;
          match skipSpace r1 with
          | ":" :: r2 =>
              '(v, r3) ← value n r2;
              let member := (string_of_list_ascii ks, v) in
              match skipSpace r3 with
              | "," :: r4 => '(ms, r5) ← members n r4; Some (member :: ms, r5)
              | "}" :: r4 => Some ([member], r4)
              | _ => None
              end
          | _ => None
          end
      | [] => None
      end
  end.

Definition JSON_parse (s : string) : option Json :=
  let l := list_ascii_of_string s in
  '(v, r) ← value (S (length l)) l;
  match skipSpace r with [] => Some v | _ => None end.

(** [JSON.stringify] of a string. *)
Fixpoint quoteBody (s : string) : string :=
  match s with
  | EmptyString => EmptyString
  | String a s' =>
      if bool_decide (a ∈ [dq; "\"]) then String "\" (String a (quoteBody s'))
      else if bool_decide (code a = 10)%Z then String "\" (String "n" (quoteBody s'))
      else if bool_decide (code a = 13)%Z then String "\" (String "r" (quoteBody s'))
      else if bool_decide (code a = 9)%Z then String "\" (String "t" (quoteBody s'))
      else if bool_decide (code a = 8)%Z then String "\" (String "b" (quoteBody s'))
      else if bool_decide (code a = 12)%Z then String "\" (String "f" (quoteBody s'))
      else if bool_decide (code a < 32)%Z then
        String "\" (String "u" (String "0" (String "0"
          (String (lower (hexDigit (code a / 16)))
             (String (lower (hexDigit (code a mod 16))) (quoteBody s'))))))
      else String a (quoteBody s')
  end.
Close Scope char_scope.

Definition quote (s : string) : string :=
  String dq (quoteBody s) +:+ String dq EmptyString.

Definition field (name value : string) : string := quote name +:+ ":" +:+ value.

Definition object (fields : list string) : string :=
  "{" +:+ String.concat "," fields +:+ "}".

Definition array (items : list string) : string :=
  "[" +:+ String.concat "," items +:+ "]".

(** Modelled from the spec: the string values of the two enumerations
    ([types.ts] is not among the sources) are their names in the data
    model. *)
Definition statusName (s : ExpenseStatus) : string :=
  match s with SUBMITTED => "Submitted" | APPROVED => "Approved" | REJECTED => "Rejected" end.

Definition roleName (r : UserRole) : string :=
  match r with SALES => "Sales" | MANAGER => "Manager" | ADMIN => "Admin" end.

Definition stringify_expense (e : Expense) : string :=
  object [
    field "id" (quote (Expense.id e));
    field "userId" (quote (Expense.userId e));
    field "userName" (quote (Expense.userName e));
    field "merchant" (quote (Expense.merchant e));
    field "date" (quote (Expense.date e));
    field "subtotal" (pretty (Expense.subtotal e));
    field "tax" (pretty (Expense.tax e));
    field "total" (pretty (Expense.total e));
    field "category" (quote (Expense.category e));
    field "imageUrl" (quote (Expense.imageUrl e));
    field "status" (quote (statusName (Expense.status e)));
    field "notes" (quote (Expense.notes e));
    field "createdAt" (quote (Expense.createdAt e)) ].

Definition stringify_expenses (l : list Expense) : string :=
  array (map stringify_expense l).

Definition stringify_user (u : User.t) : string :=
  object ([
    field "id" (quote (User.id u));
    field "name" (quote (User.name u));
    field "email" (quote (User.email u));
    field "password" (quote (User.password u));
    field "role" (quote (roleName (User.role u)));
    field "avatar" (quote (User.avatar u)) ]
    ++ match User.pendingUpdates u with
       | Some p =>
           [ field "pendingUpdates"
               (object [ field "name" (quote (Pending.name p));
                         field "email" (quote (Pending.email p));
                         field "date" (quote (Pending.date p)) ]) ]
       | None => []
       end).

Definition stringify_users (l : list User.t) : string :=
  array (map stringify_user l).

(** The seed collections: one administrator and no expenses. The contents
    of [mockData.ts] are not among the sources; no statement depends on
    them. *)
Definition MOCK_USERS : list User.t :=
  [ User.mk "u-admin" "Admin" "admin@example.com" "admin" ADMIN "" None ].

Definition MOCK_EXPENSES : list Expense := [].

Definition platform : Platform :=
  Build_Platform toLowerCase encodeURIComponent getTime toISOString JSON_parse
                 stringify_expenses stringify_users MOCK_EXPENSES MOCK_USERS.
End Browser.

(** ** Well-formed worlds

    In cloud mode the subscription is the only writer of the in-memory
    collections, and the application keys every document by the identifier
    of the record it holds. *)
Section Invariants.
Context `{Platform}.

Definition expensesKeyed (db : Firestore.t) : Prop :=
  ∀ k d, Firestore.expenses db !! k = Some d → default k (Expense.id d) = k.

Definition usersKeyed (db : Firestore.t) : Prop :=
  ∀ k u, Firestore.users db !! k = Some u → User.id u = k.

Definition expensesInSync (w : World) : Prop :=
  ExpenseState.expenses (expenseProvider (client w))
  = ExpenseContext.onSnapshot (map_to_list (Firestore.expenses (db w))).

Definition usersInSync (w : World) : Prop :=
  AuthState.allUsers (authProvider (client w))
  = (map_to_list (Firestore.users (db w))).*2.

(** The expense provider is in local mode, or in cloud mode against a
    reachable store it is in step with. *)
Definition expensesReady (w : World) : Prop :=
  ExpenseState.useCloud (expenseProvider (client w)) = true →
  Firestore.available (db w) = true ∧ expensesKeyed (db w) ∧ expensesInSync w.

Definition usersReady (w : World) : Prop :=
  AuthState.useCloud (authProvider (client w)) = true →
  Firestore.available (db w) = true ∧ usersKeyed (db w) ∧ usersInSync w.

(** The fields the approval workflow writes: the status alone, or the status
    and the note. *)
Definition setStatus (status : ExpenseStatus) (e : Expense) : Expense :=
  Expense.mk (Expense.id e) (Expense.userId e) (Expense.userName e)
             (Expense.merchant e) (Expense.date e) (Expense.subtotal e)
             (Expense.tax e) (Expense.total e) (Expense.category e)
             (Expense.imageUrl e) status (Expense.notes e) (Expense.createdAt e).

Definition setStatusAndNotes (status : ExpenseStatus) (n : string) (e : Expense)
    : Expense :=
  Expense.mk (Expense.id e) (Expense.userId e) (Expense.userName e)
             (Expense.merchant e) (Expense.date e) (Expense.subtotal e)
             (Expense.tax e) (Expense.total e) (Expense.category e)
             (Expense.imageUrl e) status n (Expense.createdAt e).

(** What an edit makes of one field: the value the patch carries when the
    field is present in it, the value before otherwise. *)
Definition replaced {A : Type} (field : option A) (before after : A) : Prop :=
  match field with
  | Some v => after = v
  | None => after = before
  end.

(** The record [e'] is [e] edited by the patch [p]: exactly the fields
    present in [p] are replaced, every other field is as it was. *)
Definition editedBy (p : PartialExpense.t) (e e' : Expense) : Prop :=
  replaced (PartialExpense.id p) (Expense.id e) (Expense.id e')
  ∧ replaced (PartialExpense.userId p) (Expense.userId e) (Expense.userId e')
  ∧ replaced (PartialExpense.userName p) (Expense.userName e) (Expense.userName e')
  ∧ replaced (PartialExpense.merchant p) (Expense.merchant e) (Expense.merchant e')
  ∧ replaced (PartialExpense.date p) (Expense.date e) (Expense.date e')
  ∧ replaced (PartialExpense.subtotal p) (Expense.subtotal e) (Expense.subtotal e')
  ∧ replaced (PartialExpense.tax p) (Expense.tax e) (Expense.tax e')
  ∧ replaced (PartialExpense.total p) (Expense.total e) (Expense.total e')
  ∧ replaced (PartialExpense.category p) (Expense.category e) (Expense.category e')
  ∧ replaced (PartialExpense.imageUrl p) (Expense.imageUrl e) (Expense.imageUrl e')
  ∧ replaced (PartialExpense.status p) (Expense.status e) (Expense.status e')
  ∧ replaced (PartialExpense.notes p) (Expense.notes e) (Expense.notes e')
  ∧ replaced (PartialExpense.createdAt p) (Expense.createdAt e) (Expense.createdAt e').

(** The two ways a pending profile update ends: its name and email become
    the live ones, or it is dropped; either way none is pending. *)
Definition applyPending (p : Pending.t) (u : User.t) : User.t :=
  User.mk (User.id u) (Pending.name p) (Pending.email p) (User.password u)
          (User.role u) (User.avatar u) None.

Definition clearPending (u : User.t) : User.t :=
  User.mk (User.id u) (User.name u) (User.email u) (User.password u)
          (User.role u) (User.avatar u) None.

(** The staged request. *)
Definition stagePending (p : Pending.t) (u : User.t) : User.t :=
  User.mk (User.id u) (User.name u) (User.email u) (User.password u)
          (User.role u) (User.avatar u) (Some p).

(** What a patch of one field makes of a user: that field has the new
    value and every other field is as it was. *)
Definition fieldSet (f : UserField) (u u' : User.t) : Prop :=
  User.id u' = User.id u
  ∧ User.name u' = User.name u
  ∧ User.email u' = User.email u
  ∧ User.pendingUpdates u' = User.pendingUpdates u
  ∧ match f with
    | Role newRole =>
        User.role u' = newRole
        ∧ User.avatar u' = User.avatar u ∧ User.password u' = User.password u
    | Avatar avatarUrl =>
        User.avatar u' = avatarUrl
        ∧ User.role u' = User.role u ∧ User.password u' = User.password u
    | Password password =>
        User.password u' = password
        ∧ User.role u' = User.role u ∧ User.avatar u' = User.avatar u
    end.

(** The value last typed into the inputs that [pick] selects, if any. *)
Definition typed {A : Type} (pick : SalesHome.Input → option A)
    (inputs : list SalesHome.Input) : option A :=
  last (omap pick inputs).

(** What the user typed into the edit form, as a patch: for each of the
    five inputs the last value typed, and nothing for the other fields. *)
Definition typedPatch (inputs : list SalesHome.Input) : PartialExpense.t :=
  PartialExpense.mk None None None
    (typed (λ i, match i with SalesHome.Merchant v => Some v | _ => None end) inputs)
    (typed (λ i, match i with SalesHome.Date v => Some v | _ => None end) inputs)
    None None
    (typed (λ i, match i with SalesHome.Total v => Some v | _ => None end) inputs)
    (typed (λ i, match i with SalesHome.Category v => Some v | _ => None end) inputs)
    None None
    (typed (λ i, match i with SalesHome.Notes v => Some v | _ => None end) inputs)
    None.

(** What [resolveProfileUpdate] may change of a user: nothing of a user
    with another identifier, and of the user [userId] at most the name, the
    email and the pending update. *)
Definition resolveFrame (userId : string) (u u' : User.t) : Prop :=
  User.id u' = User.id u
  ∧ User.password u' = User.password u
  ∧ User.role u' = User.role u
  ∧ User.avatar u' = User.avatar u
  ∧ (User.id u ≠ userId → u' = u).

(** Creation instants: [a] is not older than [b]; [a] is newer than [b]. *)
Definition notOlder (a b : Expense) : Prop :=
  ∃ ta tb, getTime (Expense.createdAt a) = Some ta
           ∧ getTime (Expense.createdAt b) = Some tb ∧ tb ≤ ta.

Definition newer (a b : Expense) : Prop :=
  ∃ ta tb, getTime (Expense.createdAt a) = Some ta
           ∧ getTime (Expense.createdAt b) = Some tb ∧ tb < ta.

Definition dated (e : Expense) : Prop := is_Some (getTime (Expense.createdAt e)).

(** Newest creation first. *)
Definition newestFirst (l : list Expense) : Prop := StronglySorted notOlder l.

(** Each expense of [creates], in call order, is newer than everything the
    collection holds when it is created. *)
Fixpoint eachNewer (existing creates : list Expense) : Prop :=
  match creates with
  | [] => True
  | e :: rest => Forall (newer e) existing ∧ eachNewer (e :: existing) rest
  end.

(** The calls [addExpense(e)] for the expenses of [creates], one after the
    other. *)
Definition createAll (creates : list Expense) (w : World) : World :=
  foldl (λ w e, (run (λ c, ExpenseContext.addExpense c e) w).2) w creates.
End Invariants.

(** The account [signup] creates at the instant [now]. *)
Section NewAccount.
Context `{Platform}.

Definition newAccount (now : Z) (name email password : string) : User.t :=
  User.mk ("u-" +:+ pretty now) name email password SALES
          ("https://ui-avatars.com/api/?name=" +:+ encodeURIComponent name
             +:+ "&background=random&color=fff&background=2563eb")
          None.
End NewAccount.

(** ** Sample data

    Two users and three expenses, a store that holds them, and the worlds
    the concrete runs start from. *)
Module Sample.
#[local] Existing Instance Browser.platform.

Definition alice : User.t :=
  User.mk "u-1" "Alice" "alice@x.com" "pw1" SALES
          "https://ui-avatars.com/api/?name=Alice&background=random&color=fff&background=2563eb"
          (Some (Pending.mk "Alice B" "alice.b@x.com" "2024-03-01T09:00:00.000Z")).

Definition bob : User.t :=
  User.mk "u-2" "Bob" "bob@x.com" "pw2" MANAGER EmptyString None.

Definition e1 : Expense :=
  Expense.mk "e1" "u-1" "Alice" "Cafe Central" "2024-01-02" 1000 210 1210
             "Restaurant"
             "data:image/jpeg;base64,/9j/4AAQSkZJRgABAQAAAQABAAD/2wBDAAoHBwgHBgoICAgLCgoLDhgQDg0NDh0VFhEYIx8lJCIfIiEmKzcvJik0KSEiMEExNDk7Pj4+JS5ESUM8SDc9Pjv/2wBDAQoLCw4NDhwQEBw7KCIoOzs7Ozs7Ozs7Ozs7Ozs7Ozs7Ozs7Ozs7Ozs7Ozs7Ozs7Ozs7Ozs7Ozs7Ozs7Ozs7Ozv/wAARCAABAAEDASIAAhEBAxEB"
             SUBMITTED "client lunch" "2024-01-02T10:00:00.000Z".

Definition e2 : Expense :=
  Expense.mk "e2" "u-1" "Alice" "Hotel Sol" "2024-01-05" 8000 1680 9680
             "Hotel" EmptyString SUBMITTED EmptyString "2024-01-05T18:30:00.000Z".

Definition e3 : Expense :=
  Expense.mk "e3" "u-2" "Bob" "Taxi" "2024-01-03" 1500 150 1650
             "Transport" EmptyString APPROVED "airport" "2024-01-03T08:15:00.000Z".

Definition roomy : LocalStorage.t := LocalStorage.mk ∅ 5000000%N.

(** A store that holds less than the snapshot of [e1] with its receipt. *)
Definition tight : LocalStorage.t := LocalStorage.mk ∅ 400%N.

Definition store : Firestore.t :=
  Firestore.mk {[ "u-1" := alice; "u-2" := bob ]}
               {[ "e1" := toData e1; "e2" := toData e2; "e3" := toData e3 ]}
               true.

Definition localWorld : World :=
  mkWorld
    (mkClient (ExpenseState.mk [e2; e3; e1] false)
              (AuthState.mk [alice; bob] None false false)
              roomy [] [])
    (Firestore.mk ∅ ∅ false).

Definition cloudWorld : World :=
  mkWorld
    (mkClient
       (ExpenseState.mk
          (ExpenseContext.onSnapshot (map_to_list (Firestore.expenses store))) true)
       (AuthState.mk (map_to_list (Firestore.users store)).*2 None false true)
       roomy [] [])
    store.

Definition emptyLocal : World :=
  mkWorld
    (mkClient (ExpenseState.mk [] false) (AuthState.mk [] None false false) roomy [] [])
    (Firestore.mk ∅ ∅ false).

(** The cloud world against a store that rejects every call. *)
Definition deniedWorld : World :=
  mkWorld (client cloudWorld)
          (Firestore.mk (Firestore.users store) (Firestore.expenses store) false).

(** The local world with Alice signed in and her session stored. *)
Definition aliceLocal : World :=
  mkWorld
    (mkClient (ExpenseState.mk [e2; e3; e1] false)
              (AuthState.mk [alice; bob] (Some alice) false false)
              (LocalStorage.mk {[ "billboard_user_id" := "u-1" ]} 5000000%N) [] [])
    (Firestore.mk ∅ ∅ false).

(** A fourth expense, not in any collection. *)
Definition e4 : Expense :=
  Expense.mk "e4" "u-2" "Bob" "Garage Nord" "2024-01-07" 4000 840 4840
             "Parking" EmptyString SUBMITTED EmptyString "2024-01-07T07:45:00.000Z".
End Sample.

(** * Properties *)

(** ** Sorting, lists and finite maps *)

Section SortFacts.
Context {A : Type} (cmp : A → A → option Z).

Lemma place_perm a l : place cmp a l ≡ₚ a :: l.
Proof.
  induction l as [|b l IH]; simpl; [done|].
  destruct (keeps cmp a b); [done|].
  rewrite IH. apply Permutation_swap.
Qed.

Lemma sort_perm l : Array_sort cmp l ≡ₚ l.
Proof.
  induction l as [|a l IH]; simpl; [done|].
  unfold Array_sort in *. simpl. rewrite place_perm. by rewrite IH.
Qed.

(** A function that the comparator does not see commutes with sorting. *)
Lemma place_map (f : A → A) a l :
  (∀ x y, cmp (f x) (f y) = cmp x y) →
  place cmp (f a) (map f l) = map f (place cmp a l).
Proof.
  intros Hf. induction l as [|b l IH]; simpl; [done|].
  unfold keeps. rewrite Hf. destruct (cmp a b) as [v|]; simpl.
  - case_bool_decide; simpl; [done|]. by rewrite IH.
  - done.
Qed.

Lemma sort_map (f : A → A) l :
  (∀ x y, cmp (f x) (f y) = cmp x y) →
  Array_sort cmp (map f l) = map f (Array_sort cmp l).
Proof.
  intros Hf. induction l as [|a l IH]; simpl; [done|].
  unfold Array_sort in *. simpl. rewrite IH. by apply place_map.
Qed.
End SortFacts.

Section Order.
Context `{Platform}.

Lemma keeps_newestFirst a b :
  dated a → dated b →
  (keeps ExpenseContext.newestFirst a b = true → notOlder a b)
  ∧ (keeps ExpenseContext.newestFirst a b = false → newer b a).
Proof.
  intros [ta Ha] [tb Hb]. unfold keeps, ExpenseContext.newestFirst.
  rewrite Ha, Hb. split; intros Hk.
  - apply bool_decide_eq_true in Hk. exists ta, tb. repeat split; [done..|lia].
  - apply bool_decide_eq_false in Hk. exists tb, ta. repeat split; [done..|lia].
Qed.

Lemma newer_notOlder a b : newer a b → notOlder a b.
Proof. intros (ta & tb & ? & ? & ?). exists ta, tb. repeat split; [done..|lia]. Qed.

Lemma notOlder_trans a b c : notOlder a b → notOlder b c → notOlder a c.
Proof.
  intros (ta & tb & Ha & Hb & ?) (tb' & tc & Hb' & Hc & ?).
  rewrite Hb in Hb'. injection Hb' as <-.
  exists ta, tc. repeat split; [done..|lia].
Qed.

Lemma place_newestFirst a l :
  dated a → Forall dated l → newestFirst l →
  newestFirst (place ExpenseContext.newestFirst a l).
Proof.
  intros Ha Hl Hs. induction Hs as [|b l Hs IH Hb]; simpl.
  - repeat constructor.
  - apply Forall_cons in Hl as [Hdb Hl].
    destruct (keeps_newestFirst a b Ha Hdb) as [Hk1 Hk2].
    destruct (keeps ExpenseContext.newestFirst a b) eqn:Hk.
    + constructor; [by constructor|].
      constructor; [by apply Hk1|].
      eapply Forall_impl; [exact Hb|]. intros c Hc.
      eapply notOlder_trans; [by apply Hk1|done].
    + constructor; [by apply IH|].
      rewrite place_perm. constructor; [|done].
      apply newer_notOlder. by apply Hk2.
Qed.

Lemma sort_newestFirst l :
  Forall dated l → newestFirst (Array_sort ExpenseContext.newestFirst l).
Proof.
  induction 1 as [|a l Ha Hl IH]; simpl; [constructor|].
  apply place_newestFirst; [done| |done].
  fold (Array_sort ExpenseContext.newestFirst l). by rewrite sort_perm.
Qed.
End Order.

Lemma StronglySorted_filter {A} (R : relation A) (P : A → Prop)
    `{∀ x, Decision (P x)} (l : list A) :
  StronglySorted R l → StronglySorted R (filter P l).
Proof.
  induction 1 as [|a l Hs IH Ha]; [constructor|].
  rewrite filter_cons. destruct (decide (P a)); [|done].
  constructor; [done|].
  apply Forall_forall. intros x Hx%list_elem_of_filter.
  rewrite Forall_forall in Ha. apply Ha, Hx.
Qed.

Section Create.
Context `{Platform}.

Lemma addExpense_local w e :
  ExpenseState.useCloud (expenseProvider (client w)) = false →
  run (λ c, ExpenseContext.addExpense c e) w
  = (Fulfilled, mkWorld (setExpenses (λ prev, e :: prev) (client w)) (db w)).
Proof. intros Hl. unfold run, ExpenseContext.addExpense. by rewrite Hl. Qed.

Lemma createAll_local creates : ∀ w,
  ExpenseState.useCloud (expenseProvider (client w)) = false →
  createAll creates w
  = mkWorld (setExpenses (λ prev, reverse creates ++ prev) (client w)) (db w).
Proof.
  unfold createAll.
  induction creates as [|e creates IH]; intros w Hl; simpl.
  - by destruct w as [[[] ? ? ? ?] ?].
  - rewrite addExpense_local by done. simpl. rewrite IH by done.
    unfold setExpenses. simpl. by rewrite reverse_cons, <- app_assoc.
Qed.

Lemma eachNewer_sorted creates : ∀ existing,
  newestFirst existing → eachNewer existing creates →
  newestFirst (reverse creates ++ existing).
Proof.
  induction creates as [|e creates IH]; intros existing Hs Hn; simpl in *.
  - done.
  - destruct Hn as [He Hn]. rewrite reverse_cons, <- app_assoc. simpl.
    apply IH; [|done]. constructor; [done|].
    eapply Forall_impl; [exact He|]. intros b. apply newer_notOlder.
Qed.
End Create.

Section MapFacts.
Context {V : Type}.

(** Replacing the entry of key [k] in a list with distinct keys is a map. *)
Lemma list_insert_keyed (l : list (string * V)) j k v v' :
  NoDup l.*1 → l !! j = Some (k, v) →
  <[j := (k, v')]> l = (λ kd, if decide (kd.1 = k) then (k, v') else kd) <$> l.
Proof.
  intros Hnd Hj. apply list_eq. intros i.
  rewrite list_lookup_fmap.
  destruct (decide (i = j)) as [->|Hij].
  - rewrite list_lookup_insert_eq by (by eapply lookup_lt_Some).
    rewrite Hj. simpl. by rewrite decide_True.
  - rewrite list_lookup_insert_ne by done.
    destruct (l !! i) as [[k' d]|] eqn:Hi; simpl; [|done].
    rewrite decide_False; [done|]. simpl. intros ->.
    apply Hij. eapply NoDup_lookup; [exact Hnd| |].
    + rewrite list_lookup_fmap, Hi. done.
    + rewrite list_lookup_fmap, Hj. done.
Qed.

Lemma map_to_list_overwrite (m : gmap string V) k v v' :
  m !! k = Some v →
  map_to_list (<[k := v']> m)
  = (λ kd, if decide (kd.1 = k) then (k, v') else kd) <$> map_to_list m.
Proof.
  intros Hk.
  assert ((k, v) ∈ map_to_list m) as Hin by by apply elem_of_map_to_list.
  apply list_elem_of_lookup in Hin as [j Hj].
  rewrite (map_to_list_update m j k v v' Hj).
  eapply list_insert_keyed; [apply NoDup_fst_map_to_list|done].
Qed.

(** Deleting a list of keys. *)
Lemma lookup_foldr_delete (m : gmap string V) ks k :
  foldr delete m ks !! k = if decide (k ∈ ks) then None else m !! k.
Proof.
  induction ks as [|k' ks IH]; cbn [foldr].
  - destruct (decide (k ∈ [])) as [Hin|]; [|done]. by apply not_elem_of_nil in Hin.
  - destruct (decide (k = k')) as [->|Hne].
    + rewrite lookup_delete_eq.
      destruct (decide (k' ∈ k' :: ks)) as [|Hnin]; [done|].
      destruct Hnin. apply list_elem_of_here.
    + rewrite lookup_delete_ne by done. rewrite IH.
      destruct (decide (k ∈ ks)) as [Hin|Hnin];
        destruct (decide (k ∈ k' :: ks)) as [Hin'|Hnin']; try done.
      * destruct Hnin'. by apply list_elem_of_further.
      * apply elem_of_cons in Hin' as [?|?]; done.
Qed.

Lemma foldr_delete_filter (m : gmap string V) (P : V → Prop) `{∀ v, Decision (P v)} :
  foldr delete m (map_to_list (filter (λ kd, P kd.2) m)).*1
  = filter (λ kd, ¬ P kd.2) m.
Proof.
  apply map_eq. intros k. rewrite lookup_foldr_delete.
  destruct (m !! k) as [v|] eqn:Hk.
  - destruct (decide (P v)) as [HP|HP].
    + rewrite decide_True.
      * symmetry. apply map_lookup_filter_None. right. intros v' Hv'. simpl.
        rewrite Hk in Hv'. injection Hv' as <-. tauto.
      * apply list_elem_of_fmap. exists (k, v). split; [done|].
        apply elem_of_map_to_list. apply map_lookup_filter_Some. done.
    + rewrite decide_False.
      * symmetry. apply map_lookup_filter_Some. done.
      * intros ([k' v'] & Hkk & Hin)%list_elem_of_fmap. simpl in Hkk. subst k'.
        apply elem_of_map_to_list, map_lookup_filter_Some in Hin as [Hv' HP'].
        rewrite Hk in Hv'. injection Hv' as <-. done.
  - destruct (decide _); symmetry; apply map_lookup_filter_None; by left.
Qed.
End MapFacts.

Section ListFacts.
Context {A : Type}.

Lemma find_first (f : A → bool) (l : list A) x :
  x ∈ l → f x = true → ∃ y, List.find f l = Some y.
Proof.
  intros Hx Hf. destruct (List.find f l) as [y|] eqn:Hfind; [eauto|].
  apply list_elem_of_In in Hx.
  by rewrite (find_none f l Hfind x Hx) in Hf.
Qed.

Lemma find_absent (f : A → bool) (l : list A) :
  (∀ x, x ∈ l → f x = false) → List.find f l = None.
Proof.
  intros Hf. destruct (List.find f l) as [y|] eqn:Hfind; [|done].
  apply find_some in Hfind as [Hy Hfy]. apply list_elem_of_In in Hy.
  by rewrite (Hf y Hy) in Hfy.
Qed.

(** Two elements with the same key, in a list whose keys are distinct. *)
Lemma NoDup_key_eq {K} (key : A → K) (l : list A) x y :
  NoDup (map key l) → x ∈ l → y ∈ l → key x = key y → x = y.
Proof.
  intros Hnd Hx Hy Hk.
  apply list_elem_of_lookup in Hx as [i Hi].
  apply list_elem_of_lookup in Hy as [j Hj].
  assert (i = j) as ->.
  { eapply NoDup_lookup; [exact Hnd| |].
    - change (map ?f ?l) with (f <$> l). by rewrite list_lookup_fmap, Hi.
    - change (map ?f ?l) with (f <$> l). rewrite list_lookup_fmap, Hj. simpl.
      by rewrite Hk. }
  rewrite Hi in Hj. by injection Hj.
Qed.

Lemma find_unique {K} `{EqDecision K} (key : A → K) (l : list A) x :
  NoDup (map key l) → x ∈ l →
  List.find (λ y, bool_decide (key y = key x)) l = Some x.
Proof.
  intros Hnd Hx.
  destruct (find_first (λ y, bool_decide (key y = key x)) l x Hx) as [y Hy].
  { by apply bool_decide_eq_true. }
  rewrite Hy. f_equal.
  apply find_some in Hy as [Hin Hk]. apply bool_decide_eq_true in Hk.
  apply list_elem_of_In in Hin. by eapply NoDup_key_eq.
Qed.

Lemma mapM_total (f : A → option A) (g : A → A) (l : list A) :
  (∀ x, x ∈ l → f x = Some (g x)) → mapM f l = Some (map g l).
Proof.
  intros Hf. apply mapM_Some. change (map ?f ?l) with (f <$> l).
  apply Forall2_fmap_r, Forall_Forall2_diag, Forall_forall. done.
Qed.
End ListFacts.

(** ** The expense repository *)

Section CloudExpenses.
Context `{Platform}.

Lemma fromDoc_id k d : Expense.id (ExpenseContext.fromDoc (k, d)) = default k (Expense.id d).
Proof. done. Qed.

(** A record shown in cloud mode is the document stored under its
    identifier. *)
Lemma shown_stored (m : gmap string ExpenseData) e :
  (∀ k d, m !! k = Some d → default k (Expense.id d) = k) →
  e ∈ ExpenseContext.onSnapshot (map_to_list m) →
  ∃ d, m !! Expense.id e = Some d ∧ ExpenseContext.fromDoc (Expense.id e, d) = e.
Proof.
  intros Hkeyed He.
  unfold ExpenseContext.onSnapshot in He. rewrite sort_perm in He.
  change (map ?f ?l) with (f <$> l) in He.
  apply list_elem_of_fmap in He as ([k d] & -> & Hin).
  apply elem_of_map_to_list in Hin.
  rewrite fromDoc_id, (Hkeyed _ _ Hin). eauto.
Qed.

(** Overwriting a stored document, as the conversion of the snapshot sees
    it. *)
Lemma overwrite_docs (m : gmap string ExpenseData) k d d' (h : Expense → Expense) :
  (∀ k d, m !! k = Some d → default k (Expense.id d) = k) →
  m !! k = Some d →
  ExpenseContext.fromDoc (k, d') = h (ExpenseContext.fromDoc (k, d)) →
  (∀ e, Expense.id e ≠ k → h e = e) →
  map ExpenseContext.fromDoc (map_to_list (<[k := d']> m))
  = map h (map ExpenseContext.fromDoc (map_to_list m)).
Proof.
  intros Hkeyed Hk Hd Hother.
  rewrite (map_to_list_overwrite m k d d' Hk).
  change (map ?f ?l) with (f <$> l). rewrite <- !list_fmap_compose.
  apply list_fmap_ext. intros i [k' d0] Hi. simpl.
  apply list_elem_of_lookup_2, elem_of_map_to_list in Hi.
  destruct (decide (k' = k)) as [->|Hne].
  - rewrite Hk in Hi. injection Hi as <-. done.
  - symmetry. apply Hother. rewrite fromDoc_id, (Hkeyed _ _ Hi). done.
Qed.

Lemma overwrite_shown_perm (m : gmap string ExpenseData) k d d' (h : Expense → Expense) :
  (∀ k d, m !! k = Some d → default k (Expense.id d) = k) →
  m !! k = Some d →
  ExpenseContext.fromDoc (k, d') = h (ExpenseContext.fromDoc (k, d)) →
  (∀ e, Expense.id e ≠ k → h e = e) →
  ExpenseContext.onSnapshot (map_to_list (<[k := d']> m))
  ≡ₚ map h (ExpenseContext.onSnapshot (map_to_list m)).
Proof.
  intros Hkeyed Hk Hd Hother.
  unfold ExpenseContext.onSnapshot. rewrite !sort_perm.
  by rewrite (overwrite_docs m k d d' h).
Qed.

Lemma overwrite_shown (m : gmap string ExpenseData) k d d' (h : Expense → Expense) :
  (∀ k d, m !! k = Some d → default k (Expense.id d) = k) →
  m !! k = Some d →
  ExpenseContext.fromDoc (k, d') = h (ExpenseContext.fromDoc (k, d)) →
  (∀ e, Expense.id e ≠ k → h e = e) →
  (∀ e, Expense.createdAt (h e) = Expense.createdAt e) →
  ExpenseContext.onSnapshot (map_to_list (<[k := d']> m))
  = map h (ExpenseContext.onSnapshot (map_to_list m)).
Proof.
  intros Hkeyed Hk Hd Hother Htime.
  unfold ExpenseContext.onSnapshot.
  rewrite (overwrite_docs m k d d' h) by done.
  apply sort_map. intros x y. unfold ExpenseContext.newestFirst. by rewrite !Htime.
Qed.

(** The cloud branch of a patch on a stored document. *)
Lemma patch_cloud w k fields d (resume : Response → Async) :
  ExpenseState.useCloud (expenseProvider (client w)) = true →
  Firestore.available (db w) = true →
  Firestore.expenses (db w) !! k = Some d →
  exec listeners (Await (UpdateExpense k fields) resume) w
  = exec listeners (resume Resolved)
      (mkWorld
         (setExpenses
            (λ _, ExpenseContext.onSnapshot
                    (map_to_list (<[k := spread Some TimeString d fields]>
                                    (Firestore.expenses (db w)))))
            (client w))
         (Firestore.mk (Firestore.users (db w))
            (<[k := spread Some TimeString d fields]> (Firestore.expenses (db w))) true)).
Proof.
  intros Hc Ha Hk. cbn [exec]. unfold Firestore.handle. rewrite Ha, Hk. simpl.
  by rewrite Hc.
Qed.

(** The cloud branch of a patch on a missing document: the store rejects
    it and nothing changes. *)
Lemma patch_cloud_missing w k fields (resume : Response → Async) :
  Firestore.expenses (db w) !! k = None →
  exec listeners (Await (UpdateExpense k fields) resume) w
  = exec listeners (resume Rejected) w.
Proof.
  intros Hk. cbn [exec]. unfold Firestore.handle.
  rewrite Hk. destruct (Firestore.available (db w)); simpl; by destruct w.
Qed.
End CloudExpenses.

Section Ordering.
Context `{Platform}.

Lemma onSnapshot_perm snapshot :
  ExpenseContext.onSnapshot snapshot ≡ₚ map ExpenseContext.fromDoc snapshot.
Proof. apply sort_perm. Qed.

Lemma onSnapshot_newestFirst snapshot :
  Forall dated (map ExpenseContext.fromDoc snapshot) →
  newestFirst (ExpenseContext.onSnapshot snapshot).
Proof. apply sort_newestFirst. Qed.

(** Whoever listens in cloud mode publishes the sorted collection after
    every accepted write to the expense collection. *)
Lemma listeners_publish r db c :
  ExpenseState.useCloud (expenseProvider c) = true →
  match r with
  | SetExpense _ _ | UpdateExpense _ _ | DeleteExpense _ | Commit _ =>
      ExpenseState.expenses (expenseProvider (listeners r db c))
      = ExpenseContext.onSnapshot (map_to_list (Firestore.expenses db))
  | _ => True
  end.
Proof. intros Hc. destruct r; simpl; try done; by rewrite Hc. Qed.

(** C2. The visible collection is newest-creation-first. In local mode,
    from a collection that is newest-first (the empty one in particular),
    any sequence of [addExpense] calls in which each new expense is newer
    than everything already held leaves [getExpensesByUser] with that
    owner's records, newest first. In cloud mode the subscription callback
    publishes the delivered documents sorted newest-first whatever their
    order of delivery (two deliveries of the same documents give the same
    list when no two records share an instant), and every accepted write to
    the expense collection is followed by such a publication. Instants are
    those the platform reads from the [createdAt] strings. *)
Theorem newest_first_order (w : World) (creates : list Expense) (userId : string)
    (delivered delivered' : list (string * ExpenseData)) :
  ExpenseState.useCloud (expenseProvider (client w)) = false →
  newestFirst (ExpenseState.expenses (expenseProvider (client w))) →
  eachNewer (ExpenseState.expenses (expenseProvider (client w))) creates →
  Forall dated (map ExpenseContext.fromDoc delivered) →
  delivered' ≡ₚ delivered →
  (let shown := ExpenseContext.getExpensesByUser (client (createAll creates w)) userId in
   shown = filter (λ e, Expense.userId e = userId)
             (reverse creates ++ ExpenseState.expenses (expenseProvider (client w)))
   ∧ newestFirst shown)
  ∧ (newestFirst (ExpenseContext.onSnapshot delivered)
     ∧ newestFirst (filter (λ e, Expense.userId e = userId)
                      (ExpenseContext.onSnapshot delivered))
     ∧ ExpenseContext.onSnapshot delivered ≡ₚ map ExpenseContext.fromDoc delivered
     ∧ newestFirst (ExpenseContext.onSnapshot delivered')
     ∧ ExpenseContext.onSnapshot delivered' ≡ₚ ExpenseContext.onSnapshot delivered
     ∧ ((∀ a b, a ∈ map ExpenseContext.fromDoc delivered →
                b ∈ map ExpenseContext.fromDoc delivered →
                getTime (Expense.createdAt a) = getTime (Expense.createdAt b) → a = b) →
        ExpenseContext.onSnapshot delivered' = ExpenseContext.onSnapshot delivered))
  ∧ (∀ r db c,
       ExpenseState.useCloud (expenseProvider c) = true →
       Firestore.writesExpenses r = true →
       ExpenseState.expenses (expenseProvider (listeners r db c))
       = ExpenseContext.onSnapshot (map_to_list (Firestore.expenses db))).
Proof.
  intros Hlocal Hsorted Hnew Hdated Hperm.
  assert (Hdated' : Forall dated (map ExpenseContext.fromDoc delivered')).
  { by rewrite Hperm. }
  assert (Hpp : ExpenseContext.onSnapshot delivered' ≡ₚ ExpenseContext.onSnapshot delivered).
  { by rewrite !onSnapshot_perm, Hperm. }
  split; [|split].
  - simpl. rewrite createAll_local by done.
    unfold ExpenseContext.getExpensesByUser. simpl. split; [done|].
    apply StronglySorted_filter. by apply eachNewer_sorted.
  - split; [by apply onSnapshot_newestFirst|].
    split; [by apply StronglySorted_filter, onSnapshot_newestFirst|].
    split; [apply onSnapshot_perm|].
    split; [by apply onSnapshot_newestFirst|].
    split; [done|].
    intros Hinj.
    apply (StronglySorted_unique_strong notOlder);
      [|by apply onSnapshot_newestFirst..|done].
    intros a b Ha Hb (ta & tb & Hta & Htb & ?) (tb' & ta' & Htb' & Hta' & ?).
    rewrite Htb in Htb'. injection Htb' as <-.
    rewrite Hta in Hta'. injection Hta' as <-.
    apply Hinj.
    + rewrite <- onSnapshot_perm, <- Hpp. done.
    + rewrite <- onSnapshot_perm. done.
    + rewrite Hta, Htb. f_equal. lia.
  - intros r db c Hc Hw.
    pose proof (listeners_publish r db c Hc) as Hp.
    by destruct r.
Qed.
End Ordering.

Section StatusSteps.
Context `{Platform}.

Lemma withStatus_falsy e status notes :
  truthy notes = false → ExpenseContext.withStatus e status notes = setStatus status e.
Proof. intros Hn. unfold ExpenseContext.withStatus. by rewrite Hn. Qed.

Lemma withStatus_truthy e status n :
  n ≠ EmptyString →
  ExpenseContext.withStatus e status (Some n) = setStatusAndNotes status n e.
Proof.
  intros Hn. unfold ExpenseContext.withStatus, truthy.
  rewrite bool_decide_eq_false_2 by done. done.
Qed.

(** Both branches of [updateStatus] against a ready world. *)
Lemma updateStatus_run w id status notes :
  expensesReady w →
  id ∈ map Expense.id (ExpenseState.expenses (expenseProvider (client w))) →
  ∃ w', run (λ c, ExpenseContext.updateStatus c id status notes) w = (Fulfilled, w')
    ∧ ExpenseState.expenses (expenseProvider (client w'))
      = map (λ e, if decide (Expense.id e = id)
                  then ExpenseContext.withStatus e status notes else e)
            (ExpenseState.expenses (expenseProvider (client w))).
Proof.
  intros Hready Hid. unfold run, ExpenseContext.updateStatus.
  destruct (ExpenseState.useCloud (expenseProvider (client w))) eqn:Hc.
  - destruct (Hready Hc) as (Ha & Hkeyed & Hsync).
    change (map ?f ?l) with (f <$> l) in Hid.
    apply list_elem_of_fmap in Hid as (e & -> & He).
    rewrite Hsync in He. apply shown_stored in He as (d & Hd & Hfd); [|done].
    rewrite (patch_cloud w _ _ d) by done.
    eexists. split; [reflexivity|]. simpl.
    rewrite Hsync. apply (overwrite_shown _ _ d); try done.
    + rewrite Hfd. rewrite decide_True by done.
      rewrite <- Hfd at 2. unfold ExpenseContext.withStatus, ExpenseContext.fromDoc.
      destruct notes as [n|]; simpl; [|done]. by destruct (bool_decide _).
    + intros e' Hne. by rewrite decide_False.
    + intros e'. by destruct (decide _).
  - simpl. eexists. split; [reflexivity|]. done.
Qed.
End StatusSteps.

Lemma filter_fmap_list {A B} (f : A → B) (P : B → Prop) `{∀ x, Decision (P x)}
    (l : list A) :
  filter P (f <$> l) = f <$> filter (λ x, P (f x)) l.
Proof.
  induction l as [|a l IH]; [done|].
  rewrite fmap_cons, !filter_cons. simpl.
  destruct (decide (P (f a))); by rewrite IH.
Qed.

Lemma map_to_list_filter_perm {V} (m : gmap string V) (P : string * V → Prop)
    `{∀ x, Decision (P x)} :
  map_to_list (filter P m) ≡ₚ filter P (map_to_list m).
Proof.
  apply NoDup_Permutation.
  - apply NoDup_map_to_list.
  - apply NoDup_filter, NoDup_map_to_list.
  - intros [k v]. rewrite elem_of_map_to_list, map_lookup_filter_Some.
    rewrite list_elem_of_filter, elem_of_map_to_list. tauto.
Qed.

Section BulkDelete.
Context `{Platform}.

Lemma filter_shown_perm (m : gmap string ExpenseData) (userId : string) :
  ExpenseContext.onSnapshot
    (map_to_list (filter (λ kd, ¬ Expense.userId kd.2 = userId) m))
  ≡ₚ filter (λ e, Expense.userId e ≠ userId)
       (ExpenseContext.onSnapshot (map_to_list m)).
Proof.
  unfold ExpenseContext.onSnapshot. rewrite !sort_perm.
  change (map ?f ?l) with (f <$> l).
  rewrite map_to_list_filter_perm, filter_fmap_list. done.
Qed.

Lemma settle_done notify fuel w i o s :
  settle notify fuel (mkLoop w [] i o s) = mkLoop w [] i o s.
Proof. by destruct fuel. Qed.

Lemma settle_step notify fuel w p rest i o s :
  settle notify (S fuel) (mkLoop w (p :: rest) i o s)
  = settle notify fuel (deliver notify p (mkLoop w rest i o s)).
Proof. done. Qed.

(** A call that is started alone and left to settle ends as the awaited
    call does. *)
Lemma awaited_alone notify (a : Async) :
  ∀ w i o s, ∃ fuel l,
    settle notify fuel (start a (mkLoop w [] i o s)) = l
    ∧ inflight l = []
    ∧ world l = (exec notify a w).2
    ∧ settled l = s ++ [(exec notify a w).1].
Proof.
  induction a as [| | |f k IHk h IHh|r k IH]; intros w i o s.
  - exists 0%nat. eexists. split; [reflexivity|]. by destruct w.
  - exists 0%nat. eexists. split; [reflexivity|]. by destruct w.
  - exists 0%nat. eexists. split; [reflexivity|]. by destruct w.
  - cbn [start exec world client db].
    destruct (f (client w)) as [c|]; [apply IHk|].
    destruct (IHh w i o s) as (fuel & l & Hl). exists fuel, l.
    by destruct w.
  - cbn [start world inflight issued observed settled app exec].
    destruct (Firestore.handle r (db w)) as [resp db'] eqn:Hh.
    destruct (IH resp
                (mkWorld (if accepted r resp then notify r db' (client w) else client w)
                         db')
                (i ++ [r]) (if accepted r resp then o ++ [db'] else o) s)
      as (fuel & l & Hl & Hrest).
    exists (S fuel), l. split; [|exact Hrest].
    rewrite settle_step. unfold deliver.
    cbn [request resume world db client inflight issued observed settled].
    by rewrite Hh.
Qed.

Lemma handle_query db userId :
  Firestore.available db = true →
  Firestore.handle (GetExpensesWhereUserId userId) db
  = (Docs (map_to_list (filter (λ kd, Expense.userId kd.2 = userId)
                          (Firestore.expenses db))).*1, db).
Proof. intros Ha. unfold Firestore.handle. by rewrite Ha. Qed.

Lemma handle_commit db refs :
  Firestore.available db = true →
  Firestore.handle (Commit refs) db
  = (Resolved,
     Firestore.mk (Firestore.users db) (foldr delete (Firestore.expenses db) refs) true).
Proof. intros Ha. unfold Firestore.handle. by rewrite Ha. Qed.

(** The run of the cloud branch: one query, then one committed batch. *)
Lemma deleteExpensesByUserId_cloud w userId :
  ExpenseState.useCloud (expenseProvider (client w)) = true →
  Firestore.available (db w) = true →
  let refs := (map_to_list (filter (λ kd, Expense.userId kd.2 = userId)
                              (Firestore.expenses (db w)))).*1 in
  let db' := Firestore.mk (Firestore.users (db w))
               (foldr delete (Firestore.expenses (db w)) refs) true in
  settle listeners 2
    (start (ExpenseContext.deleteExpensesByUserId (client w) userId) (idle w))
  = mkLoop
      (mkWorld
         (setExpenses
            (λ _, ExpenseContext.onSnapshot (map_to_list (Firestore.expenses db')))
            (client w))
         db')
      [] [GetExpensesWhereUserId userId; Commit refs] [db'] [Fulfilled].
Proof.
  intros Hc Ha refs db'. unfold ExpenseContext.deleteExpensesByUserId. rewrite Hc.
  unfold idle. cbn [start world inflight issued observed settled app].
  rewrite settle_step. unfold deliver.
  cbn [request resume world inflight issued observed settled].
  rewrite handle_query by done.
  cbn [accepted Firestore.isWrite start world inflight issued observed settled
       app client db].
  rewrite settle_step. unfold deliver.
  cbn [request resume world inflight issued observed settled db client].
  rewrite handle_commit by done.
  cbn [accepted Firestore.isWrite start world inflight issued observed settled
       app client db listeners].
  rewrite Hc. by rewrite settle_done.
Qed.

Lemma deleteExpensesByUserId_local w userId :
  ExpenseState.useCloud (expenseProvider (client w)) = false →
  settle listeners 2
    (start (ExpenseContext.deleteExpensesByUserId (client w) userId) (idle w))
  = mkLoop
      (mkWorld
         (setExpenses (λ prev, filter (λ exp, Expense.userId exp ≠ userId) prev)
                      (client w))
         (db w))
      [] [] [] [Fulfilled].
Proof.
  intros Hc. unfold ExpenseContext.deleteExpensesByUserId. by rewrite Hc.
Qed.

(** C4. [deleteExpensesByUserId] removes exactly the expenses of the
    owner: afterwards none of that owner is shown and the others are shown
    as before. In local mode the collection is filtered in place. In cloud
    mode the call issues one query and then one committed batch of deletes,
    the store is observed once, after the whole batch, and it holds exactly
    the documents of the other owners. *)
Theorem deleteExpensesByUserId_removes_owner (w : World) (userId : string) :
  expensesReady w →
  let before := ExpenseState.expenses (expenseProvider (client w)) in
  let l := settle listeners 2
             (start (ExpenseContext.deleteExpensesByUserId (client w) userId) (idle w)) in
  let after := ExpenseState.expenses (expenseProvider (client (world l))) in
  inflight l = [] ∧ settled l = [Fulfilled]
  ∧ after ≡ₚ filter (λ e, Expense.userId e ≠ userId) before
  ∧ (∀ e, e ∈ after → Expense.userId e ≠ userId)
  ∧ (∀ e, Expense.userId e ≠ userId → e ∈ after ↔ e ∈ before)
  ∧ (ExpenseState.useCloud (expenseProvider (client w)) = false →
       after = filter (λ e, Expense.userId e ≠ userId) before
       ∧ issued l = [] ∧ db (world l) = db w)
  ∧ (ExpenseState.useCloud (expenseProvider (client w)) = true →
       ∃ refs,
         issued l = [GetExpensesWhereUserId userId; Commit refs]
         ∧ observed l = [db (world l)]
         ∧ Firestore.expenses (db (world l))
           = filter (λ kd, ¬ Expense.userId kd.2 = userId) (Firestore.expenses (db w))
         ∧ Firestore.users (db (world l)) = Firestore.users (db w)).
Proof.
  intros Hready before l after.
  assert (Hperm : inflight l = [] ∧ settled l = [Fulfilled]
    ∧ after ≡ₚ filter (λ e, Expense.userId e ≠ userId) before
    ∧ (ExpenseState.useCloud (expenseProvider (client w)) = false →
       after = filter (λ e, Expense.userId e ≠ userId) before
       ∧ issued l = [] ∧ db (world l) = db w)
    ∧ (ExpenseState.useCloud (expenseProvider (client w)) = true →
       ∃ refs,
         issued l = [GetExpensesWhereUserId userId; Commit refs]
         ∧ observed l = [db (world l)]
         ∧ Firestore.expenses (db (world l))
           = filter (λ kd, ¬ Expense.userId kd.2 = userId) (Firestore.expenses (db w))
         ∧ Firestore.users (db (world l)) = Firestore.users (db w))).
  { subst after before.
    destruct (ExpenseState.useCloud (expenseProvider (client w))) eqn:Hc.
    - destruct (Hready Hc) as (Ha & Hkeyed & Hsync).
      subst l. rewrite deleteExpensesByUserId_cloud by done.
      cbn [inflight settled world client db issued observed Firestore.expenses
           Firestore.users].
      pose proof (foldr_delete_filter (Firestore.expenses (db w))
                    (λ d, Expense.userId d = userId)) as Hf.
      cbv beta in Hf. rewrite Hf.
      repeat split; try done.
      + simpl. rewrite Hsync. apply filter_shown_perm.
      + eexists. repeat split; done.
    - subst l. rewrite deleteExpensesByUserId_local by done.
      repeat split; try done. }
  destruct Hperm as (H1 & H2 & H3 & H4 & H5).
  do 3 (split; [done|]). split; [|split; [|by split]].
  - intros e He. rewrite H3 in He. by apply list_elem_of_filter in He as [? _].
  - intros e Hne. rewrite H3, list_elem_of_filter. tauto.
Qed.
End BulkDelete.

Section StatusAndEdit.
Context `{Platform}.

(** C5. For an identifier that is shown, [updateStatus] with an absent or
    empty [notes] sets the status of that record and keeps its note, and
    with a non-empty [notes] sets the status and overwrites the note; every
    other record is untouched. Both modes. *)
Theorem updateStatus_partial_update (w : World) (id : string)
    (status : ExpenseStatus) (notes : option string) :
  expensesReady w →
  id ∈ map Expense.id (ExpenseState.expenses (expenseProvider (client w))) →
  ∃ w',
    run (λ c, ExpenseContext.updateStatus c id status notes) w = (Fulfilled, w')
    ∧ (notes = None ∨ notes = Some EmptyString →
       ExpenseState.expenses (expenseProvider (client w'))
       = map (λ e, if decide (Expense.id e = id) then setStatus status e else e)
             (ExpenseState.expenses (expenseProvider (client w))))
    ∧ (∀ n, notes = Some n → n ≠ EmptyString →
       ExpenseState.expenses (expenseProvider (client w'))
       = map (λ e, if decide (Expense.id e = id)
                   then setStatusAndNotes status n e else e)
             (ExpenseState.expenses (expenseProvider (client w)))).
Proof.
  intros Hready Hid.
  destruct (updateStatus_run w id status notes Hready Hid) as (w' & Hrun & Hw').
  exists w'. split; [done|]. rewrite Hw'. split.
  - intros Hn. apply map_ext. intros e. destruct (decide _); [|done].
    apply withStatus_falsy. by destruct Hn as [-> | ->].
  - intros n -> Hn. apply map_ext. intros e. destruct (decide _); [|done].
    by apply withStatus_truthy.
Qed.

Lemma fromDoc_spread k d fields :
  ExpenseContext.fromDoc (k, spread Some TimeString d fields)
  = spread id id (ExpenseContext.fromDoc (k, d))
      (PartialExpense.mk
         (PartialExpense.id fields) (PartialExpense.userId fields)
         (PartialExpense.userName fields) (PartialExpense.merchant fields)
         (PartialExpense.date fields) (PartialExpense.subtotal fields)
         (PartialExpense.tax fields) (PartialExpense.total fields)
         (PartialExpense.category fields) (PartialExpense.imageUrl fields)
         (PartialExpense.status fields) (PartialExpense.notes fields)
         (PartialExpense.createdAt fields)).
Proof.
  unfold ExpenseContext.fromDoc, spread. simpl.
  destruct fields as [i ? ? ? ? ? ? ? ? ? ? ? t]. simpl.
  destruct i, t; done.
Qed.

Lemma map_unchanged {A} (f : A → A) (l : list A) :
  (∀ x, x ∈ l → f x = x) → map f l = l.
Proof.
  intros Hf. induction l as [|a l IH]; [done|]. simpl. f_equal.
  - apply Hf, list_elem_of_here.
  - apply IH. intros x Hx. by apply Hf, list_elem_of_further.
Qed.

Lemma setExpenses_same f w :
  f (ExpenseState.expenses (expenseProvider (client w)))
  = ExpenseState.expenses (expenseProvider (client w)) →
  mkWorld (setExpenses f (client w)) (db w) = w.
Proof.
  destruct w as [[[es uc] a s al co] d]. simpl. unfold setExpenses. simpl.
  by intros ->.
Qed.

(** A record that is not shown in cloud mode is not stored. *)
Lemma not_shown_not_stored w id :
  expensesKeyed (db w) → expensesInSync w →
  id ∉ map Expense.id (ExpenseState.expenses (expenseProvider (client w))) →
  Firestore.expenses (db w) !! id = None.
Proof.
  intros Hkeyed Hsync Hid.
  destruct (Firestore.expenses (db w) !! id) as [d|] eqn:Hd; [|done].
  destruct Hid. rewrite Hsync.
  change (map ?f ?l) with (f <$> l). apply list_elem_of_fmap.
  exists (ExpenseContext.fromDoc (id, d)). split.
  - by rewrite fromDoc_id, (Hkeyed _ _ Hd).
  - unfold ExpenseContext.onSnapshot. rewrite sort_perm.
    change (map ?f ?l) with (f <$> l). apply list_elem_of_fmap.
    exists (id, d). split; [done|]. by apply elem_of_map_to_list.
Qed.

(** The run of [editExpense]: on an identifier that is shown the matching
    records are spread with the patch (in cloud mode the collection is sorted
    again, so the order can change when the patch carries a creation time);
    on one that is not shown the world is unchanged, and the call completes
    in local mode and is rejected in cloud mode. *)
Lemma editExpense_run (w : World) (id : string) (updatedExpense : PartialExpense.t) :
  expensesReady w →
  let before := ExpenseState.expenses (expenseProvider (client w)) in
  let cloud := ExpenseState.useCloud (expenseProvider (client w)) in
  let edited := map (λ e, if decide (Expense.id e = id)
                          then spread Datatypes.id Datatypes.id e updatedExpense
                          else e) before in
  (id ∈ map Expense.id before →
   ∃ w', run (λ c, ExpenseContext.editExpense c id updatedExpense) w = (Fulfilled, w')
     ∧ ExpenseState.expenses (expenseProvider (client w')) ≡ₚ edited
     ∧ (cloud = false ∨ PartialExpense.createdAt updatedExpense = None →
        ExpenseState.expenses (expenseProvider (client w')) = edited))
  ∧ (id ∉ map Expense.id before →
     run (λ c, ExpenseContext.editExpense c id updatedExpense) w
     = (if cloud then Rejects else Fulfilled, w)).
Proof.
  intros Hready before cloud edited. subst before cloud edited.
  unfold run, ExpenseContext.editExpense.
  destruct (ExpenseState.useCloud (expenseProvider (client w))) eqn:Hc.
  - destruct (Hready Hc) as (Ha & Hkeyed & Hsync). split.
    + intros Hid.
      change (map ?f ?l) with (f <$> l) in Hid.
      apply list_elem_of_fmap in Hid as (e & -> & He).
      rewrite Hsync in He. apply shown_stored in He as (d & Hd & Hfd); [|done].
      rewrite (patch_cloud w _ _ d) by done.
      eexists. split; [reflexivity|]. simpl.
      assert (Hfrom : ExpenseContext.fromDoc
                (Expense.id e, spread Some TimeString d updatedExpense)
              = (λ e0, if decide (Expense.id e0 = Expense.id e)
                       then spread Datatypes.id Datatypes.id e0 updatedExpense else e0)
                  (ExpenseContext.fromDoc (Expense.id e, d))).
      { rewrite Hfd. rewrite decide_True by done. rewrite <- Hfd at 2.
        rewrite fromDoc_spread. by destruct updatedExpense. }
      split.
      * rewrite Hsync. apply (overwrite_shown_perm _ _ d); try done.
        intros e' Hne. by rewrite decide_False.
      * intros [?|Ht]; [done|].
        rewrite Hsync. apply (overwrite_shown _ _ d); try done.
        -- intros e' Hne. by rewrite decide_False.
        -- intros e'. destruct (decide _); [|done]. simpl. by rewrite Ht.
    + intros Hid. rewrite patch_cloud_missing; [done|].
      by apply not_shown_not_stored.
  - split.
    + intros _. eexists. split; [reflexivity|]. simpl. split; done.
    + intros Hid. simpl. f_equal. apply setExpenses_same.
      apply map_unchanged. intros e He. rewrite decide_False; [done|].
      intros Heq. apply Hid. change (map ?f ?l) with (f <$> l).
      apply list_elem_of_fmap. eauto.
Qed.

(** The spread of a record with a patch is that record edited by the
    patch, field by field. *)
Lemma spread_editedBy (p : PartialExpense.t) (e : Expense) :
  editedBy p e (spread Datatypes.id Datatypes.id e p).
Proof.
  unfold editedBy, replaced, spread. cbn [Expense.id Expense.userId Expense.userName
    Expense.merchant Expense.date Expense.subtotal Expense.tax Expense.total
    Expense.category Expense.imageUrl Expense.status Expense.notes Expense.createdAt].
  split; [by destruct (PartialExpense.id p)|].
  split; [by destruct (PartialExpense.userId p)|].
  split; [by destruct (PartialExpense.userName p)|].
  split; [by destruct (PartialExpense.merchant p)|].
  split; [by destruct (PartialExpense.date p)|].
  split; [by destruct (PartialExpense.subtotal p)|].
  split; [by destruct (PartialExpense.tax p)|].
  split; [by destruct (PartialExpense.total p)|].
  split; [by destruct (PartialExpense.category p)|].
  split; [by destruct (PartialExpense.imageUrl p)|].
  split; [by destruct (PartialExpense.status p)|].
  split; [by destruct (PartialExpense.notes p)|].
  by destruct (PartialExpense.createdAt p).
Qed.

Lemma spread_frame (id : string) (p : PartialExpense.t) (l : list Expense) :
  Forall2 (λ e e', if decide (Expense.id e = id) then editedBy p e e' else e' = e)
          l
          (map (λ e, if decide (Expense.id e = id)
                     then spread Datatypes.id Datatypes.id e p else e) l).
Proof.
  change (map ?f ?l) with (f <$> l).
  apply Forall2_fmap_r, Forall_Forall2_diag, Forall_forall. intros e _.
  unfold compose. destruct (decide (Expense.id e = id)); [apply spread_editedBy|done].
Qed.

(** X1. For an identifier that is shown, [editExpense] replaces exactly
    the fields present in the patch, on the records with that identifier:
    each field of such a record is the patch's value when the patch carries
    the field and is unchanged otherwise, and every other record is
    unchanged. In local mode, and in cloud mode when the patch carries no
    creation time, the records also keep their places; in cloud mode with a
    creation time the collection is sorted again. For an identifier that is
    not shown the world is unchanged; the call completes in local mode and
    is rejected in cloud mode. *)
Theorem editExpense_frame (w : World) (id : string) (updatedExpense : PartialExpense.t) :
  expensesReady w →
  let before := ExpenseState.expenses (expenseProvider (client w)) in
  let cloud := ExpenseState.useCloud (expenseProvider (client w)) in
  let frame :=
    Forall2 (λ e e', if decide (Expense.id e = id)
                     then editedBy updatedExpense e e' else e' = e) in
  (id ∈ map Expense.id before →
   ∃ w', run (λ c, ExpenseContext.editExpense c id updatedExpense) w = (Fulfilled, w')
     ∧ (∃ l, frame before l ∧ ExpenseState.expenses (expenseProvider (client w')) ≡ₚ l)
     ∧ (cloud = false ∨ PartialExpense.createdAt updatedExpense = None →
        frame before (ExpenseState.expenses (expenseProvider (client w')))))
  ∧ (id ∉ map Expense.id before →
     run (λ c, ExpenseContext.editExpense c id updatedExpense) w
     = (if cloud then Rejects else Fulfilled, w)).
Proof.
  intros Hready before cloud frame. subst before cloud frame.
  destruct (editExpense_run w id updatedExpense Hready) as (Hshown & Hmissing).
  split; [|exact Hmissing].
  intros Hid. destruct (Hshown Hid) as (w' & Hrun & Hperm & Heq).
  exists w'. split; [exact Hrun|]. split.
  - eexists. split; [apply spread_frame|exact Hperm].
  - intros Hkeep. rewrite (Heq Hkeep). apply spread_frame.
Qed.
End StatusAndEdit.

(** ** The user repository *)

Section Users.
Context `{Platform}.

(** What the subscription publishes after a stored user is overwritten. *)
Lemma overwrite_users (m : gmap string User.t) k u u' :
  (∀ k u, m !! k = Some u → User.id u = k) →
  m !! k = Some u →
  (map_to_list (<[k := u']> m)).*2
  = map (λ v, if decide (User.id v = k) then u' else v) (map_to_list m).*2.
Proof.
  intros Hkeyed Hk. rewrite (map_to_list_overwrite m k u u' Hk).
  change (map ?f ?l) with (f <$> l). rewrite <- !list_fmap_compose.
  apply list_fmap_ext. intros i [k' v] Hi. simpl.
  apply list_elem_of_lookup_2, elem_of_map_to_list in Hi.
  rewrite (Hkeyed _ _ Hi). by destruct (decide (k' = k)).
Qed.

(** A user shown in cloud mode is the document stored under its
    identifier. *)
Lemma user_stored (m : gmap string User.t) u :
  (∀ k u, m !! k = Some u → User.id u = k) →
  u ∈ (map_to_list m).*2 → m !! User.id u = Some u.
Proof.
  intros Hkeyed ([k v] & -> & Hin)%list_elem_of_fmap. simpl.
  apply elem_of_map_to_list in Hin. by rewrite (Hkeyed _ _ Hin).
Qed.

(** In cloud mode the identifiers shown are distinct: they are the keys. *)
Lemma shown_users_distinct (m : gmap string User.t) :
  (∀ k u, m !! k = Some u → User.id u = k) →
  NoDup (map User.id (map_to_list m).*2).
Proof.
  intros Hkeyed.
  assert (map User.id (map_to_list m).*2 = (map_to_list m).*1) as ->.
  { change (map ?f ?l) with (f <$> l). rewrite <- list_fmap_compose.
    apply list_fmap_ext. intros i [k u] Hi. simpl.
    apply list_elem_of_lookup_2, elem_of_map_to_list in Hi. by apply Hkeyed. }
  apply NoDup_fst_map_to_list.
Qed.

Lemma set_user_cloud w k u (resume : Response → Async) :
  AuthState.useCloud (authProvider (client w)) = true →
  Firestore.available (db w) = true →
  exec listeners (Await (SetUser k u) resume) w
  = exec listeners (resume Resolved)
      (mkWorld
         (AuthContext.onSnapshot (map_to_list (<[k := u]> (Firestore.users (db w))))
                                 (client w))
         (Firestore.mk (<[k := u]> (Firestore.users (db w)))
                       (Firestore.expenses (db w)) true)).
Proof.
  intros Hc Ha. cbn [exec]. unfold Firestore.handle. rewrite Ha. simpl.
  by rewrite Hc.
Qed.

Lemma rejected_cloud w r (resume : Response → Async) :
  Firestore.available (db w) = false →
  exec listeners (Await r resume) w = exec listeners (resume Rejected) w.
Proof.
  intros Ha. cbn [exec]. unfold Firestore.handle. rewrite Ha. simpl. by destruct w.
Qed.

Lemma update_user_cloud w k p u (resume : Response → Async) :
  AuthState.useCloud (authProvider (client w)) = true →
  Firestore.available (db w) = true →
  Firestore.users (db w) !! k = Some u →
  exec listeners (Await (UpdateUser k p) resume) w
  = exec listeners (resume Resolved)
      (mkWorld
         (AuthContext.onSnapshot
            (map_to_list (<[k := withPending u (Some p)]> (Firestore.users (db w))))
            (client w))
         (Firestore.mk (<[k := withPending u (Some p)]> (Firestore.users (db w)))
                       (Firestore.expenses (db w)) true)).
Proof.
  intros Hc Ha Hk. cbn [exec]. unfold Firestore.handle. rewrite Ha, Hk. simpl.
  by rewrite Hc.
Qed.
End Users.

Section ProfileUpdates.
Context `{Platform}.

Lemma overwrite_users_with (m : gmap string User.t) k u (f : User.t → User.t) :
  (∀ k u, m !! k = Some u → User.id u = k) →
  m !! k = Some u →
  (map_to_list (<[k := f u]> m)).*2
  = map (λ v, if decide (User.id v = k) then f v else v) (map_to_list m).*2.
Proof.
  intros Hkeyed Hk. rewrite (map_to_list_overwrite m k u (f u) Hk).
  change (map ?f ?l) with (f <$> l). rewrite <- !list_fmap_compose.
  apply list_fmap_ext. intros i [k' v] Hi. simpl.
  apply list_elem_of_lookup_2, elem_of_map_to_list in Hi.
  rewrite (Hkeyed _ _ Hi). destruct (decide (k' = k)) as [->|]; [|done].
  rewrite Hk in Hi. by injection Hi as ->.
Qed.

Lemma keyed_overwrite (m : gmap string User.t) k u' :
  (∀ k u, m !! k = Some u → User.id u = k) → User.id u' = k →
  ∀ k0 u0, <[k := u']> m !! k0 = Some u0 → User.id u0 = k0.
Proof.
  intros Hkeyed Hid k0 u0. rewrite lookup_insert.
  destruct (decide (k = k0)) as [->|]; [|by apply Hkeyed].
  by intros [= <-].
Qed.

(** A pending update is staged on the user [userId], in both modes, and the
    world stays ready. *)
Lemma requestProfileUpdate_run w now userId name email :
  usersReady w →
  userId ∈ map User.id (AuthState.allUsers (authProvider (client w))) →
  ∃ w',
    run (λ c, AuthContext.requestProfileUpdate c now userId name email) w
    = (Fulfilled, w')
    ∧ AuthState.allUsers (authProvider (client w'))
      = map (λ v, if decide (User.id v = userId)
                  then stagePending (Pending.mk name email (toISOString now)) v else v)
            (AuthState.allUsers (authProvider (client w)))
    ∧ usersReady w'.
Proof.
  intros Hready Hid. unfold run, AuthContext.requestProfileUpdate.
  destruct (AuthState.useCloud (authProvider (client w))) eqn:Hc.
  - destruct (Hready Hc) as (Ha & Hkeyed & Hsync).
    change (map ?f ?l) with (f <$> l) in Hid.
    apply list_elem_of_fmap in Hid as (u & -> & Hu).
    rewrite Hsync in Hu. pose proof (user_stored _ _ Hkeyed Hu) as Hst.
    rewrite (update_user_cloud w _ _ u) by done.
    eexists. split; [reflexivity|]. simpl. split.
    + rewrite Hsync.
      apply (overwrite_users_with _ _ u
               (λ v, withPending v (Some (Pending.mk name email (toISOString now))))); done.
    + intros _. simpl. split; [done|]. split; [|done].
      unfold usersKeyed. simpl. by apply keyed_overwrite.
  - simpl. eexists. split; [reflexivity|]. split; [done|].
    intros Hc'. simpl in Hc'. congruence.
Qed.

(** [resolveProfileUpdate] on a user with a pending update. *)
Lemma resolveProfileUpdate_pending w u p approve :
  usersReady w →
  NoDup (map User.id (AuthState.allUsers (authProvider (client w)))) →
  u ∈ AuthState.allUsers (authProvider (client w)) →
  User.pendingUpdates u = Some p →
  ∃ w',
    run (λ c, AuthContext.resolveProfileUpdate c (User.id u) approve) w
    = (Fulfilled, w')
    ∧ AuthState.allUsers (authProvider (client w'))
      = map (λ v, if decide (User.id v = User.id u)
                  then (if approve then applyPending p v else clearPending v) else v)
            (AuthState.allUsers (authProvider (client w))).
Proof.
  intros Hready Hnd Hu Hp. unfold run, AuthContext.resolveProfileUpdate.
  rewrite (find_unique User.id _ u Hnd Hu), Hp.
  destruct (AuthState.useCloud (authProvider (client w))) eqn:Hc.
  - destruct (Hready Hc) as (Ha & Hkeyed & Hsync).
    rewrite Hsync in Hu. pose proof (user_stored _ _ Hkeyed Hu) as Hst.
    rewrite set_user_cloud by done.
    eexists. split; [reflexivity|]. simpl. rewrite Hsync.
    rewrite (overwrite_users _ _ u) by done.
    apply map_ext_in. intros v Hv. apply list_elem_of_In in Hv.
    destruct (decide (User.id v = User.id u)) as [Hid|]; [|done].
    assert (v = u) as ->.
    { eapply (NoDup_key_eq User.id); [exact Hnd| | |done]; by rewrite Hsync. }
    by destruct approve.
  - cbn [exec]. 
    rewrite (mapM_total _
      (λ v, if decide (User.id v = User.id u)
            then (if approve then applyPending p v else clearPending v) else v)).
    + simpl. eexists. split; [reflexivity|]. done.
    + intros v Hv. destruct (decide (User.id v = User.id u)) as [Hid|]; [|done].
      assert (v = u) as -> by by eapply (NoDup_key_eq User.id).
      destruct approve; [|done]. unfold AuthContext.approved. by rewrite Hp.
Qed.

Lemma resolveProfileUpdate_none w u approve :
  NoDup (map User.id (AuthState.allUsers (authProvider (client w)))) →
  u ∈ AuthState.allUsers (authProvider (client w)) →
  User.pendingUpdates u = None →
  run (λ c, AuthContext.resolveProfileUpdate c (User.id u) approve) w = (Fulfilled, w).
Proof.
  intros Hnd Hu Hp. unfold run, AuthContext.resolveProfileUpdate.
  by rewrite (find_unique User.id _ u Hnd Hu), Hp.
Qed.

(** C3. In a collection whose identifiers are distinct, for a user with a
    pending update [resolveProfileUpdate(id, true)] copies the pending name
    and email into the live fields and clears the pending update, and
    [resolveProfileUpdate(id, false)] only clears it; for a user with none
    the call changes nothing. A second [requestProfileUpdate] replaces the
    pending update staged by the first. Both modes. *)
Theorem profile_update_workflow (w : World) (u : User.t) (approve : bool)
    (now1 now2 : Z) (name1 email1 name2 email2 : string) :
  usersReady w →
  NoDup (map User.id (AuthState.allUsers (authProvider (client w)))) →
  u ∈ AuthState.allUsers (authProvider (client w)) →
  let before := AuthState.allUsers (authProvider (client w)) in
  let resolve a := run (λ c, AuthContext.resolveProfileUpdate c (User.id u) a) w in
  let request now name email w :=
    run (λ c, AuthContext.requestProfileUpdate c now (User.id u) name email) w in
  (∀ p, User.pendingUpdates u = Some p →
     (∃ w', resolve true = (Fulfilled, w')
        ∧ AuthState.allUsers (authProvider (client w'))
          = map (λ v, if decide (User.id v = User.id u) then applyPending p v else v)
                before)
     ∧ (∃ w', resolve false = (Fulfilled, w')
        ∧ AuthState.allUsers (authProvider (client w'))
          = map (λ v, if decide (User.id v = User.id u) then clearPending v else v)
                before))
  ∧ (User.pendingUpdates u = None → resolve approve = (Fulfilled, w))
  ∧ (∃ w1 w2,
       request now1 name1 email1 w = (Fulfilled, w1)
       ∧ request now2 name2 email2 w1 = (Fulfilled, w2)
       ∧ AuthState.allUsers (authProvider (client w2))
         = map (λ v, if decide (User.id v = User.id u)
                     then stagePending (Pending.mk name2 email2 (toISOString now2)) v
                     else v)
               before).
Proof.
  intros Hready Hnd Hu before resolve request. subst before resolve request.
  split; [|split].
  - intros p Hp. split.
    + by apply (resolveProfileUpdate_pending w u p true).
    + by apply (resolveProfileUpdate_pending w u p false).
  - by apply resolveProfileUpdate_none.
  - assert (Hid : User.id u ∈ map User.id (AuthState.allUsers (authProvider (client w)))).
    { change (map ?f ?l) with (f <$> l). apply list_elem_of_fmap. eauto. }
    destruct (requestProfileUpdate_run w now1 (User.id u) name1 email1 Hready Hid)
      as (w1 & Hrun1 & Hw1 & Hready1).
    assert (Hid1 : User.id u ∈ map User.id (AuthState.allUsers (authProvider (client w1)))).
    { rewrite Hw1, map_map.
      erewrite map_ext; [exact Hid|]. intros v. by destruct (decide _). }
    destruct (requestProfileUpdate_run w1 now2 (User.id u) name2 email2 Hready1 Hid1)
      as (w2 & Hrun2 & Hw2 & _).
    exists w1, w2. split; [done|]. split; [done|].
    rewrite Hw2, Hw1, map_map. apply map_ext. intros v.
    destruct (decide (User.id v = User.id u)) as [Hv|Hv]; simpl.
    + by rewrite decide_True.
    + by rewrite decide_False.
Qed.
End ProfileUpdates.

Section ResolveFrame.
Context `{Platform}.

Lemma resolveFrame_refl userId u : resolveFrame userId u u.
Proof. by repeat split. Qed.

Lemma Forall2_resolveFrame_refl userId l : Forall2 (resolveFrame userId) l l.
Proof. apply Forall_Forall2_diag, Forall_forall. intros. apply resolveFrame_refl. Qed.

Lemma Forall2_map_r {A B} (R : A → B → Prop) (f : A → B) l :
  (∀ x, x ∈ l → R x (f x)) → Forall2 R l (map f l).
Proof.
  intros Hf. change (map ?f ?l) with (f <$> l).
  apply Forall2_fmap_r, Forall_Forall2_diag, Forall_forall. done.
Qed.

(** C10. [resolveProfileUpdate] keeps the identifier, password, role and
    avatar of every user and changes nothing of a user with another
    identifier, position by position: the dual-mode provider in local mode
    and in cloud mode (in step with a store keyed by identifier, or against
    a store that rejects the write), and the local-only provider. *)
Theorem resolveProfileUpdate_frame (w : World) (userId : string) (approve : bool)
    (prev : list User.t) :
  (AuthState.useCloud (authProvider (client w)) = true →
   Firestore.available (db w) = true →
   usersKeyed (db w) ∧ usersInSync w) →
  Forall2 (resolveFrame userId)
    (AuthState.allUsers (authProvider (client w)))
    (AuthState.allUsers (authProvider (client
       (run (λ c, AuthContext.resolveProfileUpdate c userId approve) w).2)))
  ∧ Forall2 (resolveFrame userId) prev
      (LocalAuthProvider.resolveProfileUpdate userId approve prev).
Proof.
  intros Hcloud. split.
  - unfold run, AuthContext.resolveProfileUpdate.
    destruct (List.find _ _) as [u|] eqn:Hfind;
      [|apply Forall2_resolveFrame_refl].
    destruct (User.pendingUpdates u) as [p|] eqn:Hp;
      [|apply Forall2_resolveFrame_refl].
    apply find_some in Hfind as [Hu Hid].
    apply list_elem_of_In in Hu. apply bool_decide_eq_true in Hid.
    destruct (AuthState.useCloud (authProvider (client w))) eqn:Hc.
    + destruct (Firestore.available (db w)) eqn:Ha.
      * destruct (Hcloud eq_refl eq_refl) as [Hkeyed Hsync].
        rewrite Hsync in Hu. pose proof (user_stored _ _ Hkeyed Hu) as Hst.
        rewrite Hid in Hst.
        rewrite set_user_cloud by done. simpl. rewrite Hsync.
        rewrite (overwrite_users _ _ u) by done.
        apply Forall2_map_r. intros v Hv.
        destruct (decide (User.id v = userId)) as [Hvid|]; [|apply resolveFrame_refl].
        pose proof (user_stored _ _ Hkeyed Hv) as Hv'.
        rewrite Hvid, Hst in Hv'. injection Hv' as <-.
        destruct approve; by repeat split.
      * rewrite rejected_cloud by done. simpl. apply Forall2_resolveFrame_refl.
    + cbn [exec].
      destruct (mapM _ _) as [users|] eqn:HmapM; simpl;
        [|apply Forall2_resolveFrame_refl].
      apply mapM_Some in HmapM.
      eapply Forall2_impl; [exact HmapM|]. intros v v' Hv. simpl in Hv.
      destruct (decide (User.id v = userId)) as [Hvid|].
      * destruct approve.
        -- unfold AuthContext.approved in Hv.
           destruct (User.pendingUpdates v); simpl in Hv; [|done].
           injection Hv as <-. by repeat split.
        -- injection Hv as <-. by repeat split.
      * injection Hv as <-. apply resolveFrame_refl.
  - unfold LocalAuthProvider.resolveProfileUpdate. apply Forall2_map_r.
    intros v _. destruct (User.pendingUpdates v); [|apply resolveFrame_refl].
    destruct (decide _); [|apply resolveFrame_refl].
    destruct approve; by repeat split.
Qed.
End ResolveFrame.

Section Signup.
Context `{Platform}.

(** The end of [signup]: the session is set, then its token is written. *)
Lemma establish_run c d (newUser : User.t) :
  exec listeners
    (Do (setUser (Some newUser))
       (Act (λ c, (λ st, setStorage st c) <$>
                    LocalStorage.setItem AuthContext.SESSION (User.id newUser) (storage c))
            Return Throw))
    (mkWorld c d)
  = match LocalStorage.setItem AuthContext.SESSION (User.id newUser) (storage c) with
    | Some st => (Fulfilled, mkWorld (setStorage st (setUser (Some newUser) c)) d)
    | None => (Rejects, mkWorld (setUser (Some newUser) c) d)
    end.
Proof.
  cbn [exec Do client db]. change (storage (setUser (Some newUser) c)) with (storage c).
  by destruct (LocalStorage.setItem _ _ _).
Qed.

Lemma exec_Do notify f k w :
  exec notify (Do f k) w = exec notify k (mkWorld (f (client w)) (db w)).
Proof. done. Qed.

Lemma setItem_getItem key value st st' :
  LocalStorage.setItem key value st = Some st' →
  LocalStorage.getItem key st' = Some value.
Proof.
  unfold LocalStorage.setItem. destruct (decide _); [|done]. intros [= <-].
  unfold LocalStorage.getItem. simpl. apply lookup_insert_eq.
Qed.

(** C7. When the email is taken (compared after [toLowerCase]) [signup]
    completes without an exception, shows an alert and leaves the users, the
    session, the storage and the store as they were. Otherwise exactly one
    account is added: role [SALES], avatar URL built from the name alone,
    and it becomes the session; the session token is stored when the write
    fits. In cloud mode against a reachable store the collection is the
    last snapshot and the generated identifier is not in use. *)
Theorem signup_unique_email (w : World) (now : Z) (name email password : string) :
  let users := AuthState.allUsers (authProvider (client w)) in
  let taken := ∃ u, u ∈ users ∧ toLowerCase (User.email u) = toLowerCase email in
  let newUser := newAccount now name email password in
  ∃ o w', run (λ c, AuthContext.signup c now name email password) w = (o, w')
    ∧ (taken →
       o = Fulfilled
       ∧ AuthState.allUsers (authProvider (client w')) = users
       ∧ AuthState.user (authProvider (client w')) = AuthState.user (authProvider (client w))
       ∧ storage (client w') = storage (client w)
       ∧ db w' = db w
       ∧ alerts (client w')
         = alerts (client w) ++ ["User already exists with this email. Please login."])
    ∧ (¬ taken →
       (AuthState.useCloud (authProvider (client w)) = true →
        Firestore.available (db w) = true →
        usersInSync w ∧ Firestore.users (db w) !! User.id newUser = None) →
       AuthState.allUsers (authProvider (client w')) ≡ₚ newUser :: users
       ∧ length (AuthState.allUsers (authProvider (client w'))) = S (length users)
       ∧ User.role newUser = SALES
       ∧ User.avatar newUser
         = "https://ui-avatars.com/api/?name=" +:+ encodeURIComponent name
             +:+ "&background=random&color=fff&background=2563eb"
       ∧ AuthState.user (authProvider (client w')) = Some newUser
       ∧ match LocalStorage.setItem AuthContext.SESSION (User.id newUser)
                 (storage (client w)) with
         | Some st =>
             o = Fulfilled ∧ storage (client w') = st
             ∧ LocalStorage.getItem AuthContext.SESSION st = Some (User.id newUser)
         | None => o = Rejects ∧ storage (client w') = storage (client w)
         end).
Proof.
  intros users taken newUser. subst users taken.
  unfold run, AuthContext.signup.
  destruct (List.find _ _) as [existing|] eqn:Hfind.
  - eexists _, _. split; [reflexivity|]. split.
    + intros _. simpl. by repeat split.
    + intros Hnot. destruct Hnot.
      apply find_some in Hfind as [Hin Hmail].
      apply list_elem_of_In in Hin. apply bool_decide_eq_true in Hmail. eauto.
  - assert (Hfresh : ¬ ∃ u, u ∈ AuthState.allUsers (authProvider (client w))
                           ∧ toLowerCase (User.email u) = toLowerCase email).
    { intros (u & Hu & Hmail). apply list_elem_of_In in Hu.
      pose proof (find_none _ _ Hfind u Hu) as Hf. simpl in Hf.
      by apply bool_decide_eq_false in Hf. }
    fold (AuthContext.avatarOf name).
    change (User.mk ("u-" +:+ pretty now) name email password SALES
                    (AuthContext.avatarOf name) None) with newUser.
    destruct (AuthState.useCloud (authProvider (client w))) eqn:Hc.
    + destruct (Firestore.available (db w)) eqn:Ha.
      * rewrite set_user_cloud by done. rewrite establish_run.
        change (storage (AuthContext.onSnapshot ?l (client w))) with (storage (client w)).
        assert (Hp : usersInSync w
                     ∧ Firestore.users (db w) !! User.id newUser = None →
                     map snd (map_to_list (<[User.id newUser := newUser]>
                                             (Firestore.users (db w))))
                     ≡ₚ newUser :: AuthState.allUsers (authProvider (client w))).
        { intros [Hsync Hnew]. change (map ?f ?l) with (f <$> l).
          by rewrite map_to_list_insert, Hsync. }
        destruct (LocalStorage.setItem _ _ _) as [st|] eqn:Hset;
          (eexists _, _; split; [reflexivity|]; split; [done|];
           intros _ Hcloud; specialize (Hp (Hcloud eq_refl eq_refl)); simpl;
           split; [exact Hp|]; split; [exact (Permutation_length Hp)|];
           repeat split; try done).
        exact (setItem_getItem _ _ _ _ Hset).
      * rewrite rejected_cloud by done. do 2 rewrite exec_Do. cbn [client db].
        rewrite establish_run.
        change (storage (setAllUsers ?f (console_error ?m (client w))))
          with (storage (client w)).
        destruct (LocalStorage.setItem _ _ _) as [st|] eqn:Hset;
          (eexists _, _; split; [reflexivity|]; split; [done|]; intros _ _; simpl;
           split; [by rewrite Permutation_app_comm|];
           split; [by rewrite length_app, Nat.add_1_r|]; repeat split; try done).
        exact (setItem_getItem _ _ _ _ Hset).
    + rewrite exec_Do. rewrite establish_run.
      change (storage (setAllUsers ?f (client w))) with (storage (client w)).
      destruct (LocalStorage.setItem _ _ _) as [st|] eqn:Hset;
        (eexists _, _; split; [reflexivity|]; split; [done|]; intros _ _; simpl;
         split; [by rewrite Permutation_app_comm|];
         split; [by rewrite length_app, Nat.add_1_r|]; repeat split; try done).
      exact (setItem_getItem _ _ _ _ Hset).
Qed.
End Signup.

(** ** Persistence and the delete cascade *)

Section Persistence.
Context `{Platform}.

(** The local-only provider: a failed save is retried once, without images. *)
Lemma stripped_retry (expenses : list Expense) (st : LocalStorage.t) :
  LocalStorage.setItem ExpenseContext.KEY (stringify_expenses expenses) st = None →
  let stripped := map LocalExpenseProvider.lightweight expenses in
  let saved := LocalExpenseProvider.saveEffect expenses st in
  attempts saved = [stringify_expenses expenses; stringify_expenses stripped]
  ∧ Forall2 (λ e e', e' = LocalExpenseProvider.lightweight e
                     ∧ Expense.imageUrl e' = EmptyString) expenses stripped
  ∧ (∀ st', LocalStorage.setItem ExpenseContext.KEY (stringify_expenses stripped) st
            = Some st' →
       stored saved = st'
       ∧ LocalStorage.getItem ExpenseContext.KEY (stored saved)
         = Some (stringify_expenses stripped)).
Proof.
  intros Hfull stripped saved. subst stripped saved.
  unfold LocalExpenseProvider.saveEffect. rewrite Hfull.
  split.
  { destruct (LocalStorage.setItem ExpenseContext.KEY
                (stringify_expenses (map LocalExpenseProvider.lightweight expenses)) st);
      reflexivity. }
  split.
  - apply Forall2_map_r. intros e _. split; reflexivity.
  - intros st' Hst'. rewrite Hst'. simpl. split; [done|].
    by eapply setItem_getItem.
Qed.

(** The dual-mode provider: a failed save is logged and that is all. *)
Lemma failed_save_dropped (expenses : list Expense) (st : LocalStorage.t) :
  LocalStorage.setItem ExpenseContext.KEY (stringify_expenses expenses) st = None →
  ExpenseContext.saveEffect false expenses st
  = mkSaved st [stringify_expenses expenses] ["Local storage full"].
Proof. intros Hfull. unfold ExpenseContext.saveEffect. simpl. by rewrite Hfull. Qed.

(** Loading expenses: anything but a JSON array yields the seed. *)
Lemma expenses_fall_back (st : LocalStorage.t) :
  (∀ s v, LocalStorage.getItem ExpenseContext.KEY st = Some s →
          JSON_parse s = Some v → isArray v = false) →
  ExpenseContext.loadFromLocal st = FromSeed MOCK_EXPENSES.
Proof.
  intros Hbad. unfold ExpenseContext.loadFromLocal.
  destruct (LocalStorage.getItem ExpenseContext.KEY st) as [s|] eqn:Hs; simpl; [|done].
  destruct (bool_decide (s = EmptyString)); simpl; [done|].
  destruct (JSON_parse s) as [v|] eqn:Hv; [|done].
  by rewrite (Hbad s v).
Qed.

(** Loading users: text that is not JSON yields the seed. *)
Lemma users_fall_back_malformed (st : LocalStorage.t) :
  (∀ s, LocalStorage.getItem AuthContext.KEY st = Some s → JSON_parse s = None) →
  AuthContext.loadFromLocal st = FromSeed MOCK_USERS.
Proof.
  intros Hbad. unfold AuthContext.loadFromLocal.
  destruct (LocalStorage.getItem AuthContext.KEY st) as [s|] eqn:Hs; simpl; [|done].
  destruct (bool_decide (s = EmptyString)); simpl; [done|].
  by rewrite (Hbad s).
Qed.

(** Loading users: whatever the snapshot parses to is taken, array or not. *)
Lemma users_take_any_json (st : LocalStorage.t) s v :
  LocalStorage.getItem AuthContext.KEY st = Some s → s ≠ EmptyString →
  JSON_parse s = Some v →
  AuthContext.loadFromLocal st = FromSnapshot v.
Proof.
  intros Hs Hne Hv. unfold AuthContext.loadFromLocal. rewrite Hs. simpl.
  rewrite bool_decide_eq_false_2 by done. simpl. by rewrite Hv.
Qed.
End Persistence.

Section Cascade.
Context `{Platform}.

Lemma handle_delete_user d userId :
  Firestore.available d = true →
  Firestore.handle (DeleteUser userId) d
  = (Resolved, Firestore.mk (delete userId (Firestore.users d)) (Firestore.expenses d) true).
Proof. intros Ha. unfold Firestore.handle. by rewrite Ha. Qed.

(** The admin delete flow in cloud mode, for any reachable store: the user
    document is deleted before the expense batch is committed, and the store
    is observed in between. *)
Lemma confirmDelete_cloud_order (w : World) (u : User.t) :
  ExpenseState.useCloud (expenseProvider (client w)) = true →
  AuthState.useCloud (authProvider (client w)) = true →
  Firestore.available (db w) = true →
  let l := settle listeners 3 (UserManagement.confirmDelete (Some u) (idle w)) in
  let refs := (map_to_list (filter (λ kd, Expense.userId kd.2 = User.id u)
                              (Firestore.expenses (db w)))).*1 in
  let between := Firestore.mk (delete (User.id u) (Firestore.users (db w)))
                              (Firestore.expenses (db w)) true in
  inflight l = []
  ∧ issued l = [GetExpensesWhereUserId (User.id u); DeleteUser (User.id u); Commit refs]
  ∧ observed l = [between; db (world l)]
  ∧ Firestore.expenses (db (world l))
    = filter (λ kd, ¬ Expense.userId kd.2 = User.id u) (Firestore.expenses (db w)).
Proof.
  intros Hce Hca Ha l refs between. subst l.
  unfold UserManagement.confirmDelete, idle. cbn [world].
  unfold ExpenseContext.deleteExpensesByUserId, AuthContext.deleteUser.
  rewrite Hce, Hca.
  cbn [start world inflight issued observed settled app client].
  rewrite settle_step. unfold deliver.
  cbn [request resume world inflight issued observed settled].
  rewrite handle_query by done.
  cbn [accepted Firestore.isWrite start world inflight issued observed settled
       app client db].
  rewrite settle_step. unfold deliver.
  cbn [request resume world inflight issued observed settled db client].
  rewrite handle_delete_user by done.
  cbn [accepted Firestore.isWrite world inflight issued observed settled
       app client db].
  set (after := match AuthState.user (authProvider (client w)) with
                | Some u0 => _ | None => _ end).
  assert (Hafter : ∀ l0, inflight (start after l0) = inflight l0
                         ∧ issued (start after l0) = issued l0
                         ∧ observed (start after l0) = observed l0
                         ∧ db (world (start after l0)) = db (world l0)).
  { intros l0. subst after.
    destruct (AuthState.user _) as [u0|]; [|done]. by destruct (decide _). }
  match goal with |- context [settle listeners 1 (start after ?l0)] =>
    destruct (Hafter l0) as (Hi & Hs & Ho & Hd);
    destruct (start after l0) as [w1 inf1 iss1 obs1 set1] eqn:Hl1
  end.
  simpl in Hi, Hs, Ho, Hd. subst inf1 iss1 obs1.
  rewrite settle_step. unfold deliver.
  cbn [request resume world inflight issued observed settled db client].
  rewrite Hd. rewrite handle_commit by done.
  cbn [accepted Firestore.isWrite start world inflight issued observed settled
       app client db].
  rewrite settle_done. cbn [inflight issued observed world db Firestore.expenses].
  pose proof (foldr_delete_filter (Firestore.expenses (db w))
                (λ d, Expense.userId d = User.id u)) as Hf.
  cbv beta in Hf. by rewrite Hf.
Qed.

(** The admin delete flow in local mode: both collections are filtered in
    the same turn. *)
Lemma confirmDelete_local (w : World) (u : User.t) :
  ExpenseState.useCloud (expenseProvider (client w)) = false →
  AuthState.useCloud (authProvider (client w)) = false →
  let l := settle listeners 3 (UserManagement.confirmDelete (Some u) (idle w)) in
  inflight l = [] ∧ issued l = [] ∧ observed l = []
  ∧ ExpenseState.expenses (expenseProvider (client (world l)))
    = filter (λ e, Expense.userId e ≠ User.id u)
        (ExpenseState.expenses (expenseProvider (client w)))
  ∧ AuthState.allUsers (authProvider (client (world l)))
    = filter (λ v, User.id v ≠ User.id u)
        (AuthState.allUsers (authProvider (client w))).
Proof.
  intros Hce Hca l. subst l.
  unfold UserManagement.confirmDelete, idle. cbn [world].
  unfold ExpenseContext.deleteExpensesByUserId, AuthContext.deleteUser.
  rewrite Hce, Hca. simpl.
  destruct (AuthState.user _) as [u0|]; [|done]. by destruct (decide _).
Qed.
End Cascade.

Section Decide.
Context `{Platform}.

Lemma newer_decide (a b : Expense) :
  match getTime (Expense.createdAt a), getTime (Expense.createdAt b) with
  | Some ta, Some tb => bool_decide (tb < ta)
  | _, _ => false
  end = true → newer a b.
Proof.
  unfold newer.
  destruct (getTime (Expense.createdAt a)) as [ta|]; [|done].
  destruct (getTime (Expense.createdAt b)) as [tb|]; [|done].
  intros Hlt%bool_decide_eq_true. eauto.
Qed.

Lemma dated_decide (e : Expense) :
  bool_decide (is_Some (getTime (Expense.createdAt e))) = true → dated e.
Proof. apply bool_decide_eq_true. Qed.

Lemma expensesKeyed_decide (d : Firestore.t) :
  Forall (λ kd, default kd.1 (Expense.id kd.2) = kd.1) (map_to_list (Firestore.expenses d)) →
  expensesKeyed d.
Proof.
  intros Hall k v Hk. rewrite Forall_forall in Hall.
  by apply (Hall (k, v)), elem_of_map_to_list.
Qed.

Lemma usersKeyed_decide (d : Firestore.t) :
  Forall (λ ku, User.id ku.2 = ku.1) (map_to_list (Firestore.users d)) →
  usersKeyed d.
Proof.
  intros Hall k v Hk. rewrite Forall_forall in Hall.
  by apply (Hall (k, v)), elem_of_map_to_list.
Qed.
End Decide.

(** ** Facts about lists and maps used below *)
Lemma filter_ext_elem {A} (P Q : A → Prop) `{∀ x, Decision (P x)} `{∀ x, Decision (Q x)}
    (l : list A) :
  (∀ x, x ∈ l → P x ↔ Q x) → filter P l = filter Q l.
Proof.
  induction l as [|a l IH]; intros Hpq; [done|].
  rewrite !filter_cons.
  pose proof (Hpq a (list_elem_of_here _ _)) as Ha.
  rewrite IH by (intros x Hx; apply Hpq; by apply list_elem_of_further).
  destruct (decide (P a)), (decide (Q a)); tauto || done.
Qed.

Lemma filter_all {A} (P : A → Prop) `{∀ x, Decision (P x)} (l : list A) :
  (∀ x, x ∈ l → P x) → filter P l = l.
Proof.
  induction l as [|a l IH]; intros Hp; [done|].
  rewrite filter_cons.
  rewrite decide_True by apply Hp, list_elem_of_here.
  f_equal. apply IH. intros x Hx. by apply Hp, list_elem_of_further.
Qed.

Lemma map_to_list_delete_perm {V} (m : gmap string V) k :
  map_to_list (delete k m) ≡ₚ filter (λ kv, kv.1 ≠ k) (map_to_list m).
Proof.
  apply NoDup_Permutation.
  - apply NoDup_map_to_list.
  - apply NoDup_filter, NoDup_map_to_list.
  - intros [k' v]. rewrite elem_of_map_to_list, lookup_delete_Some.
    rewrite list_elem_of_filter, elem_of_map_to_list. simpl.
    split; intros [? ?]; split; done || congruence.
Qed.

(** ** Expense operations, one after another *)
Section ExpenseCalls.
Context `{Platform}.

Lemma delete_shown_perm (m : gmap string ExpenseData) k :
  (∀ k d, m !! k = Some d → default k (Expense.id d) = k) →
  ExpenseContext.onSnapshot (map_to_list (delete k m))
  ≡ₚ filter (λ e, Expense.id e ≠ k) (ExpenseContext.onSnapshot (map_to_list m)).
Proof.
  intros Hkeyed. unfold ExpenseContext.onSnapshot. rewrite !sort_perm.
  change (map ?f ?l) with (f <$> l).
  rewrite map_to_list_delete_perm, filter_fmap_list.
  f_equiv. erewrite filter_ext_elem; [reflexivity|]. intros [k' d] Hin.
  apply elem_of_map_to_list in Hin. rewrite fromDoc_id. simpl.
  by rewrite (Hkeyed _ _ Hin).
Qed.

Lemma handle_delete_expense d id :
  Firestore.available d = true →
  Firestore.handle (DeleteExpense id) d
  = (Resolved, Firestore.mk (Firestore.users d) (delete id (Firestore.expenses d)) true).
Proof. intros Ha. unfold Firestore.handle. by rewrite Ha. Qed.

Lemma handle_set_expense d e :
  Firestore.available d = true →
  Firestore.handle (SetExpense (Expense.id e) e) d
  = (Resolved,
     Firestore.mk (Firestore.users d) (<[Expense.id e := toData e]> (Firestore.expenses d)) true).
Proof. intros Ha. unfold Firestore.handle. by rewrite Ha. Qed.

Lemma keyed_delete d id :
  expensesKeyed d →
  expensesKeyed (Firestore.mk (Firestore.users d) (delete id (Firestore.expenses d)) true).
Proof.
  intros Hk k v. simpl. rewrite lookup_delete_Some. intros [_ Hv]. by apply Hk.
Qed.

Lemma deleteExpense_run (w : World) (id : string) :
  expensesReady w →
  ∃ w',
    run (λ c, ExpenseContext.deleteExpense c id) w = (Fulfilled, w')
    ∧ ExpenseState.expenses (expenseProvider (client w'))
      ≡ₚ filter (λ e, Expense.id e ≠ id) (ExpenseState.expenses (expenseProvider (client w)))
    ∧ (ExpenseState.useCloud (expenseProvider (client w)) = false →
         ExpenseState.expenses (expenseProvider (client w'))
         = filter (λ e, Expense.id e ≠ id)
             (ExpenseState.expenses (expenseProvider (client w)))
         ∧ db w' = db w)
    ∧ (ExpenseState.useCloud (expenseProvider (client w)) = true →
         Firestore.expenses (db w') = delete id (Firestore.expenses (db w))
         ∧ Firestore.users (db w') = Firestore.users (db w))
    ∧ (id ∉ map Expense.id (ExpenseState.expenses (expenseProvider (client w))) → w' = w)
    ∧ expensesReady w'.
Proof.
  intros Hready. unfold run, ExpenseContext.deleteExpense.
  destruct (ExpenseState.useCloud (expenseProvider (client w))) eqn:Hc.
  - destruct (Hready Hc) as (Ha & Hkeyed & Hsync).
    cbn [exec]. rewrite handle_delete_expense by done.
    cbn [accepted Firestore.isWrite listeners]. rewrite Hc. cbn [exec].
    eexists. split; [reflexivity|]. cbn [client db Firestore.expenses Firestore.users].
    split; [|split; [done|split; [done|split]]].
    + simpl. rewrite Hsync. by apply delete_shown_perm.
    + intros Hid.
      pose proof (not_shown_not_stored w id Hkeyed Hsync Hid) as Hnone.
      rewrite delete_id by done.
      destruct w as [[[es uc] a s al co] [us ex av]]. simpl in *.
      unfold setExpenses. simpl. unfold expensesInSync in Hsync. simpl in Hsync.
      by rewrite <- Hsync, Hc, Ha.
    + intros _. cbn [client db]. split; [done|]. split; [by apply keyed_delete|].
      unfold expensesInSync. by simpl.
  - cbn [exec Do]. simpl. eexists. split; [reflexivity|]. simpl.
    split; [done|]. split; [done|]. split; [done|]. split.
    + intros Hid. apply setExpenses_same. apply filter_all.
      intros x Hx Heq. apply Hid. change (map ?f ?l) with (f <$> l).
      apply list_elem_of_fmap. eauto.
    + intros Hc'. simpl in Hc'. congruence.
Qed.

(** X2. [deleteExpense] always completes from a ready state; afterwards no
    shown record carries the identifier, every record with another
    identifier is shown exactly when it was shown before, and as many
    records are shown as had another identifier. In local mode the order of
    the kept records is the old one and the store is not touched; in cloud
    mode the document is gone from the store, every other document and the
    users are as they were. When no shown record has the identifier the
    whole state is unchanged, and the state is ready again. *)
Theorem deleteExpense_removes_id (w : World) (id : string) :
  expensesReady w →
  ∃ w',
    run (λ c, ExpenseContext.deleteExpense c id) w = (Fulfilled, w')
    ∧ (∀ e, e ∈ ExpenseState.expenses (expenseProvider (client w')) → Expense.id e ≠ id)
    ∧ (∀ e, Expense.id e ≠ id →
            e ∈ ExpenseState.expenses (expenseProvider (client w'))
            ↔ e ∈ ExpenseState.expenses (expenseProvider (client w)))
    ∧ length (ExpenseState.expenses (expenseProvider (client w')))
      = length (filter (λ e, Expense.id e ≠ id)
                  (ExpenseState.expenses (expenseProvider (client w))))
    ∧ (ExpenseState.useCloud (expenseProvider (client w)) = false →
         ExpenseState.expenses (expenseProvider (client w'))
         `sublist_of` ExpenseState.expenses (expenseProvider (client w))
         ∧ db w' = db w)
    ∧ (ExpenseState.useCloud (expenseProvider (client w)) = true →
         Firestore.expenses (db w') !! id = None
         ∧ (∀ k, k ≠ id → Firestore.expenses (db w') !! k = Firestore.expenses (db w) !! k)
         ∧ Firestore.users (db w') = Firestore.users (db w))
    ∧ (id ∉ map Expense.id (ExpenseState.expenses (expenseProvider (client w))) → w' = w)
    ∧ expensesReady w'.
Proof.
  intros Hready.
  destruct (deleteExpense_run w id Hready)
    as (w' & Hrun & Hperm & Hlocal & Hcloud & Hmissing & Hready').
  exists w'. split; [exact Hrun|].
  split; [|split; [|split; [|split; [|split; [|split; [exact Hmissing|exact Hready']]]]]].
  - intros e He. rewrite Hperm in He. by apply list_elem_of_filter in He as [? _].
  - intros e Hne. rewrite Hperm, list_elem_of_filter. tauto.
  - by rewrite Hperm.
  - intros Hc. destruct (Hlocal Hc) as [-> Hdb]. split; [apply sublist_filter|done].
  - intros Hc. destruct (Hcloud Hc) as [-> Hus]. split; [apply lookup_delete_eq|].
    split; [|done]. intros k Hk. by apply lookup_delete_ne.
Qed.

Lemma fromDoc_toData (e : Expense) : ExpenseContext.fromDoc (Expense.id e, toData e) = e.
Proof. by destruct e. Qed.

Lemma keyed_set d e :
  expensesKeyed d →
  expensesKeyed (Firestore.mk (Firestore.users d)
                   (<[Expense.id e := toData e]> (Firestore.expenses d)) true).
Proof.
  intros Hk k v. simpl. rewrite lookup_insert_Some.
  intros [[<- <-]|[_ Hv]]; [done|by apply Hk].
Qed.

Lemma shown_distinct (m : gmap string ExpenseData) :
  (∀ k d, m !! k = Some d → default k (Expense.id d) = k) →
  NoDup (map Expense.id (ExpenseContext.onSnapshot (map_to_list m))).
Proof.
  intros Hkeyed. unfold ExpenseContext.onSnapshot.
  change (map ?f ?l) with (f <$> l). rewrite sort_perm.
  change (map ?f ?l) with (f <$> l).
  assert (Expense.id <$> (ExpenseContext.fromDoc <$> map_to_list m) = (map_to_list m).*1)
    as ->.
  { rewrite <- list_fmap_compose.
    apply list_fmap_ext. intros i [k d] Hi. simpl.
    apply list_elem_of_lookup_2, elem_of_map_to_list in Hi.
    by apply Hkeyed. }
  apply NoDup_fst_map_to_list.
Qed.

Lemma shown_after_set (m : gmap string ExpenseData) (e x : Expense) :
  (∀ k d, m !! k = Some d → default k (Expense.id d) = k) →
  x ∈ ExpenseContext.onSnapshot (map_to_list (<[Expense.id e := toData e]> m))
  ↔ x = e ∨ (x ∈ ExpenseContext.onSnapshot (map_to_list m) ∧ Expense.id x ≠ Expense.id e).
Proof.
  intros Hkeyed. unfold ExpenseContext.onSnapshot.
  rewrite !sort_perm. change (map ?f ?l) with (f <$> l).
  rewrite !list_elem_of_fmap. split.
  - intros ([k d] & -> & Hin). apply elem_of_map_to_list in Hin.
    apply lookup_insert_Some in Hin as [[<- <-]|[Hne Hin]].
    + left. by rewrite fromDoc_toData.
    + right. split.
      * exists (k, d). split; [done|]. by apply elem_of_map_to_list.
      * rewrite fromDoc_id, (Hkeyed _ _ Hin). done.
  - intros [->|[([k d] & -> & Hin) Hne]].
    + exists (Expense.id e, toData e). split; [by rewrite fromDoc_toData|].
      apply elem_of_map_to_list. by rewrite lookup_insert_eq.
    + apply elem_of_map_to_list in Hin. exists (k, d). split; [done|].
      apply elem_of_map_to_list. rewrite lookup_insert_ne; [done|].
      rewrite fromDoc_id, (Hkeyed _ _ Hin) in Hne. done.
Qed.

(** X3. Against a reachable store, [addExpense] in cloud mode completes
    and writes the record as the document keyed by its identifier; reading
    that document back gives the record. The shown collection then holds the
    record and the old records with another identifier, nothing else, and at
    most one record per identifier. *)
Theorem addExpense_cloud_stores (w : World) (e : Expense) :
  ExpenseState.useCloud (expenseProvider (client w)) = true →
  expensesReady w →
  ∃ w',
    run (λ c, ExpenseContext.addExpense c e) w = (Fulfilled, w')
    ∧ Firestore.expenses (db w')
      = <[Expense.id e := toData e]> (Firestore.expenses (db w))
    ∧ ExpenseContext.fromDoc (Expense.id e, toData e) = e
    ∧ (∀ x, x ∈ ExpenseState.expenses (expenseProvider (client w'))
            ↔ x = e ∨ (x ∈ ExpenseState.expenses (expenseProvider (client w))
                       ∧ Expense.id x ≠ Expense.id e))
    ∧ NoDup (map Expense.id (ExpenseState.expenses (expenseProvider (client w'))))
    ∧ expensesReady w'.
Proof.
  intros Hc Hready. destruct (Hready Hc) as (Ha & Hkeyed & Hsync).
  unfold run, ExpenseContext.addExpense. rewrite Hc.
  cbn [exec]. rewrite handle_set_expense by done.
  cbn [accepted Firestore.isWrite listeners]. rewrite Hc. cbn [exec].
  eexists. split; [reflexivity|]. cbn [client db Firestore.expenses].
  pose proof (keyed_set (db w) e Hkeyed) as Hkeyed'.
  split; [done|]. split; [apply fromDoc_toData|]. split; [|split].
  - intros x. simpl. rewrite Hsync. by apply shown_after_set.
  - simpl. by apply shown_distinct.
  - intros _. cbn [client db]. split; [done|]. split; [done|].
    unfold expensesInSync. by simpl.
Qed.

(** X4. Against a store that rejects every call, [addExpense] alone
    completes: it logs the failure and alerts the user. [updateStatus],
    [deleteExpense], [deleteExpensesByUserId] and [editExpense] end in an
    error. None of the five changes the collection or the store. *)
Theorem rejecting_store_expense_calls (w : World) :
  ExpenseState.useCloud (expenseProvider (client w)) = true →
  Firestore.available (db w) = false →
  (∀ e, run (λ c, ExpenseContext.addExpense c e) w
        = (Fulfilled,
           mkWorld (alert "Failed to save to cloud. Check console."
                      (console_error "Cloud save failed" (client w)))
                   (db w)))
  ∧ (∀ id status notes,
       run (λ c, ExpenseContext.updateStatus c id status notes) w = (Rejects, w))
  ∧ (∀ id, run (λ c, ExpenseContext.deleteExpense c id) w = (Rejects, w))
  ∧ (∀ userId, run (λ c, ExpenseContext.deleteExpensesByUserId c userId) w = (Rejects, w))
  ∧ (∀ id updatedExpense,
       run (λ c, ExpenseContext.editExpense c id updatedExpense) w = (Rejects, w)).
Proof.
  intros Hc Ha.
  unfold run, ExpenseContext.addExpense, ExpenseContext.updateStatus,
    ExpenseContext.deleteExpense, ExpenseContext.deleteExpensesByUserId,
    ExpenseContext.editExpense.
  rewrite Hc. repeat split; intros; by rewrite rejected_cloud.
Qed.

Lemma spread_idem {I T} (inI : string → I) (inT : string → T) (e : Expense.t I T) p :
  spread inI inT (spread inI inT e p) p = spread inI inT e p.
Proof.
  unfold spread. simpl.
  f_equal;
    match goal with
    | |- context [PartialExpense.id p] => by destruct (PartialExpense.id p)
    | |- context [PartialExpense.userId p] => by destruct (PartialExpense.userId p)
    | |- context [PartialExpense.userName p] => by destruct (PartialExpense.userName p)
    | |- context [PartialExpense.merchant p] => by destruct (PartialExpense.merchant p)
    | |- context [PartialExpense.date p] => by destruct (PartialExpense.date p)
    | |- context [PartialExpense.subtotal p] => by destruct (PartialExpense.subtotal p)
    | |- context [PartialExpense.tax p] => by destruct (PartialExpense.tax p)
    | |- context [PartialExpense.total p] => by destruct (PartialExpense.total p)
    | |- context [PartialExpense.category p] => by destruct (PartialExpense.category p)
    | |- context [PartialExpense.imageUrl p] => by destruct (PartialExpense.imageUrl p)
    | |- context [PartialExpense.status p] => by destruct (PartialExpense.status p)
    | |- context [PartialExpense.notes p] => by destruct (PartialExpense.notes p)
    | |- context [PartialExpense.createdAt p] => by destruct (PartialExpense.createdAt p)
    end.
Qed.

Lemma setExpenses_const l l' c :
  setExpenses (λ _, l') (setExpenses (λ _, l) c) = setExpenses (λ _, l') c.
Proof. done. Qed.

(** X5. [editExpense] is idempotent in every state and both modes: the same
    edit made a second time ends as the first did and leaves the state the
    first edit left. *)
Theorem editExpense_idempotent (w : World) (id : string) (updatedExpense : PartialExpense.t) :
  run (λ c, ExpenseContext.editExpense c id updatedExpense)
      (run (λ c, ExpenseContext.editExpense c id updatedExpense) w).2
  = run (λ c, ExpenseContext.editExpense c id updatedExpense) w.
Proof.
  unfold run, ExpenseContext.editExpense.
  destruct (ExpenseState.useCloud (expenseProvider (client w))) eqn:Hc.
  - destruct (Firestore.available (db w)) eqn:Ha.
    + destruct (Firestore.expenses (db w) !! id) as [d|] eqn:Hd.
      * rewrite (patch_cloud w id updatedExpense d) by done.
        cbn [exec snd client expenseProvider setExpenses ExpenseState.useCloud].
        rewrite Hc.
        rewrite (patch_cloud _ id updatedExpense (spread Some TimeString d updatedExpense));
          [|done|done|apply lookup_insert_eq].
        cbn [exec client db Firestore.users Firestore.expenses].
        by rewrite spread_idem, insert_insert_eq.
      * rewrite patch_cloud_missing by done. cbn [exec snd]. rewrite Hc.
        by rewrite patch_cloud_missing.
    + rewrite rejected_cloud by done. cbn [exec snd]. rewrite Hc.
      by rewrite rejected_cloud.
  - simpl. rewrite Hc. simpl. do 2 f_equal.
    unfold setExpenses. simpl. do 2 f_equal.
    change (map ?f ?l) with (f <$> l). rewrite <- list_fmap_compose.
    apply list_fmap_ext. intros i e _. simpl.
    destruct (decide (Expense.id e = id)) as [He|He].
    + destruct (decide (Expense.id (spread Datatypes.id Datatypes.id e updatedExpense) = id));
        [apply spread_idem|done].
    + by rewrite decide_False.
Qed.

Lemma addExpense_cloud_run w e :
  ExpenseState.useCloud (expenseProvider (client w)) = true →
  Firestore.available (db w) = true →
  run (λ c, ExpenseContext.addExpense c e) w
  = (Fulfilled,
     mkWorld
       (setExpenses
          (λ _, ExpenseContext.onSnapshot
                  (map_to_list (<[Expense.id e := toData e]> (Firestore.expenses (db w)))))
          (client w))
       (Firestore.mk (Firestore.users (db w))
                     (<[Expense.id e := toData e]> (Firestore.expenses (db w))) true)).
Proof.
  intros Hc Ha. unfold run, ExpenseContext.addExpense. rewrite Hc.
  cbn [exec]. rewrite handle_set_expense by done.
  cbn [accepted Firestore.isWrite listeners]. by rewrite Hc.
Qed.

Lemma deleteExpense_cloud_run w id :
  ExpenseState.useCloud (expenseProvider (client w)) = true →
  Firestore.available (db w) = true →
  run (λ c, ExpenseContext.deleteExpense c id) w
  = (Fulfilled,
     mkWorld
       (setExpenses
          (λ _, ExpenseContext.onSnapshot
                  (map_to_list (delete id (Firestore.expenses (db w)))))
          (client w))
       (Firestore.mk (Firestore.users (db w)) (delete id (Firestore.expenses (db w))) true)).
Proof.
  intros Hc Ha. unfold run, ExpenseContext.deleteExpense. rewrite Hc.
  cbn [exec]. rewrite handle_delete_expense by done.
  cbn [accepted Firestore.isWrite listeners]. by rewrite Hc.
Qed.

(** X6. [addExpense] does not look for the identifier. In local mode adding
    one record twice shows it twice, and one [deleteExpense] then removes
    both copies; in cloud mode against a reachable store the second add
    overwrites the document and changes nothing. *)
Theorem addExpense_twice (w : World) (e : Expense) :
  let w1 := (run (λ c, ExpenseContext.addExpense c e) w).2 in
  let w2 := (run (λ c, ExpenseContext.addExpense c e) w1).2 in
  (ExpenseState.useCloud (expenseProvider (client w)) = false →
     ExpenseState.expenses (expenseProvider (client w2))
     = e :: e :: ExpenseState.expenses (expenseProvider (client w))
     ∧ ExpenseState.expenses
         (expenseProvider
            (client (run (λ c, ExpenseContext.deleteExpense c (Expense.id e)) w2).2))
       = filter (λ x, Expense.id x ≠ Expense.id e)
           (ExpenseState.expenses (expenseProvider (client w))))
  ∧ (ExpenseState.useCloud (expenseProvider (client w)) = true →
     Firestore.available (db w) = true →
     w2 = w1
     ∧ Firestore.expenses (db w1) !! Expense.id e = Some (toData e)).
Proof.
  intros w1 w2. subst w1 w2. split.
  - intros Hc. unfold run, ExpenseContext.addExpense, ExpenseContext.deleteExpense.
    rewrite Hc. simpl. rewrite Hc. simpl. rewrite Hc. simpl. split; [done|].
    rewrite !filter_cons. by rewrite !decide_False by (by intros []).
  - intros Hc Ha. rewrite (addExpense_cloud_run w e) by done.
    cbn [snd]. rewrite addExpense_cloud_run by done.
    cbn [snd client db Firestore.users Firestore.expenses].
    rewrite insert_insert_eq. split; [done|]. apply lookup_insert_eq.
Qed.

(** X7. From a ready state, adding a record whose identifier is not shown
    and then deleting that identifier completes and gives back the state the
    add started from, collection and store alike. *)
Theorem addExpense_deleteExpense_round_trip (w : World) (e : Expense) :
  expensesReady w →
  Expense.id e ∉ map Expense.id (ExpenseState.expenses (expenseProvider (client w))) →
  run (λ c, ExpenseContext.deleteExpense c (Expense.id e))
      (run (λ c, ExpenseContext.addExpense c e) w).2
  = (Fulfilled, w).
Proof.
  intros Hready Hid.
  destruct (ExpenseState.useCloud (expenseProvider (client w))) eqn:Hc.
  - destruct (Hready Hc) as (Ha & Hkeyed & Hsync).
    rewrite addExpense_cloud_run by done. cbn [snd].
    rewrite deleteExpense_cloud_run by done.
    cbn [client db Firestore.users Firestore.expenses].
    pose proof (not_shown_not_stored w _ Hkeyed Hsync Hid) as Hnone.
    rewrite delete_insert_eq, delete_id by done.
    f_equal.
    destruct w as [[[es uc] a s al co] [us ex av]]. simpl in *.
    unfold setExpenses. simpl. unfold expensesInSync in Hsync. simpl in Hsync.
    by rewrite <- Hsync, Ha.
  - unfold run, ExpenseContext.addExpense, ExpenseContext.deleteExpense.
    rewrite Hc. simpl. rewrite Hc. simpl. f_equal.
    destruct w as [[[es uc] a s al co] d]. simpl in *. unfold setExpenses. simpl.
    rewrite filter_cons, decide_False by (by intros []).
    rewrite filter_all; [done|].
    intros x Hx Heq. apply Hid. change (map ?f ?l) with (f <$> l).
    apply list_elem_of_fmap. eauto.
Qed.


Lemma keyed_filter d (P : string * ExpenseData → Prop) `{∀ x, Decision (P x)} :
  expensesKeyed d →
  expensesKeyed (Firestore.mk (Firestore.users d) (filter P (Firestore.expenses d)) true).
Proof.
  intros Hk k v. simpl. rewrite map_lookup_filter_Some. intros [Hv _]. by apply Hk.
Qed.



End ExpenseCalls.

Lemma setItem_again key value st st' :
  LocalStorage.setItem key value st = Some st' →
  LocalStorage.setItem key value st' = Some st'.
Proof.
  unfold LocalStorage.setItem. destruct (decide _) as [Hfit|]; [|done]. intros [= <-].
  simpl. rewrite insert_insert_eq. by rewrite decide_True.
Qed.

(** ** Sign-in and user operations *)
Section UserCalls.
Context `{Platform}.

(** X9. [login] answers true only for a user of the collection whose email
    matches without regard to case and whose password is equal; that user
    is then signed in and the session token is the user's identifier. It
    answers false exactly when no user matches, and then changes nothing.
    It gives no answer only when a matching user was set but the token
    could not be stored. *)
Theorem login_checks_credentials (c : Client) (email password : string) :
  let result := AuthContext.login email password c in
  let matching (u : User.t) :=
    toLowerCase (User.email u) = toLowerCase email ∧ User.password u = password in
  (result.1 = Some true →
     ∃ u, u ∈ AuthState.allUsers (authProvider c) ∧ matching u
          ∧ AuthState.user (authProvider result.2) = Some u
          ∧ LocalStorage.getItem AuthContext.SESSION (storage result.2) = Some (User.id u)
          ∧ AuthState.allUsers (authProvider result.2) = AuthState.allUsers (authProvider c))
  ∧ (result.1 = Some false →
     result.2 = c ∧ ∀ u, u ∈ AuthState.allUsers (authProvider c) → ¬ matching u)
  ∧ (result.1 = None →
     ∃ u, u ∈ AuthState.allUsers (authProvider c) ∧ matching u
          ∧ LocalStorage.setItem AuthContext.SESSION (User.id u) (storage c) = None
          ∧ result.2 = setUser (Some u) c).
Proof.
  intros result matching. subst result. unfold AuthContext.login.
  destruct (List.find _ _) as [found|] eqn:Hfind.
  - pose proof Hfind as Hf. apply find_some in Hf as [Hin Hm].
    apply list_elem_of_In in Hin. apply andb_true_iff in Hm as [Hm1 Hm2].
    apply bool_decide_eq_true in Hm1, Hm2.
    destruct (LocalStorage.setItem _ _ _) as [st|] eqn:Hset; simpl.
    + split; [|split; [done|done]].
      intros _. exists found. repeat split; try done.
      by eapply setItem_getItem.
    + split; [done|]. split; [done|].
      intros _. exists found. by repeat split.
  - simpl. split; [done|]. split; [|done].
    intros _. split; [done|]. intros u Hu [Hm1 Hm2].
    apply list_elem_of_In in Hu. pose proof (find_none _ _ Hfind u Hu) as Hf.
    simpl in Hf. apply andb_false_iff in Hf as [Hf|Hf];
      by apply bool_decide_eq_false in Hf.
Qed.

Lemma setUser_same c u :
  AuthState.user (authProvider c) = u → setUser u c = c.
Proof. destruct c as [e [us cu il uc] s a co]. simpl. by intros <-. Qed.

Lemma setStorage_same c : setStorage (storage c) c = c.
Proof. by destruct c. Qed.

(** The end of [signup], when it fulfils. *)
Lemma establish_fulfilled c d newUser w1 :
  exec listeners
    (Do (setUser (Some newUser))
       (Act (λ c, (λ st, setStorage st c) <$>
                    LocalStorage.setItem AuthContext.SESSION (User.id newUser) (storage c))
            Return Throw))
    (mkWorld c d) = (Fulfilled, w1) →
  ∃ st, LocalStorage.setItem AuthContext.SESSION (User.id newUser) (storage c) = Some st
        ∧ w1 = mkWorld (setStorage st (setUser (Some newUser) c)) d.
Proof.
  rewrite establish_run. destruct (LocalStorage.setItem _ _ _) as [st|]; [|done].
  intros [= <-]. eauto.
Qed.

(** X10. After a sign-up with a new email that completed, [login] with the
    same email and password answers true and changes nothing more: the new
    account is already signed in and its token stored. With any other
    password [login] answers false. *)
Theorem signup_then_login (w w1 : World) (now : Z) (name email password : string) :
  usersReady w →
  (∀ u, u ∈ AuthState.allUsers (authProvider (client w)) →
        toLowerCase (User.email u) ≠ toLowerCase email) →
  run (λ c, AuthContext.signup c now name email password) w = (Fulfilled, w1) →
  AuthContext.login email password (client w1) = (Some true, client w1)
  ∧ AuthState.user (authProvider (client w1)) = Some (newAccount now name email password)
  ∧ LocalStorage.getItem AuthContext.SESSION (storage (client w1))
    = Some (User.id (newAccount now name email password))
  ∧ (∀ other, other ≠ password →
       AuthContext.login email other (client w1) = (Some false, client w1)).
Proof.
  intros Hready Hfresh Hrun.
  set (newUser := newAccount now name email password).
  assert (Hnone : List.find (λ u, bool_decide (toLowerCase (User.email u) = toLowerCase email))
                    (AuthState.allUsers (authProvider (client w))) = None).
  { apply find_absent. intros u Hu. apply bool_decide_eq_false. by apply Hfresh. }
  unfold run, AuthContext.signup in Hrun. rewrite Hnone in Hrun.
  fold (AuthContext.avatarOf name) in Hrun.
  change (User.mk ("u-" +:+ pretty now) name email password SALES
                  (AuthContext.avatarOf name) None) with newUser in Hrun.
  (* what the world looks like after the call *)
  assert (Hw1 : ∃ c1 d1 st,
    w1 = mkWorld (setStorage st (setUser (Some newUser) c1)) d1
    ∧ LocalStorage.setItem AuthContext.SESSION (User.id newUser) (storage c1) = Some st
    ∧ newUser ∈ AuthState.allUsers (authProvider c1)
    ∧ (∀ u, u ∈ AuthState.allUsers (authProvider c1) →
            u = newUser ∨ u ∈ AuthState.allUsers (authProvider (client w)))).
  { destruct (AuthState.useCloud (authProvider (client w))) eqn:Hc.
    - destruct (Hready Hc) as (Ha & Hkeyed & Hsync).
      rewrite set_user_cloud in Hrun by done.
      apply establish_fulfilled in Hrun as (st & Hst & ->).
      eexists _, _, st. split; [reflexivity|]. split; [exact Hst|].
      cbn [AuthContext.onSnapshot setIsLoading setAllUsers authProvider AuthState.allUsers].
      change (map ?f ?l) with (f <$> l). split.
      + apply list_elem_of_fmap. exists (User.id newUser, newUser). split; [done|].
        apply elem_of_map_to_list, lookup_insert_eq.
      + intros u ([k v] & -> & Hin)%list_elem_of_fmap.
        apply elem_of_map_to_list, lookup_insert_Some in Hin as [[_ <-]|[_ Hin]];
          [by left|right].
        rewrite Hsync. apply list_elem_of_fmap. exists (k, v). split; [done|].
        by apply elem_of_map_to_list.
    - rewrite exec_Do in Hrun. cbn [client db] in Hrun.
      apply establish_fulfilled in Hrun as (st & Hst & ->).
      eexists _, _, st. split; [reflexivity|]. split; [exact Hst|].
      cbn [setAllUsers authProvider AuthState.allUsers]. split.
      + apply elem_of_app. right. apply list_elem_of_here.
      + intros u [Hu|Hu%list_elem_of_singleton]%elem_of_app; [by right|by left]. }
  destruct Hw1 as (c1 & d1 & st & -> & Hst & Hnew & Hall).
  cbn [client].
  assert (Hfind : ∀ p,
    List.find (λ u, bool_decide (toLowerCase (User.email u) = toLowerCase email)
                    && bool_decide (User.password u = p))
      (AuthState.allUsers (authProvider (setStorage st (setUser (Some newUser) c1))))
    = if decide (password = p) then Some newUser else None).
  { intros p. cbn [setStorage setUser authProvider AuthState.allUsers].
    destruct (decide (password = p)) as [<-|Hp].
    - destruct (find_first
                  (λ u, bool_decide (toLowerCase (User.email u) = toLowerCase email)
                        && bool_decide (User.password u = password))
                  _ newUser Hnew) as [y Hy].
      { apply andb_true_iff. split; by apply bool_decide_eq_true. }
      rewrite Hy. f_equal. apply find_some in Hy as [Hin Hm].
      apply list_elem_of_In in Hin. apply andb_true_iff in Hm as [Hm _].
      apply bool_decide_eq_true in Hm.
      destruct (Hall y Hin) as [->|Hold]; [done|]. by destruct (Hfresh y Hold).
    - apply find_absent. intros u Hu. apply andb_false_iff.
      destruct (Hall u Hu) as [->|Hold].
      + right. apply bool_decide_eq_false. done.
      + left. apply bool_decide_eq_false. by apply Hfresh. }
  split; [|split; [done|split]].
  - unfold AuthContext.login. rewrite Hfind, decide_True by done.
    cbn [setStorage storage].
    by rewrite (setItem_again _ _ _ _ Hst).
  - cbn [setStorage storage]. by eapply setItem_getItem.
  - intros other Hother. unfold AuthContext.login.
    rewrite Hfind, decide_False by done. done.
Qed.

(** X11. With distinct, non-empty user identifiers, after a [login] that
    answered true the session effect on a reloaded page (same users, same
    browser storage) signs the same user in again; after [logout] it signs
    nobody in. *)
Theorem session_restored_after_login (c c1 reloaded : Client) (email password : string) :
  NoDup (map User.id (AuthState.allUsers (authProvider c))) →
  (∀ u, u ∈ AuthState.allUsers (authProvider c) → User.id u ≠ EmptyString) →
  AuthContext.login email password c = (Some true, c1) →
  AuthState.allUsers (authProvider reloaded) = AuthState.allUsers (authProvider c1) →
  storage reloaded = storage c1 →
  AuthState.user (authProvider (AuthContext.sessionEffect reloaded))
  = AuthState.user (authProvider c1)
  ∧ is_Some (AuthState.user (authProvider c1))
  ∧ AuthState.user (authProvider
      (AuthContext.sessionEffect (AuthContext.logout (AuthContext.sessionEffect reloaded))))
    = None.
Proof.
  intros Hnd Hids Hlogin Husers Hstorage.
  unfold AuthContext.login in Hlogin.
  destruct (List.find _ _) as [found|] eqn:Hfind; [|done].
  destruct (LocalStorage.setItem _ _ _) as [st|] eqn:Hset; [|done].
  injection Hlogin as <-.
  apply find_some in Hfind as [Hin _]. apply list_elem_of_In in Hin.
  cbn [setStorage setUser authProvider AuthState.user AuthState.allUsers storage]
    in Husers, Hstorage |- *.
  assert (Hrestored : AuthContext.sessionEffect reloaded = setUser (Some found) reloaded).
  { unfold AuthContext.sessionEffect. rewrite Hstorage, Husers.
    rewrite (setItem_getItem _ _ _ _ Hset). simpl.
    rewrite bool_decide_eq_false_2 by by apply Hids. simpl.
    rewrite bool_decide_eq_true_2.
    2:{ destruct (AuthState.allUsers (authProvider c)); [by apply elem_of_nil in Hin|].
        simpl. lia. }
    assert (List.find (λ u, bool_decide (Some (User.id u) = Some (User.id found)))
              (AuthState.allUsers (authProvider c)) = Some found) as ->; [|done].
    destruct (find_first (λ u, bool_decide (Some (User.id u) = Some (User.id found)))
                _ found Hin) as [y Hy]; [by apply bool_decide_eq_true|].
    rewrite Hy. f_equal. apply find_some in Hy as [Hy Hk].
    apply list_elem_of_In in Hy. apply bool_decide_eq_true in Hk.
    injection Hk as Hk. by eapply (NoDup_key_eq User.id). }
  rewrite Hrestored. split; [done|]. split; [by eexists|].
  unfold AuthContext.sessionEffect, AuthContext.logout, LocalStorage.getItem,
    LocalStorage.removeItem.
  cbn [setStorage setUser authProvider AuthState.user AuthState.allUsers storage
       LocalStorage.items].
  by rewrite lookup_delete_eq.
Qed.

Lemma delete_users_perm (m : gmap string User.t) k :
  (∀ k u, m !! k = Some u → User.id u = k) →
  (map_to_list (delete k m)).*2 ≡ₚ filter (λ u, User.id u ≠ k) (map_to_list m).*2.
Proof.
  intros Hkeyed. rewrite map_to_list_delete_perm, filter_fmap_list.
  f_equiv. erewrite filter_ext_elem; [reflexivity|]. intros [k' u] Hin.
  apply elem_of_map_to_list in Hin. simpl. by rewrite (Hkeyed _ _ Hin).
Qed.

Lemma keyed_delete_user d k :
  usersKeyed d →
  usersKeyed (Firestore.mk (delete k (Firestore.users d)) (Firestore.expenses d) true).
Proof.
  intros Hk k' v. simpl. rewrite lookup_delete_Some. intros [_ Hv]. by apply Hk.
Qed.

Lemma delete_user_cloud w k (resume : Response → Async) :
  AuthState.useCloud (authProvider (client w)) = true →
  Firestore.available (db w) = true →
  exec listeners (Await (DeleteUser k) resume) w
  = exec listeners (resume Resolved)
      (mkWorld
         (AuthContext.onSnapshot (map_to_list (delete k (Firestore.users (db w))))
                                 (client w))
         (Firestore.mk (delete k (Firestore.users (db w))) (Firestore.expenses (db w)) true)).
Proof.
  intros Hc Ha. cbn [exec]. rewrite handle_delete_user by done.
  cbn [accepted Firestore.isWrite listeners]. by rewrite Hc.
Qed.



Lemma withField_id u f : User.id (withField u f) = User.id u.
Proof. by destruct f. Qed.

Lemma updateDoc_stored d k f u :
  Firestore.available d = true → Firestore.users d !! k = Some u →
  UserDocs.updateDoc k f d
  = (Resolved,
     Firestore.mk (<[k := withField u f]> (Firestore.users d)) (Firestore.expenses d) true).
Proof. intros Ha Hk. unfold UserDocs.updateDoc. by rewrite Ha, Hk. Qed.

Lemma updateDoc_missing d k f :
  Firestore.users d !! k = None → UserDocs.updateDoc k f d = (Rejected, d).
Proof.
  intros Hk. unfold UserDocs.updateDoc. rewrite Hk.
  by destruct (Firestore.available d).
Qed.

(** A user that is not shown in cloud mode is not stored. *)
Lemma user_not_shown_not_stored w userId :
  usersKeyed (db w) → usersInSync w →
  userId ∉ map User.id (AuthState.allUsers (authProvider (client w))) →
  Firestore.users (db w) !! userId = None.
Proof.
  intros Hkeyed Hsync Hid.
  destruct (Firestore.users (db w) !! userId) as [u|] eqn:Hu; [|done].
  destruct Hid. rewrite Hsync. change (map ?f ?l) with (f <$> l).
  apply list_elem_of_fmap. exists u. split; [by rewrite (Hkeyed _ _ Hu)|].
  apply list_elem_of_fmap. exists (userId, u). split; [done|].
  by apply elem_of_map_to_list.
Qed.


Lemma withField_fieldSet (f : UserField) (u : User.t) : fieldSet f u (withField u f).
Proof. unfold fieldSet. by destruct f. Qed.



(** What a step that only touches the session leaves alone. *)
Lemma session_step_frame (k : Async) :
  (k = Return ∨ k = Do AuthContext.logout Return
   ∨ ∃ newUser,
       k = Do (setUser (Some newUser))
             (Act (λ c, (λ st, setStorage st c) <$>
                          LocalStorage.setItem AuthContext.SESSION (User.id newUser)
                                               (storage c))
                  Return Throw)) →
  ∀ c d, ∃ o c',
    exec listeners k (mkWorld c d) = (o, mkWorld c' d)
    ∧ AuthState.allUsers (authProvider c') = AuthState.allUsers (authProvider c)
    ∧ AuthState.useCloud (authProvider c') = AuthState.useCloud (authProvider c)
    ∧ expenseProvider c' = expenseProvider c.
Proof.
  intros [->|[->|[newUser ->]]] c d.
  - by eexists _, _.
  - by eexists _, _.
  - rewrite establish_run. destruct (LocalStorage.setItem _ _ _); by eexists _, _.
Qed.

Lemma update_user_missing w k p (resume : Response → Async) :
  Firestore.users (db w) !! k = None →
  exec listeners (Await (UpdateUser k p) resume) w = exec listeners (resume Rejected) w.
Proof.
  intros Hk. cbn [exec]. unfold Firestore.handle. rewrite Hk.
  destruct (Firestore.available (db w)); simpl; by destruct w.
Qed.

Lemma user_call_ready op w :
  usersReady w →
  usersReady (callUser op w).2
  ∧ AuthState.useCloud (authProvider (client (callUser op w).2))
    = AuthState.useCloud (authProvider (client w))
  ∧ expenseProvider (client (callUser op w).2) = expenseProvider (client w)
  ∧ Firestore.expenses (db (callUser op w).2) = Firestore.expenses (db w).
Proof.
  intros Hready.
  assert (Hlocal : ∀ w', AuthState.useCloud (authProvider (client w')) = false →
                         usersReady w').
  { intros w' Hw' Hc'. congruence. }
  assert (Hcloud : ∀ c' users',
    Firestore.available (db w) = true →
    (∀ k u, users' !! k = Some u → User.id u = k) →
    AuthState.allUsers (authProvider c') = (map_to_list users').*2 →
    usersReady (mkWorld c' (Firestore.mk users' (Firestore.expenses (db w)) true))).
  { intros c' users' Ha Hk Hs _. by repeat split. }
  assert (Hstep : ∀ k c d,
    (k = Return ∨ k = Do AuthContext.logout Return
     ∨ ∃ newUser,
         k = Do (setUser (Some newUser))
               (Act (λ c, (λ st, setStorage st c) <$>
                            LocalStorage.setItem AuthContext.SESSION (User.id newUser)
                                                 (storage c))
                    Return Throw)) →
    (∀ c', AuthState.allUsers (authProvider c') = AuthState.allUsers (authProvider c) →
           AuthState.useCloud (authProvider c') = AuthState.useCloud (authProvider c) →
           usersReady (mkWorld c' d)) →
    AuthState.useCloud (authProvider c) = AuthState.useCloud (authProvider (client w)) →
    expenseProvider c = expenseProvider (client w) →
    Firestore.expenses d = Firestore.expenses (db w) →
    usersReady (exec listeners k (mkWorld c d)).2
    ∧ AuthState.useCloud (authProvider (client (exec listeners k (mkWorld c d)).2))
      = AuthState.useCloud (authProvider (client w))
    ∧ expenseProvider (client (exec listeners k (mkWorld c d)).2)
      = expenseProvider (client w)
    ∧ Firestore.expenses (db (exec listeners k (mkWorld c d)).2)
      = Firestore.expenses (db w)).
  { intros k c d Hk Hr Hcl Hex Hd.
    destruct (session_step_frame k Hk c d) as (o & c' & -> & Hall & Hcl' & Hex').
    cbn [snd client db]. split; [by apply Hr|]. split; [congruence|].
    split; [congruence|done]. }
  destruct (AuthState.useCloud (authProvider (client w))) eqn:Hc.
  - destruct (Hready Hc) as (Ha & Hkeyed & Hsync).
    assert (Hfield : ∀ userId f,
      usersReady (AuthContext.updateUserField userId f w).2
      ∧ AuthState.useCloud (authProvider (client (AuthContext.updateUserField userId f w).2))
        = true
      ∧ expenseProvider (client (AuthContext.updateUserField userId f w).2)
        = expenseProvider (client w)
      ∧ Firestore.expenses (db (AuthContext.updateUserField userId f w).2)
        = Firestore.expenses (db w)).
    { intros userId f. unfold AuthContext.updateUserField. rewrite Hc.
      destruct (Firestore.users (db w) !! userId) as [u|] eqn:Hu.
      - rewrite (updateDoc_stored _ _ _ u) by done. cbn [snd client db].
        split; [|by rewrite <- Hc].
        apply Hcloud; [done| |done].
        apply keyed_overwrite; [done|]. rewrite withField_id. by apply Hkeyed.
      - rewrite updateDoc_missing by done. cbn [snd client db].
        split; [|by rewrite <- Hc]. intros _. by repeat split. }
    destruct op as [now name email password|userId r|userId a|userId p
                   |now userId name email|userId approve|userId]; unfold callUser.
    + unfold run, AuthContext.signup.
      destruct (List.find _ _) as [existing|].
      * cbn [exec Do snd client db]. split; [|by rewrite <- Hc].
        intros _. by repeat split.
      * rewrite Hc. rewrite set_user_cloud by done.
        apply Hstep; [right; right; by eexists| |done|done|done].
        intros c' Hall Hcl. apply Hcloud; [done| |by rewrite Hall].
        by apply keyed_overwrite.
    + apply Hfield.
    + apply Hfield.
    + apply Hfield.
    + unfold run, AuthContext.requestProfileUpdate. rewrite Hc.
      destruct (Firestore.users (db w) !! userId) as [u|] eqn:Hu.
      * rewrite (update_user_cloud w _ _ u) by done. cbn [exec snd client db].
        split; [|by rewrite <- Hc].
        apply Hcloud; [done| |done].
        apply keyed_overwrite; [done|]. simpl. by apply Hkeyed.
      * rewrite update_user_missing by done. cbn [exec snd]. by rewrite Hc.
    + unfold run, AuthContext.resolveProfileUpdate.
      destruct (List.find _ _) as [u|] eqn:Hfind; [|cbn [exec snd]; by rewrite Hc].
      destruct (User.pendingUpdates u) as [p|]; [|cbn [exec snd]; by rewrite Hc].
      rewrite Hc. rewrite set_user_cloud by done. cbn [exec snd client db].
      split; [|by rewrite <- Hc].
      apply find_some in Hfind as [_ Hid]. apply bool_decide_eq_true in Hid.
      apply Hcloud; [done| |done].
      apply keyed_overwrite; [done|]. by destruct approve.
    + unfold run, AuthContext.deleteUser. rewrite Hc.
      rewrite delete_user_cloud by done.
      apply Hstep; [|  |done|done|done].
      * destruct (AuthState.user _) as [u|]; [|by left].
        destruct (decide _); [right; by left|by left].
      * intros c' Hall Hcl. apply Hcloud; [done| |by rewrite Hall].
        intros k v. rewrite lookup_delete_Some. intros [_ Hv]. by apply Hkeyed.
  - destruct op as [now name email password|userId r|userId a|userId p
                   |now userId name email|userId approve|userId]; unfold callUser.
    + unfold run, AuthContext.signup.
      destruct (List.find _ _) as [existing|].
      * cbn [exec Do snd client db]. split; [by apply Hlocal|done].
      * rewrite Hc. rewrite exec_Do.
        apply Hstep; [right; right; by eexists| |done|done|done].
        intros c' Hall Hcl. apply Hlocal. cbn [client]. by rewrite Hcl.
    + unfold AuthContext.updateUserRole, AuthContext.updateUserField. rewrite Hc.
      cbn [snd client db]. split; [by apply Hlocal|done].
    + unfold AuthContext.updateUserAvatar, AuthContext.updateUserField. rewrite Hc.
      cbn [snd client db]. split; [by apply Hlocal|done].
    + unfold AuthContext.updateUserPassword, AuthContext.updateUserField. rewrite Hc.
      cbn [snd client db]. split; [by apply Hlocal|done].
    + unfold run, AuthContext.requestProfileUpdate. rewrite Hc.
      cbn [exec Do snd client db]. split; [by apply Hlocal|done].
    + unfold run, AuthContext.resolveProfileUpdate.
      destruct (List.find _ _) as [u|] eqn:Hfind;
        [|cbn [exec snd]; split; [by apply Hlocal|done]].
      destruct (User.pendingUpdates u) as [p|];
        [|cbn [exec snd]; split; [by apply Hlocal|done]].
      rewrite Hc. cbn [exec].
      destruct (mapM _ _) as [users|]; cbn [fmap option_fmap option_map exec snd client db];
        (split; [by apply Hlocal|done]).
    + unfold run, AuthContext.deleteUser. rewrite Hc. rewrite exec_Do.
      apply Hstep; [| |done|done|done].
      * destruct (AuthState.user _) as [u|]; [|by left].
        destruct (decide _); [right; by left|by left].
      * intros c' Hall Hcl. apply Hlocal. cbn [client]. by rewrite Hcl.
Qed.

(** X14. Any sequence of user operations (sign-up, the three field
    updates, request and resolve of a profile update, delete), each awaited,
    keeps a ready state ready: in cloud mode the user collection stays the
    content of the store with one user per identifier. No expense, shown or
    stored, is touched. *)
Theorem user_calls_keep_ready (ops : list UserOp.t) (w : World) :
  usersReady w →
  usersReady (calls callUser ops w)
  ∧ (AuthState.useCloud (authProvider (client w)) = true →
       AuthState.allUsers (authProvider (client (calls callUser ops w)))
       = (map_to_list (Firestore.users (db (calls callUser ops w)))).*2
       ∧ NoDup (map User.id
                  (AuthState.allUsers (authProvider (client (calls callUser ops w))))))
  ∧ expenseProvider (client (calls callUser ops w)) = expenseProvider (client w)
  ∧ Firestore.expenses (db (calls callUser ops w)) = Firestore.expenses (db w).
Proof.
  intros Hready.
  assert (Hall : usersReady (calls callUser ops w)
    ∧ AuthState.useCloud (authProvider (client (calls callUser ops w)))
      = AuthState.useCloud (authProvider (client w))
    ∧ expenseProvider (client (calls callUser ops w)) = expenseProvider (client w)
    ∧ Firestore.expenses (db (calls callUser ops w)) = Firestore.expenses (db w)).
  { revert w Hready. unfold calls.
    induction ops as [|op ops IH]; intros w Hready; [done|].
    cbn [foldl].
    destruct (user_call_ready op w Hready) as (Hr & Hc & Hex & Hd).
    destruct (IH _ Hr) as (Hr' & Hc' & Hex' & Hd').
    split; [done|]. split; [congruence|]. split; congruence. }
  destruct Hall as (Hr & Hc & Hex & Hd).
  split; [done|]. split; [|done].
  intros Hcw. rewrite <- Hc in Hcw. destruct (Hr Hcw) as (_ & Hkeyed & Hsync).
  split; [exact Hsync|]. rewrite Hsync. by apply shown_users_distinct.
Qed.

Lemma updateUserField_users w userId f :
  usersReady w →
  AuthState.allUsers (authProvider (client (AuthContext.updateUserField userId f w).2))
  = map (λ u, if decide (User.id u = userId) then withField u f else u)
        (AuthState.allUsers (authProvider (client w)))
  ∧ AuthState.user (authProvider (client (AuthContext.updateUserField userId f w).2))
    = AuthState.user (authProvider (client w))
  ∧ storage (client (AuthContext.updateUserField userId f w).2) = storage (client w).
Proof.
  intros Hready. unfold AuthContext.updateUserField.
  destruct (AuthState.useCloud (authProvider (client w))) eqn:Hc; [|done].
  destruct (Hready Hc) as (Ha & Hkeyed & Hsync).
  destruct (Firestore.users (db w) !! userId) as [u|] eqn:Hu.
  - rewrite (updateDoc_stored _ _ _ u) by done. cbn [snd client].
    split; [|done].
    cbn [AuthContext.onSnapshot setIsLoading setAllUsers authProvider AuthState.allUsers].
    rewrite Hsync. by apply (overwrite_users_with _ _ u (λ v, withField v f)).
  - rewrite updateDoc_missing by done. cbn [snd client]. split; [|done].
    cbn [console_error authProvider AuthState.allUsers].
    symmetry. apply map_unchanged. intros v Hv.
    rewrite decide_False; [done|]. intros Heq. rewrite Hsync in Hv.
    apply user_stored in Hv; [|done]. congruence.
Qed.

Lemma sessionEffect_after_update (w : World) (u : User.t) (f : UserField) :
  usersReady w →
  NoDup (map User.id (AuthState.allUsers (authProvider (client w)))) →
  u ∈ AuthState.allUsers (authProvider (client w)) →
  User.id u ≠ EmptyString →
  AuthState.user (authProvider (client w)) = Some u →
  LocalStorage.getItem AuthContext.SESSION (storage (client w)) = Some (User.id u) →
  AuthState.user (authProvider (client (AuthContext.updateUserField (User.id u) f w).2))
  = Some u
  ∧ AuthState.user
      (authProvider
         (AuthContext.sessionEffect
            (client (AuthContext.updateUserField (User.id u) f w).2)))
    = Some (withField u f).
Proof.
  intros Hready Hnd Hu Hid Huser Hsession.
  destruct (updateUserField_users w (User.id u) f Hready) as (Hall & Hus & Hst).
  split; [by rewrite Hus|].
  unfold AuthContext.sessionEffect. rewrite Hst, Hsession, Hall. simpl.
  rewrite bool_decide_eq_false_2 by done. simpl.
  rewrite bool_decide_eq_true_2.
  2:{ rewrite length_map.
      destruct (AuthState.allUsers (authProvider (client w)));
        [by apply elem_of_nil in Hu|simpl; lia]. }
  set (users' := map _ _).
  assert (Hin : withField u f ∈ users').
  { subst users'. change (map ?g ?l) with (g <$> l). apply list_elem_of_fmap.
    exists u. by rewrite decide_True. }
  destruct (find_first (λ v, bool_decide (Some (User.id v) = Some (User.id u)))
              users' (withField u f) Hin) as [y Hy].
  { apply bool_decide_eq_true. by rewrite withField_id. }
  rewrite Hy. simpl. f_equal.
  apply find_some in Hy as [Hy Hk]. apply list_elem_of_In in Hy.
  apply bool_decide_eq_true in Hk. injection Hk as Hk.
  subst users'. change (map ?g ?l) with (g <$> l) in Hy.
  apply list_elem_of_fmap in Hy as (v & -> & Hv).
  destruct (decide (User.id v = User.id u)) as [Hvu|Hvu].
  - by rewrite (NoDup_key_eq User.id _ v u Hnd Hv Hu Hvu).
  - done.
Qed.

(** X15. When the signed-in user's own role, avatar or password is updated
    through the dual-mode provider, the signed-in copy is stale right after
    the call; the session effect, which runs when the collection changes,
    replaces it by the updated user of the collection. *)
Theorem field_update_reaches_session (w : World) (u : User.t) (f : UserField) :
  usersReady w →
  NoDup (map User.id (AuthState.allUsers (authProvider (client w)))) →
  u ∈ AuthState.allUsers (authProvider (client w)) →
  User.id u ≠ EmptyString →
  AuthState.user (authProvider (client w)) = Some u →
  LocalStorage.getItem AuthContext.SESSION (storage (client w)) = Some (User.id u) →
  AuthState.user (authProvider (client (AuthContext.updateUserField (User.id u) f w).2))
  = Some u
  ∧ ∃ u',
      AuthState.user
        (authProvider
           (AuthContext.sessionEffect
              (client (AuthContext.updateUserField (User.id u) f w).2)))
      = Some u'
      ∧ fieldSet f u u'
      ∧ u' ∈ AuthState.allUsers
               (authProvider (client (AuthContext.updateUserField (User.id u) f w).2)).
Proof.
  intros Hready Hnd Hu Hid Huser Hsession.
  destruct (sessionEffect_after_update w u f Hready Hnd Hu Hid Huser Hsession)
    as (Hstale & Hfresh).
  split; [exact Hstale|]. exists (withField u f).
  split; [exact Hfresh|]. split; [apply withField_fieldSet|].
  destruct (updateUserField_users w (User.id u) f Hready) as (-> & _).
  change (map ?g ?l) with (g <$> l). apply list_elem_of_fmap.
  exists u. by rewrite decide_True.
Qed.


End UserCalls.

(** ** Page handlers *)
Section Pages.
Context `{Platform}.

(** What the end of [deleteUser] does when started. *)
Lemma start_after_delete (user : option User.t) userId l :
  let after :=
    match user with
    | Some u => if decide (User.id u = userId) then Do AuthContext.logout Return else Return
    | None => Return
    end in
  start after l
  = mkLoop (mkWorld (match user with
                     | Some u => if decide (User.id u = userId)
                                 then AuthContext.logout (client (world l))
                                 else client (world l)
                     | None => client (world l)
                     end)
                    (db (world l)))
           (inflight l) (issued l) (observed l) (settled l ++ [Fulfilled]).
Proof.
  destruct user as [u|]; simpl.
  - destruct (decide (User.id u = userId)); simpl; by destruct l as [[c d] ? ? ? ?].
  - by destruct l as [[c d] ? ? ? ?].
Qed.

(** X17. In cloud mode against a reachable store, the two calls started by
    the admin's [confirmDelete] both complete once the store has answered
    three requests. In the end no shown expense belongs to the deleted
    user, no shown user has the identifier, the other records are the old
    ones, and the state is ready again. *)
Theorem confirmDelete_cloud_completes (w : World) (u : User.t) :
  ExpenseState.useCloud (expenseProvider (client w)) = true →
  AuthState.useCloud (authProvider (client w)) = true →
  expensesReady w → usersReady w →
  let l := settle listeners 3 (UserManagement.confirmDelete (Some u) (idle w)) in
  inflight l = [] ∧ settled l = [Fulfilled; Fulfilled]
  ∧ ExpenseState.expenses (expenseProvider (client (world l)))
    ≡ₚ filter (λ e, Expense.userId e ≠ User.id u)
         (ExpenseState.expenses (expenseProvider (client w)))
  ∧ AuthState.allUsers (authProvider (client (world l)))
    ≡ₚ filter (λ v, User.id v ≠ User.id u)
         (AuthState.allUsers (authProvider (client w)))
  ∧ (∀ e, e ∈ ExpenseState.expenses (expenseProvider (client (world l))) →
          Expense.userId e ≠ User.id u)
  ∧ (∀ v, v ∈ AuthState.allUsers (authProvider (client (world l))) →
          User.id v ≠ User.id u)
  ∧ expensesReady (world l) ∧ usersReady (world l).
Proof.
  intros Hce Hca Hre Hru l.
  destruct (Hre Hce) as (Ha & Hekeyed & Hesync).
  destruct (Hru Hca) as (_ & Hukeyed & Husync).
  assert (Hl : ∃ c',
    l = mkLoop
          (mkWorld c'
             (Firestore.mk (delete (User.id u) (Firestore.users (db w)))
                (filter (λ kd, ¬ Expense.userId kd.2 = User.id u)
                   (Firestore.expenses (db w)))
                true))
          [] [GetExpensesWhereUserId (User.id u); DeleteUser (User.id u);
              Commit (map_to_list (filter (λ kd, Expense.userId kd.2 = User.id u)
                                     (Firestore.expenses (db w)))).*1]
          [Firestore.mk (delete (User.id u) (Firestore.users (db w)))
                        (Firestore.expenses (db w)) true;
           Firestore.mk (delete (User.id u) (Firestore.users (db w)))
                (filter (λ kd, ¬ Expense.userId kd.2 = User.id u)
                   (Firestore.expenses (db w)))
                true]
          [Fulfilled; Fulfilled]
    ∧ ExpenseState.expenses (expenseProvider c')
      = ExpenseContext.onSnapshot
          (map_to_list (filter (λ kd, ¬ Expense.userId kd.2 = User.id u)
                          (Firestore.expenses (db w))))
    ∧ AuthState.allUsers (authProvider c')
      = (map_to_list (delete (User.id u) (Firestore.users (db w)))).*2).
  { subst l. unfold UserManagement.confirmDelete, idle. cbn [world].
    unfold ExpenseContext.deleteExpensesByUserId, AuthContext.deleteUser.
    rewrite Hce, Hca.
    cbn [start world inflight issued observed settled app client].
    rewrite settle_step. unfold deliver.
    cbn [request resume world inflight issued observed settled].
    rewrite handle_query by done.
    cbn [accepted Firestore.isWrite start world inflight issued observed settled
         app client db].
    rewrite settle_step. unfold deliver.
    cbn [request resume world inflight issued observed settled db client].
    rewrite handle_delete_user by done.
    cbn [accepted Firestore.isWrite world inflight issued observed settled
         app client db].
    rewrite (start_after_delete (AuthState.user (authProvider (client w))) (User.id u)).
    cbn [world inflight issued observed settled client db app].
    rewrite settle_step. unfold deliver.
    cbn [request resume world inflight issued observed settled db client].
    rewrite handle_commit by done.
    cbn [accepted Firestore.isWrite start world inflight issued observed settled
         app client db Firestore.users Firestore.expenses].
    rewrite settle_done.
    pose proof (foldr_delete_filter (Firestore.expenses (db w))
                  (λ d, Expense.userId d = User.id u)) as Hf.
    cbv beta in Hf. rewrite Hf.
    eexists. split; [reflexivity|].
    unfold listeners. rewrite Hca.
    destruct (AuthState.user (authProvider (client w))) as [u0|];
      [destruct (decide (User.id u0 = User.id u))|]; simpl; by rewrite Hce. }
  destruct Hl as (c' & -> & Hexp & Husers).
  cbn [inflight settled world client db].
  assert (Hpe : ExpenseState.expenses (expenseProvider c')
                ≡ₚ filter (λ e, Expense.userId e ≠ User.id u)
                     (ExpenseState.expenses (expenseProvider (client w)))).
  { rewrite Hexp, Hesync. apply filter_shown_perm. }
  assert (Hpu : AuthState.allUsers (authProvider c')
                ≡ₚ filter (λ v, User.id v ≠ User.id u)
                     (AuthState.allUsers (authProvider (client w)))).
  { rewrite Husers, Husync. by apply delete_users_perm. }
  split; [done|]. split; [done|]. split; [done|]. split; [done|].
  split; [|split; [|split]].
  - intros e He. rewrite Hpe in He. by apply list_elem_of_filter in He as [? _].
  - intros v Hv. rewrite Hpu in Hv. by apply list_elem_of_filter in Hv as [? _].
  - intros _. cbn [client db]. split; [done|]. split; [by apply keyed_filter|done].
  - intros _. cbn [client db]. split; [done|]. split; [by apply keyed_delete_user|done].
Qed.

Lemma handle_unreachable r d :
  Firestore.available d = false → Firestore.handle r d = (Rejected, d).
Proof. intros Ha. unfold Firestore.handle. by rewrite Ha. Qed.

(** X18. Against a store that rejects every call, both calls started by
    [confirmDelete] end in an error nobody catches; the batch is never
    committed and nothing changes. *)
Theorem confirmDelete_rejecting_store (w : World) (u : User.t) :
  ExpenseState.useCloud (expenseProvider (client w)) = true →
  AuthState.useCloud (authProvider (client w)) = true →
  Firestore.available (db w) = false →
  settle listeners 3 (UserManagement.confirmDelete (Some u) (idle w))
  = mkLoop w [] [GetExpensesWhereUserId (User.id u); DeleteUser (User.id u)] []
           [Rejects; Rejects].
Proof.
  intros Hce Hca Ha.
  unfold UserManagement.confirmDelete, idle. cbn [world].
  unfold ExpenseContext.deleteExpensesByUserId, AuthContext.deleteUser.
  rewrite Hce, Hca.
  cbn [start world inflight issued observed settled app client].
  rewrite settle_step. unfold deliver.
  cbn [request resume world inflight issued observed settled].
  rewrite handle_unreachable by done.
  cbn [accepted start world inflight issued observed settled app client db].
  rewrite settle_step. unfold deliver.
  cbn [request resume world inflight issued observed settled db client].
  rewrite handle_unreachable by done.
  cbn [accepted start world inflight issued observed settled app client db].
  rewrite settle_done. by destruct w.
Qed.

(** X19. In local mode [confirmDelete] finishes within the turn, without a
    request: no expense of the deleted user and no user with the identifier
    remains, all other expenses and users are kept, and an admin who deletes
    the own account is signed out. *)
Theorem confirmDelete_local_no_orphans (w : World) (u : User.t) :
  ExpenseState.useCloud (expenseProvider (client w)) = false →
  AuthState.useCloud (authProvider (client w)) = false →
  let l := UserManagement.confirmDelete (Some u) (idle w) in
  inflight l = [] ∧ issued l = [] ∧ settled l = [Fulfilled; Fulfilled]
  ∧ (∀ e, e ∈ ExpenseState.expenses (expenseProvider (client (world l))) →
          Expense.userId e ≠ User.id u)
  ∧ (∀ v, v ∈ AuthState.allUsers (authProvider (client (world l))) →
          User.id v ≠ User.id u)
  ∧ (∀ e, Expense.userId e ≠ User.id u →
          e ∈ ExpenseState.expenses (expenseProvider (client (world l)))
          ↔ e ∈ ExpenseState.expenses (expenseProvider (client w)))
  ∧ (∀ v, User.id v ≠ User.id u →
          v ∈ AuthState.allUsers (authProvider (client (world l)))
          ↔ v ∈ AuthState.allUsers (authProvider (client w)))
  ∧ match AuthState.user (authProvider (client w)) with
    | Some me =>
        if decide (User.id me = User.id u)
        then AuthState.user (authProvider (client (world l))) = None
             ∧ LocalStorage.getItem AuthContext.SESSION (storage (client (world l))) = None
        else AuthState.user (authProvider (client (world l))) = Some me
             ∧ storage (client (world l)) = storage (client w)
    | None =>
        AuthState.user (authProvider (client (world l))) = None
        ∧ storage (client (world l)) = storage (client w)
    end.
Proof.
  intros Hce Hca l. subst l.
  unfold UserManagement.confirmDelete, idle. cbn [world].
  unfold ExpenseContext.deleteExpensesByUserId, AuthContext.deleteUser.
  rewrite Hce, Hca.
  cbn [start Do world inflight issued observed settled app client db].
  rewrite (start_after_delete (AuthState.user (authProvider (client w))) (User.id u)).
  cbn [world inflight issued observed settled client db app].
  split; [done|]. split; [done|]. split; [done|].
  assert (He : ∀ c',
    ExpenseState.expenses (expenseProvider c')
    = filter (λ e, Expense.userId e ≠ User.id u)
        (ExpenseState.expenses (expenseProvider (client w))) →
    (∀ e, e ∈ ExpenseState.expenses (expenseProvider c') → Expense.userId e ≠ User.id u)
    ∧ (∀ e, Expense.userId e ≠ User.id u →
            e ∈ ExpenseState.expenses (expenseProvider c')
            ↔ e ∈ ExpenseState.expenses (expenseProvider (client w)))).
  { intros c' ->. split.
    - intros e He. by apply list_elem_of_filter in He as [? _].
    - intros e Hne. rewrite list_elem_of_filter. tauto. }
  assert (Hu : ∀ c',
    AuthState.allUsers (authProvider c')
    = filter (λ v, User.id v ≠ User.id u)
        (AuthState.allUsers (authProvider (client w))) →
    (∀ v, v ∈ AuthState.allUsers (authProvider c') → User.id v ≠ User.id u)
    ∧ (∀ v, User.id v ≠ User.id u →
            v ∈ AuthState.allUsers (authProvider c')
            ↔ v ∈ AuthState.allUsers (authProvider (client w)))).
  { intros c' ->. split.
    - intros v Hv. by apply list_elem_of_filter in Hv as [? _].
    - intros v Hne. rewrite list_elem_of_filter. tauto. }
  destruct (AuthState.user (authProvider (client w))) as [me|] eqn:Hme;
    [destruct (decide (User.id me = User.id u))|];
    match goal with |- context [ExpenseState.expenses (expenseProvider ?c')] =>
      destruct (He c' eq_refl) as (He1 & He2);
      destruct (Hu c' eq_refl) as (Hu1 & Hu2)
    end;
    (split; [exact He1|]); (split; [exact Hu1|]); (split; [exact He2|]);
    (split; [exact Hu2|]); simpl; try done.
  split; [done|]. unfold LocalStorage.getItem. simpl. apply lookup_delete_eq.
Qed.

Lemma settle_idle notify fuel w : settle notify fuel (idle w) = idle w.
Proof. apply settle_done. Qed.

(** X20. The submit handler of the new-expense page does nothing when
    nobody is signed in. Otherwise it creates one record: owner and owner
    name are the signed-in user's, the status is SUBMITTED, the creation
    time is the clock's, the image is the preview or the empty string, the
    other fields are the form's. The record is shown, also among the
    user's own expenses; records with another identifier are as before. *)
Theorem handleSubmit_creates_for_user (w : World) (formData : AddExpense.FormData)
    (imagePreview : option string) (simpleId : string) (now : Z) :
  expensesReady w →
  let l := settle listeners 1
             (AddExpense.handleSubmit formData imagePreview simpleId now (idle w)) in
  match AuthState.user (authProvider (client w)) with
  | None => l = idle w
  | Some user =>
      inflight l = [] ∧ settled l = [Fulfilled]
      ∧ ∃ e,
          (Expense.id e = simpleId
           ∧ Expense.userId e = User.id user
           ∧ Expense.userName e = User.name user
           ∧ Expense.merchant e = AddExpense.merchant formData
           ∧ Expense.date e = AddExpense.date formData
           ∧ Expense.subtotal e = AddExpense.subtotal formData
           ∧ Expense.tax e = AddExpense.tax formData
           ∧ Expense.total e = AddExpense.total formData
           ∧ Expense.category e = AddExpense.category formData
           ∧ Expense.imageUrl e = default EmptyString imagePreview
           ∧ Expense.status e = SUBMITTED
           ∧ Expense.notes e = AddExpense.notes formData
           ∧ Expense.createdAt e = toISOString now)
          ∧ e ∈ ExpenseState.expenses (expenseProvider (client (world l)))
          ∧ e ∈ SalesHome.myExpenses (client (world l))
          ∧ (∀ x, Expense.id x ≠ simpleId →
                  x ∈ ExpenseState.expenses (expenseProvider (client (world l)))
                  ↔ x ∈ ExpenseState.expenses (expenseProvider (client w)))
          ∧ (ExpenseState.useCloud (expenseProvider (client w)) = false →
               issued l = []
               ∧ ExpenseState.expenses (expenseProvider (client (world l)))
                 = e :: ExpenseState.expenses (expenseProvider (client w)))
          ∧ (ExpenseState.useCloud (expenseProvider (client w)) = true →
               issued l = [SetExpense simpleId e]
               ∧ ∀ x, x ∈ ExpenseState.expenses (expenseProvider (client (world l))) →
                      Expense.id x = simpleId → x = e)
  end.
Proof.
  intros Hready l. subst l. unfold AddExpense.handleSubmit. cbn [idle world client].
  destruct (AuthState.user (authProvider (client w))) as [user|] eqn:Huser;
    [|apply settle_idle].
  set (e := AddExpense.submitted user formData imagePreview simpleId now).
  assert (Hfields :
    Expense.id e = simpleId
    ∧ Expense.userId e = User.id user
    ∧ Expense.userName e = User.name user
    ∧ Expense.merchant e = AddExpense.merchant formData
    ∧ Expense.date e = AddExpense.date formData
    ∧ Expense.subtotal e = AddExpense.subtotal formData
    ∧ Expense.tax e = AddExpense.tax formData
    ∧ Expense.total e = AddExpense.total formData
    ∧ Expense.category e = AddExpense.category formData
    ∧ Expense.imageUrl e = default EmptyString imagePreview
    ∧ Expense.status e = SUBMITTED
    ∧ Expense.notes e = AddExpense.notes formData
    ∧ Expense.createdAt e = toISOString now).
  { do 9 (split; [done|]). split; [|done].
    subst e. simpl. destruct imagePreview as [s|]; [|done]. simpl.
    destruct (bool_decide (s = EmptyString)) eqn:Hs; [|done].
    by apply bool_decide_eq_true in Hs. }
  unfold ExpenseContext.addExpense.
  destruct (ExpenseState.useCloud (expenseProvider (client w))) eqn:Hc.
  - destruct (Hready Hc) as (Ha & Hkeyed & Hsync).
    unfold idle. cbn [start world inflight issued observed settled app].
    rewrite settle_step. unfold deliver.
    cbn [request resume world inflight issued observed settled].
    rewrite handle_set_expense by done.
    cbn [accepted Firestore.isWrite start world inflight issued observed settled
         app client db listeners].
    rewrite Hc. rewrite settle_done.
    cbn [inflight settled issued world client db Firestore.expenses].
    split; [done|]. split; [done|]. exists e. split; [exact Hfields|].
    cbn [setExpenses expenseProvider ExpenseState.expenses].
    assert (Hin : e ∈ ExpenseContext.onSnapshot
                        (map_to_list (<[Expense.id e := toData e]>
                                        (Firestore.expenses (db w))))).
    { apply shown_after_set; [done|by left]. }
    split; [exact Hin|]. split.
    { unfold SalesHome.myExpenses.
      cbn [setExpenses authProvider expenseProvider ExpenseState.expenses].
      rewrite Huser. apply list_elem_of_filter. by split. }
    split.
    { intros x Hne. rewrite shown_after_set, Hsync by done.
      split; [intros [->|[Hx _]]; done|intros Hx; by right]. }
    split; [done|]. intros _. split; [done|].
    intros x Hx Hid. apply shown_after_set in Hx as [->|[_ Hne]]; done.
  - unfold idle. cbn [start Do world inflight issued observed settled app client db].
    rewrite settle_done. cbn [inflight settled issued world client].
    split; [done|]. split; [done|]. exists e. split; [exact Hfields|].
    cbn [setExpenses expenseProvider ExpenseState.expenses].
    split; [apply list_elem_of_here|]. split.
    { unfold SalesHome.myExpenses.
      cbn [setExpenses authProvider expenseProvider ExpenseState.expenses].
      rewrite Huser, filter_cons, decide_True by done. apply list_elem_of_here. }
    split.
    { intros x Hne. rewrite elem_of_cons. split; [intros [->|Hx]; done|by right]. }
    split; [done|]. intros Hc'. congruence.
Qed.

Lemma spread_asPartial (e v : Expense) : spread id id e (SalesHome.asPartial v) = v.
Proof. by destruct v. Qed.

Lemma spread_doc_asPartial (d : ExpenseData) (v : Expense) :
  spread Some TimeString d (SalesHome.asPartial v) = toData v.
Proof. by destruct v. Qed.

Lemma replaced_refl {A} (x : A) : replaced None x x.
Proof. done. Qed.

(** While the form is edited it holds a whole expense: the one the editing
    started from, with the last value typed into each input. *)
Lemma editing_form (selected : Expense) (inputs : list SalesHome.Input) :
  ∀ v0, ∃ v,
    foldl (λ p i, SalesHome.handleChange i p)
          (SalesHome.mkPage (Some selected) true (SalesHome.asPartial v0)) inputs
    = SalesHome.mkPage (Some selected) true (SalesHome.asPartial v)
    ∧ editedBy (typedPatch inputs) v0 v.
Proof.
  induction inputs as [|i inputs IH]; intros v0.
  - exists v0. split; [done|]. by repeat split.
  - cbn [foldl].
    destruct v0 as [i0 ui un me da su ta to ca im st no cr].
    destruct i as [x|x|x|x|x];
      cbn [SalesHome.handleChange SalesHome.editForm SalesHome.selectedExpense
           SalesHome.isEditing SalesHome.asPartial PartialExpense.id PartialExpense.userId
           PartialExpense.userName PartialExpense.merchant PartialExpense.date
           PartialExpense.subtotal PartialExpense.tax PartialExpense.total
           PartialExpense.category PartialExpense.imageUrl PartialExpense.status
           PartialExpense.notes PartialExpense.createdAt Expense.id Expense.userId
           Expense.userName Expense.merchant Expense.date Expense.subtotal Expense.tax
           Expense.total Expense.category Expense.imageUrl Expense.status Expense.notes
           Expense.createdAt];
      [destruct (IH (Expense.mk i0 ui un x da su ta to ca im st no cr)) as (v & Hv & He)
      |destruct (IH (Expense.mk i0 ui un me x su ta to ca im st no cr)) as (v & Hv & He)
      |destruct (IH (Expense.mk i0 ui un me da su ta to x im st no cr)) as (v & Hv & He)
      |destruct (IH (Expense.mk i0 ui un me da su ta x ca im st no cr)) as (v & Hv & He)
      |destruct (IH (Expense.mk i0 ui un me da su ta to ca im st x cr)) as (v & Hv & He)];
      (exists v; split; [exact Hv|]);
      unfold editedBy, typedPatch, typed in He |- *;
      cbn [omap list_omap PartialExpense.id PartialExpense.userId
           PartialExpense.userName PartialExpense.merchant PartialExpense.date
           PartialExpense.subtotal PartialExpense.tax PartialExpense.total
           PartialExpense.category PartialExpense.imageUrl PartialExpense.status
           PartialExpense.notes PartialExpense.createdAt Expense.id Expense.userId
           Expense.userName Expense.merchant Expense.date Expense.subtotal Expense.tax
           Expense.total Expense.category Expense.imageUrl Expense.status Expense.notes
           Expense.createdAt] in He |- *;
      rewrite ?last_cons;
      destruct He as (H1 & H2 & H3 & H4 & H5 & H6 & H7 & H8 & H9 & H10 & H11 & H12 & H13);
      repeat split; try done;
      match goal with
      | |- replaced (match last ?l with Some _ => _ | None => _ end) _ _ =>
          destruct (last l); done
      end.
Qed.

(** X21. Editing on the sales page: after the edit button and any
    sequence of input changes, the save button writes, for each input, the
    last value typed and keeps every field for which nothing was typed. The
    page shows the written record and leaves the editing mode; the
    collection holds the written record as the only one with the
    identifier, and the other records are as before. *)
Theorem handleSaveClick_writes_form (w : World) (p : SalesHome.Page)
    (selected : Expense) (inputs : list SalesHome.Input) :
  expensesReady w →
  SalesHome.selectedExpense p = Some selected →
  Expense.id selected ∈ map Expense.id (ExpenseState.expenses (expenseProvider (client w))) →
  let editing :=
    foldl (λ p i, SalesHome.handleChange i p) (SalesHome.handleEditClick p) inputs in
  let saved := SalesHome.handleSaveClick editing (idle w) in
  let l := settle listeners 1 saved.2 in
  ∃ view,
    SalesHome.selectedExpense saved.1 = Some view
    ∧ SalesHome.isEditing saved.1 = false
    ∧ editedBy (typedPatch inputs) selected view
    ∧ inflight l = [] ∧ settled l = [Fulfilled]
    ∧ view ∈ ExpenseState.expenses (expenseProvider (client (world l)))
    ∧ (∀ e, e ∈ ExpenseState.expenses (expenseProvider (client (world l))) →
            Expense.id e = Expense.id selected → e = view)
    ∧ (∀ e, Expense.id e ≠ Expense.id selected →
            e ∈ ExpenseState.expenses (expenseProvider (client (world l)))
            ↔ e ∈ ExpenseState.expenses (expenseProvider (client w))).
Proof.
  intros Hready Hsel Hshown editing saved l.
  assert (Hform : ∃ v, editing = SalesHome.mkPage (Some selected) true (SalesHome.asPartial v)
                       ∧ editedBy (typedPatch inputs) selected v).
  { subst editing. unfold SalesHome.handleEditClick. rewrite Hsel.
    apply editing_form. }
  destruct Hform as (v & Hform & Hedited).
  assert (Hid : Expense.id v = Expense.id selected) by apply Hedited.
  subst l saved. rewrite Hform.
  unfold SalesHome.handleSaveClick.
  cbn [SalesHome.selectedExpense SalesHome.editForm SalesHome.isEditing fst snd].
  rewrite spread_asPartial. exists v.
  do 3 (split; [done|]).
  unfold ExpenseContext.editExpense, idle. cbn [world client].
  destruct (ExpenseState.useCloud (expenseProvider (client w))) eqn:Hc.
  - destruct (Hready Hc) as (Ha & Hkeyed & Hsync).
    assert (Hstored : ∃ d, Firestore.expenses (db w) !! Expense.id selected = Some d).
    { change (map ?f ?l) with (f <$> l) in Hshown.
      apply list_elem_of_fmap in Hshown as (e & He & Hin).
      rewrite Hsync in Hin. apply shown_stored in Hin as (d & Hd & _); [|done].
      rewrite He. eauto. }
    destruct Hstored as (d & Hd).
    cbn [start world inflight issued observed settled app].
    rewrite settle_step. unfold deliver.
    cbn [request resume world inflight issued observed settled].
    unfold Firestore.handle. rewrite Ha, Hd.
    cbn [negb accepted Firestore.isWrite start world inflight issued observed settled
         app client db listeners Firestore.users Firestore.expenses].
    rewrite Hc, settle_done. cbn [inflight settled world client].
    rewrite spread_doc_asPartial, <- Hid.
    cbn [setExpenses expenseProvider ExpenseState.expenses].
    split; [done|]. split; [done|].
    split; [apply shown_after_set; [done|by left]|]. split.
    + intros e He Heid. apply shown_after_set in He as [->|[_ Hne]]; done.
    + intros e Hne. rewrite shown_after_set, Hsync by done.
      split; [intros [->|[Hin _]]; done|intros Hin; by right].
  - cbn [start Do world inflight issued observed settled app client db].
    rewrite settle_done. cbn [inflight settled world client].
    cbn [setExpenses expenseProvider ExpenseState.expenses].
    change (map ?f ?l) with (f <$> l).
    split; [done|]. split; [done|]. split; [|split].
    + change (map ?f ?l) with (f <$> l) in Hshown.
      apply list_elem_of_fmap in Hshown as (e & He & Hin).
      apply list_elem_of_fmap. exists e. split; [|done].
      by rewrite decide_True, spread_asPartial.
    + intros e (e0 & -> & Hin)%list_elem_of_fmap.
      destruct (decide (Expense.id e0 = Expense.id selected)); [|done].
      by rewrite spread_asPartial.
    + intros e Hne. rewrite list_elem_of_fmap. split.
      * intros (e0 & -> & Hin).
        destruct (decide (Expense.id e0 = Expense.id selected)); [|done].
        rewrite spread_asPartial in Hne. congruence.
      * intros Hin. exists e. by rewrite decide_False.
Qed.

(** X22. Calls addressed to an identifier that nothing has change nothing.
    [updateStatus] and [requestProfileUpdate] complete in local mode and end
    in an error in cloud mode; [resolveProfileUpdate] looks the user up
    first and completes in both modes. *)
Theorem missing_identifier_calls (w : World) (id : string) :
  expensesReady w → usersReady w →
  id ∉ map Expense.id (ExpenseState.expenses (expenseProvider (client w))) →
  id ∉ map User.id (AuthState.allUsers (authProvider (client w))) →
  (∀ status notes,
     run (λ c, ExpenseContext.updateStatus c id status notes) w
     = (if ExpenseState.useCloud (expenseProvider (client w)) then Rejects else Fulfilled,
        w))
  ∧ (∀ now name email,
       run (λ c, AuthContext.requestProfileUpdate c now id name email) w
       = (if AuthState.useCloud (authProvider (client w)) then Rejects else Fulfilled, w))
  ∧ (∀ approve,
       run (λ c, AuthContext.resolveProfileUpdate c id approve) w = (Fulfilled, w)).
Proof.
  intros Hre Hru Hide Hidu. split; [|split].
  - intros status notes. unfold run, ExpenseContext.updateStatus.
    destruct (ExpenseState.useCloud (expenseProvider (client w))) eqn:Hc.
    + destruct (Hre Hc) as (Ha & Hkeyed & Hsync).
      rewrite patch_cloud_missing; [done|]. by apply not_shown_not_stored.
    + cbn [exec Do]. f_equal. apply setExpenses_same. apply map_unchanged.
      intros e He. rewrite decide_False; [done|]. intros Heq. apply Hide.
      change (map ?f ?l) with (f <$> l). apply list_elem_of_fmap. eauto.
  - intros now name email. unfold run, AuthContext.requestProfileUpdate.
    destruct (AuthState.useCloud (authProvider (client w))) eqn:Hc.
    + destruct (Hru Hc) as (Ha & Hkeyed & Hsync).
      rewrite update_user_missing; [done|]. by apply user_not_shown_not_stored.
    + cbn [exec Do]. f_equal.
      destruct w as [[e [us cu il uc] s a co] d]. simpl in *. unfold setAllUsers. simpl.
      do 3 f_equal. apply map_unchanged.
      intros u Hu. rewrite decide_False; [done|]. intros Heq. apply Hidu.
      change (map ?f ?l) with (f <$> l). apply list_elem_of_fmap. eauto.
  - intros approve. unfold run, AuthContext.resolveProfileUpdate.
    rewrite find_absent; [done|]. intros u Hu. apply bool_decide_eq_false.
    intros Heq. apply Hidu. change (map ?f ?l) with (f <$> l).
    apply list_elem_of_fmap. eauto.
Qed.
End Pages.

(** ** Translations *)
Lemma find_rev_absent {A} (f : A → bool) (l : list A) :
  (∀ x, x ∈ l → f x = false) → List.find f (rev l) = None.
Proof.
  intros Hf. apply find_absent. intros x Hx. apply Hf.
  apply list_elem_of_In. apply list_elem_of_In in Hx. by apply in_rev in Hx.
Qed.

(** X23. The three translation tables have the same keys: a key of any
    table has a non-empty text in every language, and [t] returns it. *)
Theorem translations_complete (language : LanguageContext.Language) (key : string) :
  key ∈ (LanguageContext.translations LanguageContext.en).*1
  ∨ key ∈ (LanguageContext.translations LanguageContext.es).*1
  ∨ key ∈ (LanguageContext.translations LanguageContext.fr).*1 →
  ∃ s, LanguageContext.get language key = Some (LanguageContext.Text s)
       ∧ s ≠ EmptyString
       ∧ LanguageContext.t language key = LanguageContext.Text s.
Proof.
  intros Hkey.
  assert (Hall : ∀ from to,
    Forall (λ k, match LanguageContext.get to k with
                 | Some (LanguageContext.Text s) => negb (bool_decide (s = EmptyString))
                 | _ => false
                 end = true)
           (LanguageContext.translations from).*1).
  { intros from to. apply (bool_decide_unpack _). by destruct from, to; vm_compute. }
  assert (Hk : match LanguageContext.get language key with
               | Some (LanguageContext.Text s) => negb (bool_decide (s = EmptyString))
               | _ => false
               end = true).
  { destruct Hkey as [Hk|[Hk|Hk]];
      [pose proof (Hall LanguageContext.en language) as Hf
      |pose proof (Hall LanguageContext.es language) as Hf
      |pose proof (Hall LanguageContext.fr language) as Hf];
      rewrite Forall_forall in Hf; by apply Hf. }
  unfold LanguageContext.t.
  destruct (LanguageContext.get language key) as [[s|n]|]; try done.
  apply negb_true_iff, bool_decide_eq_false in Hk.
  exists s. split; [done|]. split; [done|]. by rewrite bool_decide_eq_false_2.
Qed.

(** X24. The category label of the sales page is what [t] returns: the
    fallback to the raw category never applies. For a category without a
    translation the label is the key with its prefix, not the category. *)
Theorem category_fallback_unused (language : LanguageContext.Language) (category : string) :
  SalesHome.translatedCat language category
  = LanguageContext.t language ("cat." +:+ category)
  ∧ (("cat." +:+ category) ∉ (LanguageContext.translations language).*1 →
     SalesHome.translatedCat language category
     = LanguageContext.Text ("cat." +:+ category)).
Proof.
  assert (H1 : SalesHome.translatedCat language category
               = LanguageContext.t language ("cat." +:+ category)).
  { unfold SalesHome.translatedCat, LanguageContext.t.
    destruct (LanguageContext.get language ("cat." +:+ category)) as [[s|n]|]; try done.
    destruct (bool_decide (s = EmptyString)) eqn:Hs; [done|]. by rewrite Hs. }
  split; [exact H1|]. intros Hkey. rewrite H1.
  unfold LanguageContext.t, LanguageContext.get.
  rewrite find_rev_absent.
  - rewrite bool_decide_eq_false_2; [done|].
    unfold LanguageContext.prototype. simpl.
    rewrite !elem_of_cons, elem_of_nil. intros Hin.
    repeat (destruct Hin as [Hin|Hin]; [discriminate Hin|]). done.
  - intros [k v] Hin. apply bool_decide_eq_false. simpl. intros ->. apply Hkey.
    apply list_elem_of_fmap. by exists ("cat." +:+ category, v).
Qed.

(** ** Concrete runs on the reference platform *)
Section Concrete.
Import Sample.
#[local] Existing Instance Browser.platform.

(** C1. A save that fails in local mode: the snapshot of [e1] with its
    receipt does not fit the store, the same snapshot without the image
    would. The dual-mode provider passes one value to [setItem], logs, and
    leaves nothing stored; the local-only provider stores the stripped
    snapshot. *)
Theorem save_failure_not_retried :
  let full := stringify_expenses [e1] in
  let stripped := stringify_expenses (map LocalExpenseProvider.lightweight [e1]) in
  LocalStorage.setItem ExpenseContext.KEY full tight = None
  ∧ is_Some (LocalStorage.setItem ExpenseContext.KEY stripped tight)
  ∧ ExpenseContext.saveEffect false [e1] tight
    = mkSaved tight [full] ["Local storage full"]
  ∧ LocalStorage.getItem ExpenseContext.KEY
      (stored (ExpenseContext.saveEffect false [e1] tight)) = None
  ∧ LocalStorage.getItem ExpenseContext.KEY
      (stored (LocalExpenseProvider.saveEffect [e1] tight)) = Some stripped.
Proof.
  vm_compute. repeat split. eexists. reflexivity.
Qed.

(** C8. A persisted snapshot that is JSON but no array: the expense
    provider falls back to the seed, the user provider takes the parsed
    object as its collection. *)
Theorem users_snapshot_not_array_taken :
  let st := LocalStorage.mk {[ AuthContext.KEY := "{}"; ExpenseContext.KEY := "{}" ]}
                            5000000%N in
  JSON_parse "{}" = Some (JObject [])
  ∧ isArray (JObject []) = false
  ∧ ExpenseContext.loadFromLocal st = FromSeed MOCK_EXPENSES
  ∧ AuthContext.loadFromLocal st = FromSnapshot (JObject [])
  ∧ AuthContext.loadFromLocal roomy = FromSeed MOCK_USERS.
Proof.
  vm_compute. repeat split.
Qed.

(** C9. The admin delete flow in cloud mode, on a user with two expenses:
    the user document is deleted before the batch of expense deletes is
    committed, and the store observed in between holds an expense of the
    deleted user. *)
Theorem confirmDelete_cloud_orphans :
  let l := settle listeners 3
             (UserManagement.confirmDelete (Some alice) (idle cloudWorld)) in
  inflight l = []
  ∧ issued l = [GetExpensesWhereUserId "u-1"; DeleteUser "u-1"; Commit ["e1"; "e2"]]
  ∧ ∃ between after,
      observed l = [between; after]
      ∧ Firestore.users between !! "u-1" = None
      ∧ Firestore.expenses between !! "e1" = Some (toData e1)
      ∧ Expense.userId (toData e1) = "u-1"
      ∧ Firestore.expenses after !! "e1" = None.
Proof.
  vm_compute. repeat split. eexists _, _. repeat split.
Qed.

(** C6. An edit addressed to an identifier that no record has does not
    end as a no-op in cloud mode: the store rejects the patch of a missing
    document, [editExpense] does not catch the rejection, and the call ends
    in an error. The collection is unchanged. The local branch of the same
    function completes on the same input, and [addExpense] completes against
    a store that rejects its write. *)
Theorem editExpense_missing_cloud_rejects :
  let fields :=
    PartialExpense.mk None None None None None None None (Some 50) None None None
                      None None in
  ExpenseState.useCloud (expenseProvider (client cloudWorld)) = true
  ∧ ("e9" ∉ map Expense.id (ExpenseState.expenses (expenseProvider (client cloudWorld))))
  ∧ run (λ c, ExpenseContext.editExpense c "e9" fields) cloudWorld
    = (Rejects, cloudWorld)
  ∧ run (λ c, ExpenseContext.editExpense c "e9" fields) localWorld
    = (Fulfilled, localWorld)
  ∧ (run (λ c, ExpenseContext.addExpense c e4) deniedWorld).1 = Fulfilled.
Proof.
  split; [reflexivity|]. split.
  - apply (bool_decide_unpack _). vm_compute. exact I.
  - split; [vm_compute; reflexivity|]. split; vm_compute; reflexivity.
Qed.

(** Two sign-ups with one email, from an empty local collection: the
    second is turned away and the one account is the first caller's. *)
Example signup_twice_same_email :
  let w1 := (run (λ c, AuthContext.signup c 1700000000000 "Alice" "alice@x.com" "pw1")
                 emptyLocal).2 in
  let '(o, w2) := run (λ c, AuthContext.signup c 1700000000001 "Bob" "alice@x.com" "pw2")
                      w1 in
  o = Fulfilled
  ∧ AuthState.allUsers (authProvider (client w2))
    = [newAccount 1700000000000 "Alice" "alice@x.com" "pw1"]
  ∧ AuthState.user (authProvider (client w2))
    = Some (newAccount 1700000000000 "Alice" "alice@x.com" "pw1")
  ∧ alerts (client w2) = ["User already exists with this email. Please login."].
Proof. vm_compute. repeat split. Qed.

(** An edit of the total alone, in local mode. *)
Example edit_total_only :
  let fields :=
    PartialExpense.mk None None None None None None None (Some 50) None None None
                      None None in
  run (λ c, ExpenseContext.editExpense c "e1" fields) localWorld
  = (Fulfilled,
     mkWorld
       (setExpenses
          (λ _, [e2; e3;
                 Expense.mk "e1" "u-1" "Alice" "Cafe Central" "2024-01-02" 1000 210 50
                            "Restaurant" (Expense.imageUrl e1) SUBMITTED "client lunch"
                            "2024-01-02T10:00:00.000Z"])
          (client localWorld))
       (db localWorld)).
Proof. vm_compute. reflexivity. Qed.

(** The instants of the reference platform. *)
Example instants_round_trip :
  getTime "2024-02-29T12:34:56.789Z" = Some 1709210096789
  ∧ toISOString 1709210096789 = "2024-02-29T12:34:56.789Z"
  ∧ getTime "2023-02-29T12:34:56.789Z" = None
  ∧ encodeURIComponent "Ana & co" = "Ana%20%26%20co"
  ∧ toLowerCase "Alice@X.COM" = "alice@x.com"
  ∧ JSON_parse (stringify_expenses [e2; e3]) <> None
  ∧ JSON_parse "[1,]" = None.
Proof. vm_compute. repeat split. discriminate. Qed.

Lemma sample_expensesReady : expensesReady cloudWorld.
Proof.
  intros _. split; [reflexivity|]. split; [|reflexivity].
  apply expensesKeyed_decide. apply (bool_decide_unpack _). vm_compute. exact I.
Qed.

Lemma sample_usersReady : usersReady cloudWorld.
Proof.
  intros _. split; [reflexivity|]. split; [|reflexivity].
  apply usersKeyed_decide. apply (bool_decide_unpack _). vm_compute. exact I.
Qed.

Lemma newest_first_order_witness :
  eachNewer [] [e1; e2]
  ∧ Forall dated (map ExpenseContext.fromDoc [("e1", toData e1); ("e2", toData e2)])
  ∧ ExpenseContext.getExpensesByUser (client (createAll [e1; e2] emptyLocal)) "u-1"
    = [e2; e1]
  ∧ ExpenseContext.onSnapshot [("e1", toData e1); ("e2", toData e2)] = [e2; e1]
  ∧ ExpenseContext.onSnapshot [("e2", toData e2); ("e1", toData e1)] = [e2; e1].
Proof.
  assert (Hnew : eachNewer [] [e1; e2]).
  { simpl. repeat split; repeat constructor. apply newer_decide. vm_compute. reflexivity. }
  assert (Hdated : Forall dated
            (map ExpenseContext.fromDoc [("e1", toData e1); ("e2", toData e2)])).
  { repeat constructor; apply dated_decide; vm_compute; reflexivity. }
  split; [exact Hnew|]. split; [exact Hdated|].
  destruct (newest_first_order emptyLocal [e1; e2] "u-1"
              [("e1", toData e1); ("e2", toData e2)]
              [("e2", toData e2); ("e1", toData e1)])
    as ((Hshown & _) & _ & _);
    [reflexivity|constructor|exact Hnew|exact Hdated|apply Permutation_swap|].
  split; [rewrite Hshown; vm_compute; reflexivity|].
  split; vm_compute; reflexivity.
Defined.

Lemma profile_update_workflow_witness :
  usersReady cloudWorld
  ∧ NoDup (map User.id (AuthState.allUsers (authProvider (client cloudWorld))))
  ∧ alice ∈ AuthState.allUsers (authProvider (client cloudWorld))
  ∧ AuthState.allUsers (authProvider (client
      (run (λ c, AuthContext.resolveProfileUpdate c "u-1" true) cloudWorld).2))
    = [User.mk "u-1" "Alice B" "alice.b@x.com" "pw1" SALES (User.avatar alice) None; bob]
  ∧ AuthState.allUsers (authProvider (client
      (run (λ c, AuthContext.resolveProfileUpdate c "u-1" false) cloudWorld).2))
    = [clearPending alice; bob].
Proof.
  assert (Hnd : NoDup (map User.id (AuthState.allUsers (authProvider (client cloudWorld))))).
  { apply (bool_decide_unpack _). vm_compute. exact I. }
  assert (Hin : alice ∈ AuthState.allUsers (authProvider (client cloudWorld))).
  { vm_compute. apply list_elem_of_here. }
  split; [exact sample_usersReady|]. split; [exact Hnd|]. split; [exact Hin|].
  destruct (profile_update_workflow cloudWorld alice true 0 0
              EmptyString EmptyString EmptyString EmptyString
              sample_usersReady Hnd Hin) as (Hpending & _ & _).
  destruct (Hpending _ eq_refl) as ((w1 & Hrun1 & Hw1) & (w2 & Hrun2 & Hw2)).
  change (User.id alice) with "u-1" in Hrun1, Hrun2.
  rewrite Hrun1, Hrun2. simpl snd. rewrite Hw1, Hw2.
  split; vm_compute; reflexivity.
Defined.

Lemma deleteExpensesByUserId_removes_owner_witness :
  expensesReady cloudWorld
  ∧ ExpenseState.expenses (expenseProvider (client (world
      (settle listeners 2
         (start (ExpenseContext.deleteExpensesByUserId (client cloudWorld) "u-1")
                (idle cloudWorld))))))
    ≡ₚ [e3].
Proof.
  split; [exact sample_expensesReady|].
  destruct (deleteExpensesByUserId_removes_owner cloudWorld "u-1" sample_expensesReady)
    as (_ & _ & Hperm & _).
  rewrite Hperm. vm_compute. reflexivity.
Defined.

Lemma updateStatus_partial_update_witness :
  expensesReady cloudWorld
  ∧ "e1" ∈ map Expense.id (ExpenseState.expenses (expenseProvider (client cloudWorld)))
  ∧ ExpenseState.expenses (expenseProvider (client
      (run (λ c, ExpenseContext.updateStatus c "e1" APPROVED None) cloudWorld).2))
    = [e2; e3; setStatus APPROVED e1].
Proof.
  assert (Hin : "e1" ∈ map Expense.id
                  (ExpenseState.expenses (expenseProvider (client cloudWorld)))).
  { apply (bool_decide_unpack _). vm_compute. exact I. }
  split; [exact sample_expensesReady|]. split; [exact Hin|].
  destruct (updateStatus_partial_update cloudWorld "e1" APPROVED None
              sample_expensesReady Hin) as (w' & Hrun & Hkeep & _).
  rewrite Hrun. simpl snd. rewrite Hkeep by (by left). vm_compute. reflexivity.
Defined.

Lemma editExpense_frame_witness :
  let fields :=
    PartialExpense.mk None None None None None None None (Some 50) None None None
                      None None in
  expensesReady cloudWorld
  ∧ "e1" ∈ map Expense.id (ExpenseState.expenses (expenseProvider (client cloudWorld)))
  ∧ Forall2 (λ e e', if decide (Expense.id e = "e1")
                     then editedBy fields e e' else e' = e)
      (ExpenseState.expenses (expenseProvider (client cloudWorld)))
      (ExpenseState.expenses
         (expenseProvider
            (client (run (λ c, ExpenseContext.editExpense c "e1" fields) cloudWorld).2)))
  ∧ (run (λ c, ExpenseContext.editExpense c "e9" fields) localWorld)
    = (Fulfilled, localWorld).
Proof.
  intros fields.
  assert (Hin : "e1" ∈ map Expense.id
                  (ExpenseState.expenses (expenseProvider (client cloudWorld)))).
  { apply (bool_decide_unpack _). vm_compute. exact I. }
  split; [exact sample_expensesReady|]. split; [exact Hin|].
  destruct (editExpense_frame cloudWorld "e1" fields sample_expensesReady)
    as (Hshown & _).
  destruct (Hshown Hin) as (w' & Hrun & _ & Hframe).
  split.
  - rewrite Hrun. simpl snd. apply Hframe. by right.
  - vm_compute. reflexivity.
Defined.

Lemma signup_unique_email_witness :
  (usersInSync cloudWorld
   ∧ Firestore.users (db cloudWorld) !! "u-1700000000000" = None)
  ∧ length (AuthState.allUsers (authProvider (client
      (run (λ c, AuthContext.signup c 1700000000000 "Carol" "carol@x.com" "pw3")
           cloudWorld).2))) = 3%nat
  ∧ AuthState.allUsers (authProvider (client
      (run (λ c, AuthContext.signup c 1700000000000 "Bob" "ALICE@x.com" "pw2")
           cloudWorld).2)) = [alice; bob].
Proof.
  assert (Hcloud : usersInSync cloudWorld
                   ∧ Firestore.users (db cloudWorld) !! "u-1700000000000" = None).
  { split; [reflexivity|]. vm_compute. reflexivity. }
  split; [exact Hcloud|]. split.
  - destruct (signup_unique_email cloudWorld 1700000000000 "Carol" "carol@x.com" "pw3")
      as (o & w' & Hrun & _ & Hnew).
    rewrite Hrun. simpl snd.
    destruct Hnew as (_ & Hlen & _); [|intros _ _; exact Hcloud|exact Hlen].
    intros (u & Hu & Hmail). vm_compute in Hu.
    apply elem_of_cons in Hu as [->|Hu]; [vm_compute in Hmail; discriminate|].
    apply elem_of_cons in Hu as [->|Hu]; [vm_compute in Hmail; discriminate|].
    by apply not_elem_of_nil in Hu.
  - destruct (signup_unique_email cloudWorld 1700000000000 "Bob" "ALICE@x.com" "pw2")
      as (o & w' & Hrun & Htaken & _).
    rewrite Hrun. simpl snd.
    destruct Htaken as (_ & Hsame & _); [|rewrite Hsame; vm_compute; reflexivity].
    exists alice. split; [vm_compute; apply list_elem_of_here|vm_compute; reflexivity].
Defined.

Lemma resolveProfileUpdate_frame_witness :
  (usersKeyed (db cloudWorld) ∧ usersInSync cloudWorld)
  ∧ Forall2 (resolveFrame "u-1")
      [alice; bob]
      (AuthState.allUsers (authProvider (client
         (run (λ c, AuthContext.resolveProfileUpdate c "u-1" true) cloudWorld).2))).
Proof.
  assert (Hcloud : usersKeyed (db cloudWorld) ∧ usersInSync cloudWorld).
  { destruct (sample_usersReady eq_refl) as (_ & Hk & Hs). by split. }
  split; [exact Hcloud|].
  destruct (resolveProfileUpdate_frame cloudWorld "u-1" true [alice; bob])
    as (Hframe & _); [intros _ _; exact Hcloud|].
  exact Hframe.
Defined.
(** *** Runs of the operations and page handlers *)
Lemma sample_local_expensesReady : expensesReady localWorld.
Proof. intros Hc. discriminate Hc. Qed.

Lemma sample_local_usersReady : usersReady localWorld.
Proof. intros Hc. discriminate Hc. Qed.

Lemma sample_alice_expensesReady : expensesReady aliceLocal.
Proof. intros Hc. discriminate Hc. Qed.

Lemma sample_alice_usersReady : usersReady aliceLocal.
Proof. intros Hc. discriminate Hc. Qed.

Lemma sample_carol_fresh :
  ∀ u, u ∈ AuthState.allUsers (authProvider (client localWorld)) →
       toLowerCase (User.email u) ≠ toLowerCase "carol@x.com".
Proof.
  intros u Hu. change (u ∈ [alice; bob]) in Hu.
  apply elem_of_cons in Hu as [->|Hu]; [vm_compute; discriminate|].
  apply elem_of_cons in Hu as [->|Hu]; [vm_compute; discriminate|].
  by apply not_elem_of_nil in Hu.
Qed.

Lemma sample_local_ids :
  NoDup (map User.id (AuthState.allUsers (authProvider (client localWorld))))
  ∧ ∀ u, u ∈ AuthState.allUsers (authProvider (client localWorld)) →
         User.id u ≠ EmptyString.
Proof.
  split.
  - apply (bool_decide_unpack _). vm_compute. exact I.
  - intros u Hu. change (u ∈ [alice; bob]) in Hu.
    apply elem_of_cons in Hu as [->|Hu]; [vm_compute; discriminate|].
    apply elem_of_cons in Hu as [->|Hu]; [vm_compute; discriminate|].
    by apply not_elem_of_nil in Hu.
Qed.

Lemma deleteExpense_removes_id_witness :
  expensesReady cloudWorld
  ∧ (∀ e, e ∈ ExpenseState.expenses
                (expenseProvider
                   (client (run (λ c, ExpenseContext.deleteExpense c "e1") cloudWorld).2)) →
          Expense.id e ≠ "e1")
  ∧ Firestore.expenses (db (run (λ c, ExpenseContext.deleteExpense c "e1") cloudWorld).2)
    !! "e1" = None
  ∧ (run (λ c, ExpenseContext.deleteExpense c "e9") cloudWorld).2 = cloudWorld.
Proof.
  split; [exact sample_expensesReady|].
  destruct (deleteExpense_removes_id cloudWorld "e1" sample_expensesReady)
    as (w' & Hrun & Hgone & _ & _ & _ & Hcloud & _).
  destruct (deleteExpense_removes_id cloudWorld "e9" sample_expensesReady)
    as (w9 & Hrun9 & _ & _ & _ & _ & _ & Hmissing & _).
  rewrite Hrun, Hrun9. cbn [snd].
  split; [exact Hgone|]. split; [exact (proj1 (Hcloud eq_refl))|].
  apply Hmissing. apply (bool_decide_unpack _). vm_compute. exact I.
Defined.

Lemma addExpense_cloud_stores_witness :
  ExpenseState.useCloud (expenseProvider (client cloudWorld)) = true
  ∧ expensesReady cloudWorld
  ∧ e4 ∈ ExpenseState.expenses
           (expenseProvider (client (run (λ c, ExpenseContext.addExpense c e4) cloudWorld).2))
  ∧ Firestore.expenses (db (run (λ c, ExpenseContext.addExpense c e4) cloudWorld).2) !! "e4"
    = Some (toData e4).
Proof.
  split; [reflexivity|]. split; [exact sample_expensesReady|].
  destruct (addExpense_cloud_stores cloudWorld e4 eq_refl sample_expensesReady)
    as (w' & Hrun & Hstore & _ & Hmem & _).
  rewrite Hrun. cbn [snd]. split; [apply Hmem; left; reflexivity|].
  rewrite Hstore. apply lookup_insert_eq.
Defined.

Lemma rejecting_store_expense_calls_witness :
  ExpenseState.useCloud (expenseProvider (client deniedWorld)) = true
  ∧ Firestore.available (db deniedWorld) = false
  ∧ alerts (client (run (λ c, ExpenseContext.addExpense c e4) deniedWorld).2)
    = ["Failed to save to cloud. Check console."]
  ∧ run (λ c, ExpenseContext.deleteExpense c "e1") deniedWorld = (Rejects, deniedWorld).
Proof.
  split; [reflexivity|]. split; [reflexivity|].
  destruct (rejecting_store_expense_calls deniedWorld eq_refl eq_refl)
    as (Hadd & _ & Hdel & _).
  split; [rewrite Hadd; reflexivity|apply Hdel].
Defined.

Lemma addExpense_twice_witness :
  map Expense.id
    (ExpenseState.expenses
       (expenseProvider
          (client (run (λ c, ExpenseContext.addExpense c e4)
                       (run (λ c, ExpenseContext.addExpense c e4) localWorld).2).2)))
  = ["e4"; "e4"; "e2"; "e3"; "e1"]
  ∧ (run (λ c, ExpenseContext.addExpense c e4)
         (run (λ c, ExpenseContext.addExpense c e4) cloudWorld).2).2
    = (run (λ c, ExpenseContext.addExpense c e4) cloudWorld).2.
Proof.
  split.
  - destruct (addExpense_twice localWorld e4) as (Hlocal & _).
    destruct (Hlocal eq_refl) as (Htwice & _).
    rewrite Htwice. reflexivity.
  - destruct (addExpense_twice cloudWorld e4) as (_ & Hcloud).
    exact (proj1 (Hcloud eq_refl eq_refl)).
Defined.

Lemma addExpense_deleteExpense_round_trip_witness :
  expensesReady cloudWorld
  ∧ (Expense.id e4
     ∉ map Expense.id (ExpenseState.expenses (expenseProvider (client cloudWorld))))
  ∧ run (λ c, ExpenseContext.deleteExpense c "e4")
        (run (λ c, ExpenseContext.addExpense c e4) cloudWorld).2
    = (Fulfilled, cloudWorld).
Proof.
  assert (Hnew : Expense.id e4
                 ∉ map Expense.id (ExpenseState.expenses (expenseProvider (client cloudWorld)))).
  { apply (bool_decide_unpack _). vm_compute. exact I. }
  split; [exact sample_expensesReady|]. split; [exact Hnew|].
  exact (addExpense_deleteExpense_round_trip cloudWorld e4 sample_expensesReady Hnew).
Defined.


Lemma login_checks_credentials_witness :
  (AuthContext.login "ALICE@X.COM" "pw1" (client localWorld)).1 = Some true
  ∧ (∃ u, u ∈ [alice; bob]
          ∧ AuthState.user
              (authProvider (AuthContext.login "ALICE@X.COM" "pw1" (client localWorld)).2)
            = Some u
          ∧ User.password u = "pw1")
  ∧ (AuthContext.login "alice@x.com" "pw2" (client localWorld)).2 = client localWorld.
Proof.
  assert (Htrue : (AuthContext.login "ALICE@X.COM" "pw1" (client localWorld)).1 = Some true).
  { vm_compute. reflexivity. }
  assert (Hfalse : (AuthContext.login "alice@x.com" "pw2" (client localWorld)).1
                   = Some false).
  { vm_compute. reflexivity. }
  split; [exact Htrue|]. split.
  - destruct (login_checks_credentials (client localWorld) "ALICE@X.COM" "pw1")
      as (Hok & _).
    destruct (Hok Htrue) as (u & Hin & (_ & Hpw) & Hu & _).
    exists u. split; [exact Hin|]. split; [exact Hu|exact Hpw].
  - destruct (login_checks_credentials (client localWorld) "alice@x.com" "pw2")
      as (_ & Hno & _).
    exact (proj1 (Hno Hfalse)).
Defined.

Lemma signup_then_login_witness :
  let signedUp := (run (λ c, AuthContext.signup c 1700000000000 "Carol" "carol@x.com" "pw3")
                       localWorld).2 in
  usersReady localWorld
  ∧ run (λ c, AuthContext.signup c 1700000000000 "Carol" "carol@x.com" "pw3") localWorld
    = (Fulfilled, signedUp)
  ∧ AuthContext.login "carol@x.com" "pw3" (client signedUp) = (Some true, client signedUp)
  ∧ AuthContext.login "carol@x.com" "pw1" (client signedUp) = (Some false, client signedUp).
Proof.
  intros signedUp.
  assert (Hrun : run (λ c, AuthContext.signup c 1700000000000 "Carol" "carol@x.com" "pw3")
                     localWorld = (Fulfilled, signedUp)).
  { apply injective_projections; [vm_compute; reflexivity|reflexivity]. }
  split; [exact sample_local_usersReady|]. split; [exact Hrun|].
  pose proof (signup_then_login localWorld signedUp 1700000000000 "Carol" "carol@x.com"
                "pw3" sample_local_usersReady sample_carol_fresh Hrun)
    as (Hlogin & _ & _ & Hwrong).
  split; [exact Hlogin|]. apply Hwrong. intros Heq. discriminate Heq.
Defined.

Lemma session_restored_after_login_witness :
  let signedIn := (AuthContext.login "alice@x.com" "pw1" (client localWorld)).2 in
  AuthContext.login "alice@x.com" "pw1" (client localWorld) = (Some true, signedIn)
  ∧ AuthState.user (authProvider (setUser None signedIn)) = None
  ∧ AuthState.user (authProvider (AuthContext.sessionEffect (setUser None signedIn)))
    = Some alice.
Proof.
  intros signedIn.
  assert (Hlogin : AuthContext.login "alice@x.com" "pw1" (client localWorld)
                   = (Some true, signedIn)).
  { apply injective_projections; [vm_compute; reflexivity|reflexivity]. }
  split; [exact Hlogin|]. split; [reflexivity|].
  destruct (session_restored_after_login (client localWorld) signedIn (setUser None signedIn)
              "alice@x.com" "pw1" (proj1 sample_local_ids) (proj2 sample_local_ids)
              Hlogin eq_refl eq_refl) as (Hrestored & _).
  rewrite Hrestored. vm_compute. reflexivity.
Defined.



Lemma user_calls_keep_ready_witness :
  let ops :=
    [ UserOp.Signup 1700000000000 "Carol" "carol@x.com" "pw3";
      UserOp.UpdateUserRole "u-2" ADMIN;
      UserOp.RequestProfileUpdate 1700000000001 "u-2" "Robert" "robert@x.com";
      UserOp.ResolveProfileUpdate "u-1" true;
      UserOp.UpdateUserPassword "u-9" "pw9";
      UserOp.DeleteUser "u-1" ] in
  usersReady cloudWorld
  ∧ usersReady (calls callUser ops cloudWorld)
  ∧ NoDup (map User.id (AuthState.allUsers (authProvider (client (calls callUser ops cloudWorld)))))
  ∧ Firestore.expenses (db (calls callUser ops cloudWorld)) = Firestore.expenses store.
Proof.
  intros ops. split; [exact sample_usersReady|].
  destruct (user_calls_keep_ready ops cloudWorld sample_usersReady)
    as (Hready & Hcloud & _ & Hdocs).
  split; [exact Hready|]. split; [exact (proj2 (Hcloud eq_refl))|exact Hdocs].
Defined.

Lemma field_update_reaches_session_witness :
  usersReady aliceLocal
  ∧ AuthState.user (authProvider (client aliceLocal)) = Some alice
  ∧ AuthState.user
      (authProvider (client (AuthContext.updateUserPassword "u-1" "pw9" aliceLocal).2))
    = Some alice
  ∧ ∃ u', AuthState.user
            (authProvider
               (AuthContext.sessionEffect
                  (client (AuthContext.updateUserPassword "u-1" "pw9" aliceLocal).2)))
          = Some u'
          ∧ fieldSet (Password "pw9") alice u'.
Proof.
  split; [exact sample_alice_usersReady|]. split; [reflexivity|].
  assert (Hin : alice ∈ AuthState.allUsers (authProvider (client aliceLocal))).
  { apply list_elem_of_here. }
  assert (Hid : User.id alice ≠ EmptyString).
  { intros Heq. discriminate Heq. }
  destruct (field_update_reaches_session aliceLocal alice (Password "pw9")
              sample_alice_usersReady (proj1 sample_local_ids) Hin Hid eq_refl eq_refl)
    as (Hstale & u' & Hu' & Hset & _).
  split; [exact Hstale|]. exists u'. split; [exact Hu'|exact Hset].
Defined.

Lemma confirmDelete_cloud_completes_witness :
  let l := settle listeners 3 (UserManagement.confirmDelete (Some alice) (idle cloudWorld)) in
  (ExpenseState.useCloud (expenseProvider (client cloudWorld)) = true
   ∧ AuthState.useCloud (authProvider (client cloudWorld)) = true
   ∧ expensesReady cloudWorld ∧ usersReady cloudWorld)
  ∧ inflight l = [] ∧ settled l = [Fulfilled; Fulfilled]
  ∧ (∀ e, e ∈ ExpenseState.expenses (expenseProvider (client (world l))) →
          Expense.userId e ≠ "u-1")
  ∧ (∀ v, v ∈ AuthState.allUsers (authProvider (client (world l))) → User.id v ≠ "u-1").
Proof.
  intros l.
  split; [split; [reflexivity|split; [reflexivity|split;
          [exact sample_expensesReady|exact sample_usersReady]]]|].
  destruct (confirmDelete_cloud_completes cloudWorld alice eq_refl eq_refl
              sample_expensesReady sample_usersReady)
    as (Hidle & Hsettled & _ & _ & Hexpenses & Husers & _).
  split; [exact Hidle|]. split; [exact Hsettled|]. split; [exact Hexpenses|exact Husers].
Defined.

Lemma confirmDelete_rejecting_store_witness :
  (ExpenseState.useCloud (expenseProvider (client deniedWorld)) = true
   ∧ AuthState.useCloud (authProvider (client deniedWorld)) = true
   ∧ Firestore.available (db deniedWorld) = false)
  ∧ settle listeners 3 (UserManagement.confirmDelete (Some alice) (idle deniedWorld))
    = mkLoop deniedWorld [] [GetExpensesWhereUserId "u-1"; DeleteUser "u-1"] []
             [Rejects; Rejects].
Proof.
  split; [split; [reflexivity|split; reflexivity]|].
  exact (confirmDelete_rejecting_store deniedWorld alice eq_refl eq_refl eq_refl).
Defined.

Lemma confirmDelete_local_no_orphans_witness :
  let l := UserManagement.confirmDelete (Some alice) (idle aliceLocal) in
  (ExpenseState.useCloud (expenseProvider (client aliceLocal)) = false
   ∧ AuthState.useCloud (authProvider (client aliceLocal)) = false)
  ∧ settled l = [Fulfilled; Fulfilled]
  ∧ (∀ e, e ∈ ExpenseState.expenses (expenseProvider (client (world l))) →
          Expense.userId e ≠ "u-1")
  ∧ (∀ v, v ∈ AuthState.allUsers (authProvider (client (world l))) → User.id v ≠ "u-1")
  ∧ AuthState.user (authProvider (client (world l))) = None
  ∧ LocalStorage.getItem AuthContext.SESSION (storage (client (world l))) = None.
Proof.
  intros l. split; [split; reflexivity|].
  destruct (confirmDelete_local_no_orphans aliceLocal alice eq_refl eq_refl)
    as (_ & _ & Hsettled & Hexpenses & Husers & _ & _ & Hsession).
  split; [exact Hsettled|]. split; [exact Hexpenses|]. split; [exact Husers|].
  exact Hsession.
Defined.

Lemma handleSubmit_creates_for_user_witness :
  let formData := AddExpense.mkFormData "Garage Nord" "2024-01-07" 4000 840 4840 "Parking"
                                       EmptyString in
  let l := settle listeners 1
             (AddExpense.handleSubmit formData None "k3f9x2a" 1704613500000
                                      (idle aliceLocal)) in
  expensesReady aliceLocal
  ∧ settled l = [Fulfilled]
  ∧ ∃ e, Expense.userId e = "u-1" ∧ Expense.userName e = "Alice"
         ∧ Expense.status e = SUBMITTED ∧ Expense.imageUrl e = EmptyString
         ∧ Expense.total e = 4840
         ∧ e ∈ SalesHome.myExpenses (client (world l)).
Proof.
  intros formData l. split; [exact sample_alice_expensesReady|].
  pose proof (handleSubmit_creates_for_user aliceLocal formData None "k3f9x2a" 1704613500000
                sample_alice_expensesReady) as Hsubmit.
  change (AuthState.user (authProvider (client aliceLocal))) with (Some alice) in Hsubmit.
  cbv beta iota zeta in Hsubmit.
  destruct Hsubmit as (_ & Hsettled & e & Hfields & _ & Hmine & _).
  split; [exact Hsettled|]. exists e.
  destruct Hfields as (_ & Howner & Hname & _ & _ & _ & _ & Htotal & _ & Himage & Hstatus & _).
  split; [exact Howner|]. split; [exact Hname|]. split; [exact Hstatus|].
  split; [exact Himage|]. split; [exact Htotal|exact Hmine].
Defined.

Lemma handleSaveClick_writes_form_witness :
  let p := SalesHome.mkPage (Some e2) false
             (PartialExpense.mk None None None None None None None None None None None
                                None None) in
  let inputs := [SalesHome.Total 9999; SalesHome.Notes "late checkout";
                 SalesHome.Total 9700] in
  let editing :=
    foldl (λ p i, SalesHome.handleChange i p) (SalesHome.handleEditClick p) inputs in
  let saved := SalesHome.handleSaveClick editing (idle cloudWorld) in
  let l := settle listeners 1 saved.2 in
  (expensesReady cloudWorld
   ∧ Expense.id e2
     ∈ map Expense.id (ExpenseState.expenses (expenseProvider (client cloudWorld))))
  ∧ ∃ view, SalesHome.selectedExpense saved.1 = Some view
            ∧ Expense.total view = 9700 ∧ Expense.notes view = "late checkout"
            ∧ Expense.merchant view = "Hotel Sol"
            ∧ view ∈ ExpenseState.expenses (expenseProvider (client (world l))).
Proof.
  intros p inputs editing saved l.
  assert (Hin : Expense.id e2
                ∈ map Expense.id (ExpenseState.expenses (expenseProvider (client cloudWorld)))).
  { apply (bool_decide_unpack _). vm_compute. exact I. }
  split; [split; [exact sample_expensesReady|exact Hin]|].
  destruct (handleSaveClick_writes_form cloudWorld p e2 inputs sample_expensesReady
              eq_refl Hin) as (view & Hview & _ & Hedited & _ & _ & Hshown & _).
  exists view. split; [exact Hview|].
  destruct Hedited as (_ & _ & _ & Hmerchant & _ & _ & _ & Htotal & _ & _ & _ & Hnotes & _).
  split; [exact Htotal|]. split; [exact Hnotes|]. split; [exact Hmerchant|exact Hshown].
Defined.

Lemma missing_identifier_calls_witness :
  (expensesReady cloudWorld ∧ usersReady cloudWorld
   ∧ ("zz" ∉ map Expense.id (ExpenseState.expenses (expenseProvider (client cloudWorld))))
   ∧ "zz" ∉ map User.id (AuthState.allUsers (authProvider (client cloudWorld))))
  ∧ run (λ c, ExpenseContext.updateStatus c "zz" APPROVED None) cloudWorld
    = (Rejects, cloudWorld)
  ∧ run (λ c, AuthContext.requestProfileUpdate c 1700000000000 "zz" "Zed" "zed@x.com")
        cloudWorld
    = (Rejects, cloudWorld)
  ∧ run (λ c, AuthContext.resolveProfileUpdate c "zz" true) cloudWorld
    = (Fulfilled, cloudWorld).
Proof.
  assert (He : "zz" ∉ map Expense.id
                        (ExpenseState.expenses (expenseProvider (client cloudWorld)))).
  { apply (bool_decide_unpack _). vm_compute. exact I. }
  assert (Hu : "zz" ∉ map User.id (AuthState.allUsers (authProvider (client cloudWorld)))).
  { apply (bool_decide_unpack _). vm_compute. exact I. }
  split; [split; [exact sample_expensesReady|split; [exact sample_usersReady|split;
          [exact He|exact Hu]]]|].
  destruct (missing_identifier_calls cloudWorld "zz" sample_expensesReady sample_usersReady
              He Hu) as (Hstatus & Hrequest & Hresolve).
  split; [exact (Hstatus APPROVED None)|].
  split; [exact (Hrequest 1700000000000 "Zed" "zed@x.com")|exact (Hresolve true)].
Defined.

Lemma translations_complete_witness :
  "cat.Supplies" ∈ (LanguageContext.translations LanguageContext.es).*1
  ∧ ∃ s, LanguageContext.t LanguageContext.fr "cat.Supplies" = LanguageContext.Text s
         ∧ s ≠ EmptyString.
Proof.
  assert (Hkey : "cat.Supplies" ∈ (LanguageContext.translations LanguageContext.es).*1).
  { apply (bool_decide_unpack _). vm_compute. exact I. }
  split; [exact Hkey|].
  destruct (translations_complete LanguageContext.fr "cat.Supplies" (or_intror (or_introl Hkey)))
    as (s & _ & Hs & Ht).
  exists s. split; [exact Ht|exact Hs].
Defined.

Lemma category_fallback_unused_witness :
  ("cat.Sushi" ∉ (LanguageContext.translations LanguageContext.en).*1)
  ∧ SalesHome.translatedCat LanguageContext.en "Sushi" = LanguageContext.Text "cat.Sushi".
Proof.
  assert (Hkey : "cat.Sushi" ∉ (LanguageContext.translations LanguageContext.en).*1).
  { apply (bool_decide_unpack _). vm_compute. exact I. }
  split; [exact Hkey|].
  destruct (category_fallback_unused LanguageContext.en "Sushi") as (_ & Hlabel).
  exact (Hlabel Hkey).
Defined.
End Concrete.
